(** * Flash Number Trainer: the run loop of [src/app/page.tsx]

    A shallow embedding of the stimulus generator, the score computation and
    the [RunSession] component (phase machine, timer slot, keypad and submit
    handlers), followed by the properties of the specification. *)

From Stdlib Require Import ZArith List String Ascii Bool Lia Arith.
From Stdlib Require Import SpecFloat DecimalString.
Import ListNotations.

Set Implicit Arguments.

(* ================================================================== *)
(** * JavaScript numbers *)
(* ================================================================== *)

(** A JavaScript number is an IEEE 754 binary64 value; products and
    quotients are rounded to nearest, ties to even.  [Math.floor] and
    [Math.round] give an integer, or one of the three values that are not
    finite. *)
Module JS.

Definition prec : Z := 53.
Definition emax : Z := 1024.

Definition number := spec_float.

Definition of_Z (z : Z) : number := binary_normalize prec emax z 0 false.
Definition of_nat (n : nat) : number := of_Z (Z.of_nat n).

Definition mul : number -> number -> number := SFmul prec emax.
Definition div : number -> number -> number := SFdiv prec emax.

Inductive integral :=
| Int (z : Z)
| NaN
| PosInfinity
| NegInfinity.

Definition signed (s : bool) (m : positive) : Z :=
  if s then Zneg m else Zpos m.

(** [Math.floor(x)]: the greatest integer not above [x]. *)
Definition Math_floor (x : number) : integral :=
  match x with
  | S754_zero _ => Int 0
  | S754_nan => NaN
  | S754_infinity s => if s then NegInfinity else PosInfinity
  | S754_finite s m e =>
      match e with
      | Zneg p => Int (signed s m / 2 ^ Zpos p)
      | _ => Int (signed s m * 2 ^ e)
      end
  end.

(** [Math.round(x)]: the integer nearest to [x], halves going up. *)
Definition Math_round (x : number) : integral :=
  match x with
  | S754_zero _ => Int 0
  | S754_nan => NaN
  | S754_infinity s => if s then NegInfinity else PosInfinity
  | S754_finite s m e =>
      match e with
      | Zneg p => Int ((2 * signed s m + 2 ^ Zpos p) / 2 ^ (Zpos p + 1))
      | _ => Int (signed s m * 2 ^ e)
      end
  end.

(** [x + k] for an integer-valued [x] and a small integer constant [k]
    (exact below 2^53). *)
Definition plus (x : integral) (k : Z) : integral :=
  match x with
  | Int z => Int (z + k)
  | other => other
  end.

(** [x.toString()] of an integer-valued number. *)
Definition toString (x : integral) : string :=
  match x with
  | Int z => NilZero.string_of_int (Z.to_int z)
  | NaN => "NaN"
  | PosInfinity => "Infinity"
  | NegInfinity => "-Infinity"
  end.

(** What [Math.random()] may return: a binary64 value [x] with
    [0 <= x < 1]. *)
Definition random_value (x : number) : bool :=
  valid_binary prec emax x
  && SFleb (S754_zero false) x
  && SFltb x (of_Z 1).

End JS.

(* ================================================================== *)
(** * Utility functions *)
(* ================================================================== *)

(** The source of randomness: the [n]-th call of [Math.random()] returns
    [rand n]; the position of the next call is threaded through. *)
Definition Random := nat -> JS.number.

(** The body of the [for] loop of [generateStimulus], run [count] times. *)
Fixpoint generateStimulus_loop (count : nat) (minVal maxVal : Z)
         (rand : Random) (pos : nat) (numStr : string) : string * nat :=
  match count with
  | O => (numStr, pos)
  | S count' =>
      let digit :=
        JS.plus (JS.Math_floor (JS.mul (rand pos) (JS.of_Z (maxVal - minVal + 1))))
                minVal in
      generateStimulus_loop count' minVal maxVal rand (S pos)
                            (numStr ++ JS.toString digit)
  end.

Definition generateStimulus (digits : nat) (range : string)
           (rand : Random) (pos : nat) : string * nat :=
  let minVal := if String.eqb range "1-9" then 1%Z else 0%Z in
  let maxVal := 9%Z in
  generateStimulus_loop digits minVal maxVal rand pos "".

(* ================================================================== *)
(** * Data model *)
(* ================================================================== *)

Record Settings := {
  mode : string;
  digits : nat;
  displaySec : JS.number;
  itiSec : JS.number;
  trialsPerSet : nat;
  numberRange : string;
  answerMode : string;
  feedback : bool;
  feedbackSec : JS.number;
  recording : bool
}.

(** One entry of the [results] array. *)
Record TrialResult := {
  trial : nat;
  stimulus : string;
  input : string;
  isCorrect : bool;
  isVerbal : bool;
  timestamp : Z
}.

(** One entry of the history ([newRecord] in the [onFinish] callback of the
    main component). *)
Record HistoryRecord := {
  h_timestamp : Z;
  h_settings : Settings;
  h_results : list TrialResult;
  h_total : nat;
  h_correct : nat
}.

Definition newRecord (settings : Settings) (results : list TrialResult)
           (now : Z) : HistoryRecord :=
  let correctCount := List.length (filter isCorrect results) in
  {| h_timestamp := now;
     h_settings := settings;
     h_results := results;
     h_total := List.length results;
     h_correct := correctCount |}.

(* ================================================================== *)
(** * Score *)
(* ================================================================== *)

(** [ResultScreen]: [correctCount] and [score]. *)
Definition ResultScreen_correctCount (results : list TrialResult) : nat :=
  List.length (filter isCorrect results).

Definition ResultScreen_score (results : list TrialResult) : JS.integral :=
  let correctCount := ResultScreen_correctCount results in
  JS.Math_round
    (JS.mul (JS.div (JS.of_nat correctCount) (JS.of_nat (List.length results)))
            (JS.of_Z 100)).

(** The last three columns of a row of [exportCSV]:
    [TotalTrials], [CorrectCount] and [Score(%)]. *)
Definition exportCSV_row (h : HistoryRecord) : nat * nat * JS.integral :=
  (h_total h, h_correct h,
   JS.Math_round
     (JS.mul (JS.div (JS.of_nat (h_correct h)) (JS.of_nat (h_total h)))
             (JS.of_Z 100))).

(** [exportCSV] returns without writing anything when the history is
    empty. *)
Definition exportCSV (currentHistory : list HistoryRecord)
  : option (list (nat * nat * JS.integral)) :=
  match currentHistory with
  | [] => None
  | _ => Some (map exportCSV_row currentHistory)
  end.

(* ================================================================== *)
(** * The RunSession component *)
(* ================================================================== *)

Inductive Phase := PREP | SHOW | HIDE | ANSWER | FEEDBACK.

(** [feedbackState]: [null] is [None]. *)
Inductive FeedbackState := Correct | Incorrect | Verbal.

(** [view] of the main component; [RunSession] is rendered while it is
    [RUN]. *)
Inductive View := HOME | SETTINGS | RUN | RESULT | HISTORY.

(** The callbacks handed to [setTimeout] by the phase timer effect.  The
    ones of HIDE and FEEDBACK close over the values of the render in which
    the effect ran: [trialIndex], [currentStimulus] and (through
    [nextTrial]) [results]. *)
Inductive Callback :=
| ToShow
| ToHide
| AfterHide (trialIndex_c : nat) (currentStimulus_c : string)
            (results_c : list TrialResult)
| AfterFeedback (trialIndex_c : nat) (results_c : list TrialResult).

Record Timer := { callback : Callback; delay_ms : JS.number }.

Record RunState := {
  (* useState *)
  phase : Phase;
  trialIndex : nat;
  currentStimulus : string;
  userInput : string;
  results : list TrialResult;
  isPaused : bool;
  feedbackState : option FeedbackState;
  (* timerRef: the timeout that is pending, if any *)
  timerRef : option Timer;
  (* whether the last run of the phase timer effect returned its cleanup *)
  cleanup : bool;
  (* number of calls of Math.random() so far *)
  randPos : nat;
  (* state of the main component *)
  view : View;
  sessionResults : list TrialResult;
  currentHistory : list HistoryRecord;
  (* arguments of the calls of onFinish so far, oldest first *)
  onFinishCalls : list (list TrialResult)
}.

Definition setPhase (v : Phase) (s : RunState) : RunState :=
  {| phase := v; trialIndex := trialIndex s;
     currentStimulus := currentStimulus s; userInput := userInput s;
     results := results s; isPaused := isPaused s;
     feedbackState := feedbackState s; timerRef := timerRef s;
     cleanup := cleanup s; randPos := randPos s; view := view s;
     sessionResults := sessionResults s;
     currentHistory := currentHistory s;
     onFinishCalls := onFinishCalls s |}.

Definition setTrialIndex (v : nat) (s : RunState) : RunState :=
  {| phase := phase s; trialIndex := v;
     currentStimulus := currentStimulus s; userInput := userInput s;
     results := results s; isPaused := isPaused s;
     feedbackState := feedbackState s; timerRef := timerRef s;
     cleanup := cleanup s; randPos := randPos s; view := view s;
     sessionResults := sessionResults s;
     currentHistory := currentHistory s;
     onFinishCalls := onFinishCalls s |}.

Definition setCurrentStimulus (v : string) (s : RunState) : RunState :=
  {| phase := phase s; trialIndex := trialIndex s;
     currentStimulus := v; userInput := userInput s;
     results := results s; isPaused := isPaused s;
     feedbackState := feedbackState s; timerRef := timerRef s;
     cleanup := cleanup s; randPos := randPos s; view := view s;
     sessionResults := sessionResults s;
     currentHistory := currentHistory s;
     onFinishCalls := onFinishCalls s |}.

Definition setUserInput (v : string) (s : RunState) : RunState :=
  {| phase := phase s; trialIndex := trialIndex s;
     currentStimulus := currentStimulus s; userInput := v;
     results := results s; isPaused := isPaused s;
     feedbackState := feedbackState s; timerRef := timerRef s;
     cleanup := cleanup s; randPos := randPos s; view := view s;
     sessionResults := sessionResults s;
     currentHistory := currentHistory s;
     onFinishCalls := onFinishCalls s |}.

Definition setResults (v : list TrialResult) (s : RunState) : RunState :=
  {| phase := phase s; trialIndex := trialIndex s;
     currentStimulus := currentStimulus s; userInput := userInput s;
     results := v; isPaused := isPaused s;
     feedbackState := feedbackState s; timerRef := timerRef s;
     cleanup := cleanup s; randPos := randPos s; view := view s;
     sessionResults := sessionResults s;
     currentHistory := currentHistory s;
     onFinishCalls := onFinishCalls s |}.

Definition setIsPaused (v : bool) (s : RunState) : RunState :=
  {| phase := phase s; trialIndex := trialIndex s;
     currentStimulus := currentStimulus s; userInput := userInput s;
     results := results s; isPaused := v;
     feedbackState := feedbackState s; timerRef := timerRef s;
     cleanup := cleanup s; randPos := randPos s; view := view s;
     sessionResults := sessionResults s;
     currentHistory := currentHistory s;
     onFinishCalls := onFinishCalls s |}.

Definition setFeedbackState (v : option FeedbackState) (s : RunState)
  : RunState :=
  {| phase := phase s; trialIndex := trialIndex s;
     currentStimulus := currentStimulus s; userInput := userInput s;
     results := results s; isPaused := isPaused s;
     feedbackState := v; timerRef := timerRef s;
     cleanup := cleanup s; randPos := randPos s; view := view s;
     sessionResults := sessionResults s;
     currentHistory := currentHistory s;
     onFinishCalls := onFinishCalls s |}.

Definition setTimerRef (v : option Timer) (s : RunState) : RunState :=
  {| phase := phase s; trialIndex := trialIndex s;
     currentStimulus := currentStimulus s; userInput := userInput s;
     results := results s; isPaused := isPaused s;
     feedbackState := feedbackState s; timerRef := v;
     cleanup := cleanup s; randPos := randPos s; view := view s;
     sessionResults := sessionResults s;
     currentHistory := currentHistory s;
     onFinishCalls := onFinishCalls s |}.

Definition setCleanup (v : bool) (s : RunState) : RunState :=
  {| phase := phase s; trialIndex := trialIndex s;
     currentStimulus := currentStimulus s; userInput := userInput s;
     results := results s; isPaused := isPaused s;
     feedbackState := feedbackState s; timerRef := timerRef s;
     cleanup := v; randPos := randPos s; view := view s;
     sessionResults := sessionResults s;
     currentHistory := currentHistory s;
     onFinishCalls := onFinishCalls s |}.

Definition setRandPos (v : nat) (s : RunState) : RunState :=
  {| phase := phase s; trialIndex := trialIndex s;
     currentStimulus := currentStimulus s; userInput := userInput s;
     results := results s; isPaused := isPaused s;
     feedbackState := feedbackState s; timerRef := timerRef s;
     cleanup := cleanup s; randPos := v; view := view s;
     sessionResults := sessionResults s;
     currentHistory := currentHistory s;
     onFinishCalls := onFinishCalls s |}.

(** ** Timer and phase management *)

Definition clearTimer (s : RunState) : RunState := setTimerRef None s.

Definition setTimeout (cb : Callback) (ms : JS.number) (s : RunState)
  : RunState :=
  setTimerRef (Some {| callback := cb; delay_ms := ms |}) s.

(** The [onFinish] callback passed by the main component. *)
Definition onFinish (settings : Settings) (results_arg : list TrialResult)
           (now : Z) (s : RunState) : RunState :=
  {| phase := phase s; trialIndex := trialIndex s;
     currentStimulus := currentStimulus s; userInput := userInput s;
     results := results s; isPaused := isPaused s;
     feedbackState := feedbackState s; timerRef := timerRef s;
     cleanup := cleanup s; randPos := randPos s;
     view := RESULT;
     sessionResults := results_arg;
     currentHistory :=
       if recording settings
       then currentHistory s ++ [newRecord settings results_arg now]
       else currentHistory s;
     onFinishCalls := onFinishCalls s ++ [results_arg] |}.

(** The [onAbort] callback passed by the main component. *)
Definition onAbort (s : RunState) : RunState :=
  {| phase := phase s; trialIndex := trialIndex s;
     currentStimulus := currentStimulus s; userInput := userInput s;
     results := results s; isPaused := isPaused s;
     feedbackState := feedbackState s; timerRef := timerRef s;
     cleanup := cleanup s; randPos := randPos s;
     view := HOME;
     sessionResults := sessionResults s;
     currentHistory := currentHistory s;
     onFinishCalls := onFinishCalls s |}.

(** [nextTrial] as created in a render whose [trialIndex] and [results]
    were [trialIndex_c] and [results_c]; the state updates themselves are
    functional ([prev => prev + 1]) and act on the state being built. *)
Definition nextTrial (settings : Settings) (trialIndex_c : nat)
           (results_c : list TrialResult) (now : Z) (s : RunState)
  : RunState :=
  if trialsPerSet settings <=? trialIndex_c + 1
  then onFinish settings results_c now s
  else setPhase PREP (setTrialIndex (trialIndex s + 1) s).

(** The data setup effect; dependencies [trialIndex], [settings.digits],
    [settings.numberRange]. *)
Definition dataSetupEffect (settings : Settings) (rand : Random)
           (s : RunState) : RunState :=
  let (num, pos') :=
    generateStimulus (digits settings) (numberRange settings) rand (randPos s) in
  setPhase PREP
    (setFeedbackState None
       (setUserInput "" (setCurrentStimulus num (setRandPos pos' s)))).

(** The body of the phase timer effect, for the render whose values are
    those of [s]. *)
Definition phaseTimerEffect (settings : Settings) (s : RunState) : RunState :=
  if isPaused s then setCleanup false s
  else
    let s := clearTimer s in
    let s :=
      match phase s with
      | PREP => setTimeout ToShow (JS.of_Z 500) s
      | SHOW =>
          setTimeout ToHide (JS.mul (displaySec settings) (JS.of_Z 1000)) s
      | HIDE =>
          setTimeout
            (AfterHide (trialIndex s) (currentStimulus s) (results s))
            (JS.mul (itiSec settings) (JS.of_Z 1000)) s
      | ANSWER => s
      | FEEDBACK =>
          if feedback settings
          then setTimeout (AfterFeedback (trialIndex s) (results s))
                          (JS.mul (feedbackSec settings) (JS.of_Z 1000)) s
          else setTimeout (AfterFeedback (trialIndex s) (results s))
                          (JS.of_Z 0) s
      end in
    setCleanup true s.

(** A re-run of the effect: the cleanup of the previous run, when it
    returned one, then the body. *)
Definition rerunPhaseTimerEffect (settings : Settings) (s : RunState)
  : RunState :=
  phaseTimerEffect settings (if cleanup s then clearTimer s else s).

Definition Phase_eqb (a b : Phase) : bool :=
  match a, b with
  | PREP, PREP | SHOW, SHOW | HIDE, HIDE | ANSWER, ANSWER
  | FEEDBACK, FEEDBACK => true
  | _, _ => false
  end.

(** Whether a dependency of the phase timer effect differs between two
    renders: [phase], [isPaused], [trialIndex], [currentStimulus], and
    [nextTrial], which is a new function when [trialIndex] or [results]
    is.  [settings] and [onFinish] do not change during a run.  [results]
    is only ever replaced by an array one element longer, so that it is a
    new array exactly when its length differs. *)
Definition timerDepsChanged (old new : RunState) : bool :=
  negb (Phase_eqb (phase old) (phase new)
        && Bool.eqb (isPaused old) (isPaused new)
        && (trialIndex old =? trialIndex new)
        && (List.length (results old) =? List.length (results new))
        && String.eqb (currentStimulus old) (currentStimulus new)).

(** The effects that run after a render, given which dependencies
    changed.  The state updates of the data setup effect take place after
    the effects of the render, and cause one more render. *)
Definition runEffects (settings : Settings) (rand : Random)
           (dataDeps timerDeps : bool) (s : RunState) : RunState :=
  let s1 := if timerDeps then rerunPhaseTimerEffect settings s else s in
  if dataDeps then
    let s2 := dataSetupEffect settings rand s1 in
    if timerDepsChanged s1 s2 then rerunPhaseTimerEffect settings s2 else s2
  else s1.

Definition unmount (s : RunState) : RunState :=
  setCleanup false (if cleanup s then clearTimer s else s).

(** What React does once a handler or a timer callback has returned:
    [old] is the state of the previous render, [s] the state with the
    updates of the handler applied. *)
Definition commit (settings : Settings) (rand : Random)
           (old s : RunState) : RunState :=
  match view s with
  | RUN =>
      runEffects settings rand
                 (negb (trialIndex old =? trialIndex s))
                 (timerDepsChanged old s) s
  | _ => unmount s
  end.

Definition initialState (pos : nat) (history : list HistoryRecord)
  : RunState :=
  {| phase := PREP; trialIndex := 0; currentStimulus := ""; userInput := "";
     results := []; isPaused := false; feedbackState := None;
     timerRef := None; cleanup := false; randPos := pos;
     view := RUN; sessionResults := []; currentHistory := history;
     onFinishCalls := [] |}.

(** The first render of [RunSession] ([handleStartTraining] has reset
    [sessionResults]); every effect runs. *)
Definition mount (settings : Settings) (rand : Random) (pos : nat)
           (history : list HistoryRecord) : RunState :=
  runEffects settings rand true true (initialState pos history).

(** ** Interactions *)

(** [prev.slice(0, -1)] *)
Definition slice_0_minus1 (prev : string) : string :=
  String.substring 0 (String.length prev - 1) prev.

Definition handleKeypad (settings : Settings) (key : string) (s : RunState)
  : RunState :=
  match phase s with
  | ANSWER =>
      if String.eqb key "DELETE" then
        setUserInput (slice_0_minus1 (userInput s)) s
      else if String.eqb key "CLEAR" then
        setUserInput "" s
      else if String.length (userInput s) <? digits settings then
        setUserInput (userInput s ++ key) s
      else s
  | _ => s
  end.

Definition submitAnswer (settings : Settings) (verbal : bool) (now : Z)
           (s : RunState) : RunState :=
  match phase s with
  | ANSWER =>
      let isCorrect :=
        if verbal then true
        else String.eqb (userInput s) (currentStimulus s) in
      let s1 :=
        setResults
          (results s ++
           [{| trial := trialIndex s + 1;
               stimulus := currentStimulus s;
               input := if verbal then "(Verbal)" else userInput s;
               isCorrect := isCorrect;
               isVerbal := verbal;
               timestamp := now |}]) s in
      if feedback settings then
        setPhase FEEDBACK
          (setFeedbackState
             (Some (if verbal then Verbal
                    else if isCorrect then Correct else Incorrect)) s1)
      else nextTrial settings (trialIndex s) (results s) now s1
  | _ => s
  end.

(** The callback of the pending timeout runs. *)
Definition runCallback (settings : Settings) (cb : Callback) (now : Z)
           (s : RunState) : RunState :=
  match cb with
  | ToShow => setPhase SHOW s
  | ToHide => setPhase HIDE s
  | AfterHide trialIndex_c currentStimulus_c results_c =>
      if String.eqb (answerMode settings) "none" then
        nextTrial settings trialIndex_c results_c now
          (setResults
             (results s ++
              [{| trial := trialIndex_c + 1;
                  stimulus := currentStimulus_c;
                  input := "(None)";
                  isCorrect := true;
                  isVerbal := true;
                  timestamp := now |}]) s)
      else setPhase ANSWER s
  | AfterFeedback trialIndex_c results_c =>
      nextTrial settings trialIndex_c results_c now s
  end.

(** The buttons of the keypad: [num.toString()] for 1..9, ["0"],
    ["DELETE"] and ["CLEAR"]. *)
Inductive KeyButton := Num (num : nat) | Delete | Clear.

Definition keyOf (b : KeyButton) : string :=
  match b with
  | Num num => JS.toString (JS.Int (Z.of_nat num))
  | Delete => "DELETE"
  | Clear => "CLEAR"
  end.

(** What can happen to a running session.  [now] is the value of
    [Date.now()] during the event. *)
Inductive Event :=
| TimerFired (now : Z)
| KeypadPressed (b : KeyButton)
| SubmitPressed (verbal : bool) (now : Z)
| PausePressed
| ResumePressed
| AbortPressed.

(** Whether the control behind the event is rendered and not disabled. *)
Definition enabled (settings : Settings) (ev : Event) (s : RunState) : bool :=
  match view s with
  | RUN =>
      match ev with
      | TimerFired _ => match timerRef s with Some _ => true | None => false end
      | KeypadPressed b =>
          Phase_eqb (phase s) ANSWER
          && String.eqb (answerMode settings) "keypad"
          && match b with Num num => num <=? 9 | _ => true end
      | SubmitPressed verbal _ =>
          Phase_eqb (phase s) ANSWER
          && String.eqb (answerMode settings)
                        (if verbal then "none" else "keypad")
      | PausePressed =>
          Phase_eqb (phase s) SHOW || Phase_eqb (phase s) HIDE
      | ResumePressed => isPaused s
      | AbortPressed => true
      end
  | _ => false
  end.

Definition handle (settings : Settings) (ev : Event) (s : RunState)
  : RunState :=
  match ev with
  | TimerFired now =>
      match timerRef s with
      | Some t => runCallback settings (callback t) now (setTimerRef None s)
      | None => s
      end
  | KeypadPressed b => handleKeypad settings (keyOf b) s
  | SubmitPressed verbal now => submitAnswer settings verbal now s
  | PausePressed => setIsPaused (negb (isPaused s)) s
  | ResumePressed => setIsPaused false s
  | AbortPressed => onAbort s
  end.

Definition step (settings : Settings) (rand : Random) (ev : Event)
           (s : RunState) : RunState :=
  if enabled settings ev s then commit settings rand s (handle settings ev s)
  else s.

Fixpoint run (settings : Settings) (rand : Random) (evs : list Event)
         (s : RunState) : RunState :=
  match evs with
  | [] => s
  | ev :: evs' => run settings rand evs' (step settings rand ev s)
  end.

(** The states a session can be in. *)
Inductive reachable (settings : Settings) (rand : Random) (pos : nat)
          (history : list HistoryRecord) : RunState -> Prop :=
| reachable_mount :
    reachable settings rand pos history (mount settings rand pos history)
| reachable_step s ev :
    reachable settings rand pos history s ->
    reachable settings rand pos history (step settings rand ev s).

(** Settings as the settings screen produces them (the three durations
    play no part in what follows). *)
Definition validSettings (settings : Settings) : Prop :=
  1 <= digits settings <= 8 /\
  1 <= trialsPerSet settings <= 20 /\
  (numberRange settings = "0-9"%string \/ numberRange settings = "1-9"%string) /\
  (answerMode settings = "keypad"%string \/ answerMode settings = "none"%string).

Definition DEFAULT_SETTINGS : Settings :=
  {| mode := "sequence"; digits := 4;
     displaySec := JS.div (JS.of_Z 1) (JS.of_Z 2);
     itiSec := JS.of_Z 1; trialsPerSet := 5; numberRange := "0-9";
     answerMode := "keypad"; feedback := true; feedbackSec := JS.of_Z 1;
     recording := false |}.

(* ================================================================== *)
(** * Vocabulary of the properties *)
(* ================================================================== *)

(** [c] is one of the characters ['0' + lo .. '9']. *)
Definition isDigitFrom (lo : nat) (c : ascii) : bool :=
  (lo + 48 <=? nat_of_ascii c) && (nat_of_ascii c <=? 57).

Fixpoint allChars (p : ascii -> bool) (s : string) : bool :=
  match s with
  | EmptyString => true
  | String c s' => p c && allChars p s'
  end.

(** The integer nearest to [100 * correct / total] in exact arithmetic,
    halves going up. *)
Definition exactPercent (correct total : nat) : Z :=
  (200 * Z.of_nat correct + Z.of_nat total) / (2 * Z.of_nat total).

(** How many results the call of [onFinish] at the end of a set carries. *)
Definition deliveredCount (settings : Settings) : nat :=
  if feedback settings && negb (String.eqb (answerMode settings) "none")
  then trialsPerSet settings
  else trialsPerSet settings - 1.

(** The values a pending callback closed over are those of the state. *)
Definition callbackMatches (cb : Callback) (s : RunState) : Prop :=
  match cb with
  | ToShow => phase s = PREP
  | ToHide => phase s = SHOW
  | AfterHide trialIndex_c currentStimulus_c results_c =>
      phase s = HIDE /\ trialIndex_c = trialIndex s /\
      currentStimulus_c = currentStimulus s /\ results_c = results s
  | AfterFeedback trialIndex_c results_c =>
      phase s = FEEDBACK /\ trialIndex_c = trialIndex s /\
      results_c = results s
  end.

(** The timer slot between two events. *)
Record timerInv (s : RunState) : Prop := {
  tinv_cleanup : view s = RUN -> cleanup s = negb (isPaused s);
  tinv_paused : isPaused s = true -> timerRef s = None;
  tinv_matches :
    forall t, timerRef s = Some t -> callbackMatches (callback t) s;
  tinv_unmounted : view s <> RUN -> timerRef s = None;
  tinv_pending :
    view s = RUN -> isPaused s = false -> phase s <> ANSWER ->
    timerRef s <> None
}.

(** What every handler keeps true of the state of the component. *)
Record stateInv (settings : Settings) (s : RunState) : Prop := {
  inv_index : trialIndex s < trialsPerSet settings;
  inv_trial :
    forall k r, nth_error (results s) k = Some r -> trial r = S k;
  inv_count :
    view s = RUN ->
    List.length (results s)
    = if Phase_eqb (phase s) FEEDBACK then S (trialIndex s) else trialIndex s;
  inv_count_le : List.length (results s) <= S (trialIndex s);
  inv_paused : isPaused s = true -> phase s = SHOW \/ phase s = HIDE;
  inv_none :
    answerMode settings = "none"%string ->
    phase s <> ANSWER /\ phase s <> FEEDBACK /\
    forall r, In r (results s) -> isCorrect r = true /\ isVerbal r = true;
  inv_feedback : phase s = FEEDBACK -> feedback settings = true;
  inv_input : String.length (userInput s) <= digits settings;
  inv_calls :
    match view s with
    | RUN | HOME => onFinishCalls s = []
    | RESULT =>
        onFinishCalls s = [sessionResults s] /\
        List.length (sessionResults s) = deliveredCount settings /\
        sessionResults s = firstn (deliveredCount settings) (results s)
    | _ => False
    end
}.

(** How the state a handler leaves relates to the state [old] of the
    render it ran in. *)
Record handled (old s : RunState) : Prop := {
  hd_cleanup : cleanup s = cleanup old;
  hd_timer :
    timerRef s = timerRef old \/
    (timerRef s = None /\ (view s = RUN -> timerDepsChanged old s = true));
  hd_results :
    timerDepsChanged old s = false -> results s = results old;
  hd_trial : trialIndex s <> trialIndex old -> phase s = PREP
}.

(** Shifting a mantissa right by [n] bits: the quotient, and a round bit
    that is only set when the remainder is at least half. *)
Definition shifted (n : Z) (a b : shr_record) : Prop :=
  shr_m b = (shr_m a / 2 ^ n)%Z /\
  (shr_r b = true -> (2 ^ (n - 1) <= shr_m a mod 2 ^ n)%Z).

(** The value [m * 2^e] lies below [my * 2^(-49)]. *)
Definition below (my : positive) (m e : Z) : Prop :=
  (e <= -49 /\ 0 <= m /\ m < Zpos my * 2 ^ (-49 - e))%Z.

(** The number of results whose [isCorrect] is true. *)
Fixpoint countCorrect (results : list TrialResult) : nat :=
  match results with
  | [] => 0
  | r :: results' =>
      (if isCorrect r then 1 else 0) + countCorrect results'
  end.

Definition integral_eqb (a b : JS.integral) : bool :=
  match a, b with
  | JS.Int x, JS.Int y => Z.eqb x y
  | JS.NaN, JS.NaN => true
  | JS.PosInfinity, JS.PosInfinity => true
  | JS.NegInfinity, JS.NegInfinity => true
  | _, _ => false
  end.

(** [Math.round((correct / total) * 100)] *)
Definition percent (correct total : nat) : JS.integral :=
  JS.Math_round
    (JS.mul (JS.div (JS.of_nat correct) (JS.of_nat total)) (JS.of_Z 100)).

(** One half, a value [Math.random()] may return. *)
Definition oneHalf : JS.number := S754_finite false 4503599627370496 (-53).

(** Two states that differ at most in the timer slot. *)
Record sameFields (s s' : RunState) : Prop := {
  sf_phase : phase s' = phase s;
  sf_trialIndex : trialIndex s' = trialIndex s;
  sf_currentStimulus : currentStimulus s' = currentStimulus s;
  sf_userInput : userInput s' = userInput s;
  sf_results : results s' = results s;
  sf_isPaused : isPaused s' = isPaused s;
  sf_feedbackState : feedbackState s' = feedbackState s;
  sf_randPos : randPos s' = randPos s;
  sf_view : view s' = view s;
  sf_sessionResults : sessionResults s' = sessionResults s;
  sf_currentHistory : currentHistory s' = currentHistory s;
  sf_onFinishCalls : onFinishCalls s' = onFinishCalls s
}.

(** The timeout the phase timer effect arms for the values of [s]. *)
Definition expectedTimer (settings : Settings) (s : RunState)
  : option Timer :=
  match phase s with
  | PREP => Some {| callback := ToShow; delay_ms := JS.of_Z 500 |}
  | SHOW =>
      Some {| callback := ToHide;
              delay_ms := JS.mul (displaySec settings) (JS.of_Z 1000) |}
  | HIDE =>
      Some {| callback :=
                AfterHide (trialIndex s) (currentStimulus s) (results s);
              delay_ms := JS.mul (itiSec settings) (JS.of_Z 1000) |}
  | ANSWER => None
  | FEEDBACK =>
      Some {| callback := AfterFeedback (trialIndex s) (results s);
              delay_ms :=
                if feedback settings
                then JS.mul (feedbackSec settings) (JS.of_Z 1000)
                else JS.of_Z 0 |}
  end.

(** Between two events an unpaused session has the timeout of its
    phase pending. *)
Definition armedInv (settings : Settings) (s : RunState) : Prop :=
  view s = RUN -> isPaused s = false ->
  timerRef s = expectedTimer settings s.

(** The phase changes the run loop makes. *)
Definition phaseNext (settings : Settings) (a b : Phase) : bool :=
  match a, b with
  | PREP, SHOW => true
  | SHOW, HIDE => true
  | HIDE, ANSWER => negb (String.eqb (answerMode settings) "none")
  | HIDE, PREP => String.eqb (answerMode settings) "none"
  | ANSWER, FEEDBACK => feedback settings
  | ANSWER, PREP => negb (feedback settings)
  | FEEDBACK, PREP => true
  | _, _ => false
  end.

(** What the session keeps true once its effects have run: the
    stimulus of the current trial was generated from the random numbers
    of that trial, results record the stimulus of their trial, and the
    feedback shown is that of the last result. *)
Record settledInv (settings : Settings) (rand : Random) (pos : nat)
       (s : RunState) : Prop := {
  sinv_stimulus :
    currentStimulus s
    = fst (generateStimulus (digits settings) (numberRange settings) rand
                            (pos + digits settings * trialIndex s));
  sinv_randPos : randPos s = pos + digits settings * S (trialIndex s);
  sinv_results :
    forall k r,
      nth_error (results s) k = Some r ->
      stimulus r
      = fst (generateStimulus (digits settings) (numberRange settings) rand
                              (pos + digits settings * k));
  sinv_feedbackState :
    view s = RUN ->
    match phase s with
    | FEEDBACK =>
        exists r,
          nth_error (results s) (trialIndex s) = Some r /\
          feedbackState s
          = Some (if isVerbal r then Verbal
                  else if isCorrect r then Correct else Incorrect)
    | _ => feedbackState s = None
    end
}.

(** What the handlers keep true of the input and of the results. *)
Record dataInv (settings : Settings) (s : RunState) : Prop := {
  dinv_input : allChars (isDigitFrom 0) (userInput s) = true;
  dinv_results :
    forall r,
      In r (results s) ->
      if isVerbal r
      then isCorrect r = true /\ input r = "(None)"%string
      else isCorrect r = String.eqb (input r) (stimulus r) /\
           String.length (input r) <= digits settings /\
           allChars (isDigitFrom 0) (input r) = true;
  dinv_mode :
    forall r,
      In r (results s) ->
      isVerbal r = String.eqb (answerMode settings) "none"
}.

(** What the session keeps true of the state of the main component. *)
Definition appInv (settings : Settings) (history : list HistoryRecord)
           (s : RunState) : Prop :=
  match view s with
  | RESULT =>
      if recording settings
      then exists now,
             currentHistory s
             = history ++ [newRecord settings (sessionResults s) now]
      else currentHistory s = history
  | _ => currentHistory s = history /\ sessionResults s = []
  end.

(** The record of a trial in mode none, and of a keypad submission. *)
Definition noneRecord (s : RunState) (now : Z) : TrialResult :=
  {| trial := trialIndex s + 1; stimulus := currentStimulus s;
     input := "(None)"; isCorrect := true; isVerbal := true;
     timestamp := now |}.

Definition keypadRecord (s : RunState) (now : Z) : TrialResult :=
  {| trial := trialIndex s + 1; stimulus := currentStimulus s;
     input := userInput s;
     isCorrect := String.eqb (userInput s) (currentStimulus s);
     isVerbal := false; timestamp := now |}.

Definition appendResult (r : TrialResult) (s : RunState) : RunState :=
  setResults (results s ++ [r]) s.

(** The next trial begins: the index goes up by one and the data setup
    effect draws the new stimulus. *)
Definition startTrial (settings : Settings) (rand : Random) (s : RunState)
  : RunState :=
  dataSetupEffect settings rand
    (setPhase PREP (setTrialIndex (trialIndex s + 1) s)).

(** The steps of the run loop, as changes of the state of the component
    and of the main component (the timer slot left aside). *)
Inductive transition (settings : Settings) (rand : Random) (s : RunState)
  : RunState -> Prop :=
| T_show :
    phase s = PREP -> isPaused s = false ->
    transition settings rand s (setPhase SHOW s)
| T_hide :
    phase s = SHOW -> isPaused s = false ->
    transition settings rand s (setPhase HIDE s)
| T_answer :
    phase s = HIDE -> isPaused s = false ->
    answerMode settings <> "none"%string ->
    transition settings rand s (setPhase ANSWER s)
| T_none_next now :
    phase s = HIDE -> isPaused s = false ->
    answerMode settings = "none"%string ->
    trialIndex s + 1 < trialsPerSet settings ->
    transition settings rand s
      (startTrial settings rand (appendResult (noneRecord s now) s))
| T_none_finish now :
    phase s = HIDE -> isPaused s = false ->
    answerMode settings = "none"%string ->
    trialsPerSet settings <= trialIndex s + 1 ->
    transition settings rand s
      (onFinish settings (results s) now (appendResult (noneRecord s now) s))
| T_submit_feedback now :
    phase s = ANSWER -> answerMode settings = "keypad"%string ->
    feedback settings = true ->
    transition settings rand s
      (setPhase FEEDBACK
         (setFeedbackState
            (Some (if String.eqb (userInput s) (currentStimulus s)
                   then Correct else Incorrect))
            (appendResult (keypadRecord s now) s)))
| T_submit_next now :
    phase s = ANSWER -> answerMode settings = "keypad"%string ->
    feedback settings = false ->
    trialIndex s + 1 < trialsPerSet settings ->
    transition settings rand s
      (startTrial settings rand (appendResult (keypadRecord s now) s))
| T_submit_finish now :
    phase s = ANSWER -> answerMode settings = "keypad"%string ->
    feedback settings = false ->
    trialsPerSet settings <= trialIndex s + 1 ->
    transition settings rand s
      (onFinish settings (results s) now
                (appendResult (keypadRecord s now) s))
| T_feedback_next :
    phase s = FEEDBACK -> isPaused s = false ->
    trialIndex s + 1 < trialsPerSet settings ->
    transition settings rand s (startTrial settings rand s)
| T_feedback_finish now :
    phase s = FEEDBACK -> isPaused s = false ->
    trialsPerSet settings <= trialIndex s + 1 ->
    transition settings rand s (onFinish settings (results s) now s)
| T_key num :
    phase s = ANSWER -> num <= 9 ->
    String.length (userInput s) < digits settings ->
    transition settings rand s
      (setUserInput (userInput s ++ keyOf (Num num)) s)
| T_delete :
    phase s = ANSWER ->
    transition settings rand s
      (setUserInput (slice_0_minus1 (userInput s)) s)
| T_clear :
    phase s = ANSWER ->
    transition settings rand s (setUserInput "" s)
| T_pause :
    phase s = SHOW \/ phase s = HIDE -> isPaused s = false ->
    transition settings rand s (setIsPaused true s)
| T_resume :
    phase s = SHOW \/ phase s = HIDE -> isPaused s = true ->
    transition settings rand s (setIsPaused false s)
| T_abort :
    transition settings rand s (onAbort s).

(** The state of the component once the effects that follow a handler
    have run: as the handler left it, or with the data of the next trial
    set up when [trialIndex] changed. *)
Definition settle (settings : Settings) (rand : Random)
           (old s : RunState) : RunState :=
  match view s with
  | RUN =>
      if trialIndex old =? trialIndex s then s
      else dataSetupEffect settings rand s
  | _ => s
  end.

(** ** Scenarios *)

(** A source of randomness that yields 0.45, 0.85, 0.25, 0.15 over and
    over: with four digits in the range 0-9 every stimulus is 4821. *)
Definition scenarioRandom : Random :=
  fun n =>
    JS.div (JS.of_Z (nth (n mod 4) [45; 85; 25; 15]%Z 45%Z)) (JS.of_Z 100).

(** digits=4, trialsPerSet=1, answerMode=keypad, numberRange=0-9. *)
Definition scenarioSettings : Settings :=
  {| mode := "sequence"; digits := 4;
     displaySec := JS.div (JS.of_Z 1) (JS.of_Z 2);
     itiSec := JS.of_Z 1; trialsPerSet := 1; numberRange := "0-9";
     answerMode := "keypad"; feedback := true; feedbackSec := JS.of_Z 1;
     recording := true |}.

(** The same without the feedback phase. *)
Definition scenarioNoFeedback : Settings :=
  {| mode := "sequence"; digits := 4;
     displaySec := JS.div (JS.of_Z 1) (JS.of_Z 2);
     itiSec := JS.of_Z 1; trialsPerSet := 1; numberRange := "0-9";
     answerMode := "keypad"; feedback := false; feedbackSec := JS.of_Z 1;
     recording := true |}.

(** answerMode=none, trialsPerSet=3. *)
Definition scenarioNone : Settings :=
  {| mode := "sequence"; digits := 4;
     displaySec := JS.div (JS.of_Z 1) (JS.of_Z 2);
     itiSec := JS.of_Z 1; trialsPerSet := 3; numberRange := "0-9";
     answerMode := "none"; feedback := true; feedbackSec := JS.of_Z 1;
     recording := true |}.

(** The timer fires three times (PREP, SHOW, HIDE), then the user types
    the four keys. *)
Definition typed (a b c d : nat) : list Event :=
  [TimerFired 1; TimerFired 2; TimerFired 3;
   KeypadPressed (Num a); KeypadPressed (Num b);
   KeypadPressed (Num c); KeypadPressed (Num d)].

(** The whole set in mode none: the timer fires three times per trial. *)
Definition noneRun : list Event :=
  map TimerFired [1; 2; 3; 4; 5; 6; 7; 8; 9]%Z.

(* ================================================================== *)
(** * Properties *)
(* ================================================================== *)
(** ** Rounding of binary64 products *)

Section Digits.
Local Open Scope Z_scope.

Lemma digits2_pos_bounds (p : positive) :
  2 ^ (Zpos (digits2_pos p) - 1) <= Zpos p < 2 ^ Zpos (digits2_pos p).
Proof.
  induction p as [p IH | p IH |]; cbn [digits2_pos].
  - rewrite Pos2Z.inj_succ, Z.pow_succ_r by lia.
    replace (Z.succ (Zpos (digits2_pos p)) - 1)
      with (Z.succ (Zpos (digits2_pos p) - 1)) by lia.
    rewrite Z.pow_succ_r by lia. lia.
  - rewrite Pos2Z.inj_succ, Z.pow_succ_r by lia.
    replace (Z.succ (Zpos (digits2_pos p)) - 1)
      with (Z.succ (Zpos (digits2_pos p) - 1)) by lia.
    rewrite Z.pow_succ_r by lia. lia.
  - simpl. lia.
Qed.

Lemma Zdigits2_upper (m d : Z) :
  0 <= m -> 0 <= d -> m < 2 ^ d -> Zdigits2 m <= d.
Proof.
  intros Hm Hd Hlt. destruct m as [| p | p]; simpl; try lia.
  destruct (digits2_pos_bounds p) as [Hlo _].
  apply Z.nlt_ge. intro Hc.
  assert (2 ^ d <= 2 ^ (Zpos (digits2_pos p) - 1))
    by (apply Z.pow_le_mono_r; lia).
  lia.
Qed.

End Digits.

Section Shift.
Local Open Scope Z_scope.

Lemma shr_1_shifted (a : shr_record) :
  0 <= shr_m a -> shifted 1 a (shr_1 a).
Proof.
  destruct a as [m r s]; simpl; intros Hm.
  unfold shifted.
  destruct m as [| [p | p |] | p]; cbn [shr_1 shr_m shr_r]; try lia.
  all: change (2 ^ 1) with 2; change (2 ^ (1 - 1)) with 1.
  all: try rewrite Pos2Z.inj_xI; try rewrite Pos2Z.inj_xO.
  all: split; [| try discriminate; intros _ ]; Z.div_mod_to_equations; lia.
Qed.

Lemma shifted_compose (n k : Z) (a b c : shr_record) :
  0 < n -> 0 < k -> 0 <= shr_m a ->
  shifted n a b -> shifted k b c -> shifted (n + k) a c.
Proof.
  intros Hn Hk Ha [Hb Hbr] [Hc Hcr]. split.
  - rewrite Hc, Hb, Z.pow_add_r by lia.
    rewrite Z.div_div by (try apply Z.pow_pos_nonneg; lia). reflexivity.
  - intros Hr. specialize (Hcr Hr). rewrite Hb in Hcr.
    rewrite Z.pow_add_r by lia.
    rewrite Z.rem_mul_r by (apply Z.pow_nonzero || apply Z.pow_pos_nonneg; lia).
    replace (n + k - 1) with (n + (k - 1)) by lia.
    rewrite Z.pow_add_r by lia.
    assert (0 <= shr_m a mod 2 ^ n)
      by (apply Z.mod_pos_bound, Z.pow_pos_nonneg; lia).
    assert (0 < 2 ^ n) by (apply Z.pow_pos_nonneg; lia).
    nia.
Qed.

Lemma shifted_nonneg (n : Z) (a b : shr_record) :
  0 <= n -> 0 <= shr_m a -> shifted n a b -> 0 <= shr_m b.
Proof.
  intros Hn Ha [Hb _]. rewrite Hb.
  apply Z.div_pos; [ assumption | apply Z.pow_pos_nonneg; lia ].
Qed.

Lemma iter_pos_shifted (p : positive) :
  forall a, 0 <= shr_m a -> shifted (Zpos p) a (iter_pos shr_1 p a).
Proof.
  induction p as [p IH | p IH |]; intros a Ha; cbn [iter_pos].
  - pose proof (shr_1_shifted a Ha) as H1.
    assert (Hb : 0 <= shr_m (shr_1 a)) by (apply (@shifted_nonneg 1 a); [lia | assumption | assumption]).
    pose proof (IH _ Hb) as H2.
    assert (Hc : 0 <= shr_m (iter_pos shr_1 p (shr_1 a))) by (apply (@shifted_nonneg (Zpos p) (shr_1 a)); [lia | assumption | assumption]).
    pose proof (IH _ Hc) as H3.
    replace (Zpos p~1) with (1 + (Zpos p + Zpos p)) by lia.
    apply shifted_compose with (b := shr_1 a); try lia; try assumption.
    apply shifted_compose with (b := iter_pos shr_1 p (shr_1 a));
      try lia; assumption.
  - pose proof (IH _ Ha) as H2.
    assert (Hc : 0 <= shr_m (iter_pos shr_1 p a)) by (apply (@shifted_nonneg (Zpos p) a); [lia | assumption | assumption]).
    pose proof (IH _ Hc) as H3.
    replace (Zpos p~0) with (Zpos p + Zpos p) by lia.
    apply shifted_compose with (b := iter_pos shr_1 p a);
      try lia; assumption.
  - apply shr_1_shifted; assumption.
Qed.

Lemma round_nearest_even_le (a : shr_record) :
  0 <= shr_m a ->
  let m1 := round_nearest_even (shr_m a) (loc_of_shr_record a) in
  shr_m a <= m1 <= shr_m a + 1 /\ (shr_r a = false -> m1 = shr_m a).
Proof.
  destruct a as [m [|] [|]]; simpl; intros Hm;
    try destruct (Z.even m); split; try lia; try discriminate; reflexivity.
Qed.
End Shift.

Section RoundBelow.
Local Open Scope Z_scope.

Lemma shr_fexp_exact_spec (m E : Z) :
  0 <= m ->
  let e1 := fexp 53 1024 (Zdigits2 m + E) in
  let res := shr_fexp 53 1024 m E loc_Exact in
  (e1 - E <= 0 /\ res = (Build_shr_record m false false, E)) \/
  (0 < e1 - E /\ snd res = e1 /\
   shifted (e1 - E) (Build_shr_record m false false) (fst res)).
Proof.
  intros Hm e1 res. subst res. unfold shr_fexp, shr.
  fold e1. cbn [shr_record_of_loc].
  destruct (e1 - E) as [| n | n] eqn:Hn.
  - left. split; [lia | reflexivity].
  - right. split; [lia |]. split; [cbn [snd]; lia |].
    cbn [fst]. apply iter_pos_shifted. assumption.
  - left. split; [lia | reflexivity].
Qed.

Variable my : positive.
Hypothesis my_lo : 2 ^ 52 < Zpos my.
Hypothesis my_hi : Zpos my < 2 ^ 53.

Lemma below_fexp (m e : Z) :
  below my m e -> fexp 53 1024 (Zdigits2 m + e) <= -49.
Proof.
  intros (He & Hm & Hlt). unfold fexp, emin.
  assert (Hd : Zdigits2 m <= 4 - e).
  { apply Zdigits2_upper; try lia.
    replace (4 - e) with (53 + (-49 - e)) by lia.
    rewrite Z.pow_add_r by lia.
    assert (0 < 2 ^ (-49 - e)) by (apply Z.pow_pos_nonneg; lia).
    nia. }
  lia.
Qed.

Lemma below_floor (s : bool) (m e : Z) :
  below my m e ->
  exists z,
    JS.Math_floor
      (match m with
       | Z0 => S754_zero s
       | Zpos p => if e <=? 1024 - 53 then S754_finite false p e
                   else S754_infinity false
       | Zneg _ => S754_nan
       end) = JS.Int z /\ 0 <= z /\ z * 2 ^ 49 < Zpos my.
Proof.
  intros (He & Hm & Hlt). destruct m as [| p | p]; try lia.
  - exists 0. simpl. split; [reflexivity | lia].
  - destruct (Z.leb_spec e (1024 - 53)); try lia.
    destruct e as [| e | e]; try lia. cbn [JS.Math_floor JS.signed].
    eexists; split; [reflexivity |].
    assert (Hp : 0 < 2 ^ Zpos e) by (apply Z.pow_pos_nonneg; lia).
    split; [apply Z.div_pos; lia |].
    replace (- 49 - Zneg e) with (Zpos e - 49) in Hlt by lia.
    assert (Hq : 2 ^ Zpos e = 2 ^ 49 * 2 ^ (Zpos e - 49)).
    { rewrite <- Z.pow_add_r by lia. f_equal. lia. }
    assert (Hr : 0 < 2 ^ (Zpos e - 49)) by (apply Z.pow_pos_nonneg; lia).
    pose proof (Z.mul_div_le (Zpos p) (2 ^ Zpos e) Hp) as Hle.
    rewrite Hq in Hle at 1.
    apply Z.mul_lt_mono_pos_r with (p := 2 ^ (Zpos e - 49)); [assumption |].
    nia.
Qed.

Lemma below_shr_fexp (m e : Z) :
  below my m e ->
  let res := shr_fexp 53 1024 m e loc_Exact in
  below my (shr_m (fst res)) (snd res).
Proof.
  intros Hb. pose proof (below_fexp Hb) as Hf.
  destruct Hb as (He & Hm & Hlt).
  destruct (@shr_fexp_exact_spec m e Hm) as [[_ Heq] | (Hn & He1 & Hs & _)].
  - cbv zeta. rewrite Heq. cbn [fst snd shr_m]. repeat split; assumption.
  - cbv zeta. rewrite He1. cbn [shr_m] in Hs.
    set (e1 := fexp 53 1024 (Zdigits2 m + e)) in *.
    repeat split; try lia.
    + rewrite Hs. apply Z.div_pos; [lia | apply Z.pow_pos_nonneg; lia].
    + rewrite Hs.
      apply Z.div_lt_upper_bound; [apply Z.pow_pos_nonneg; lia |].
      replace (-49 - e) with ((e1 - e) + (-49 - e1)) in Hlt by lia.
      rewrite Z.pow_add_r in Hlt by lia. lia.
Qed.

Lemma binary_round_aux_below (M : positive) (E : Z) :
  E <= -49 ->
  Zpos M + Zpos my <= Zpos my * 2 ^ (-49 - E) ->
  fexp 53 1024 (Zpos (digits2_pos M) + E) - E <= 53 ->
  exists z,
    JS.Math_floor (binary_round_aux 53 1024 false (Zpos M) E loc_Exact)
    = JS.Int z /\ 0 <= z /\ z * 2 ^ 49 < Zpos my.
Proof.
  intros HE HM Hn.
  assert (Hb0 : below my (Zpos M) E) by (repeat split; lia).
  unfold binary_round_aux.
  pose proof (below_fexp Hb0) as Hf.
  destruct (shr_fexp 53 1024 (Zpos M) E loc_Exact) as [mrs' e'] eqn:H1.
  assert (Hb1 : below my (round_nearest_even (shr_m mrs') (loc_of_shr_record mrs')) e').
  { assert (HM0 : 0 <= Zpos M) by lia.
    destruct (@shr_fexp_exact_spec (Zpos M) E HM0)
      as [[_ Heq] | (Hpos & He1 & Hs & Hr)].
    - rewrite H1 in Heq. injection Heq as -> ->. simpl. exact Hb0.
    - rewrite H1 in He1, Hs, Hr. cbn [fst snd shr_m] in *.
      change (Zdigits2 (Zpos M)) with (Zpos (digits2_pos M)) in *.
      set (n := fexp 53 1024 (Zpos (digits2_pos M) + E) - E) in *.
      assert (Hm' : 0 <= shr_m mrs')
        by (rewrite Hs; apply Z.div_pos; [lia | apply Z.pow_pos_nonneg; lia]).
      destruct (@round_nearest_even_le mrs' Hm') as [[Hlo Hhi] Hnr].
      assert (Hp : 0 < 2 ^ n) by (apply Z.pow_pos_nonneg; lia).
      assert (Hpow : 2 ^ (-49 - E) = 2 ^ n * 2 ^ (-49 - e')).
      { rewrite <- Z.pow_add_r by lia. f_equal. lia. }
      pose proof (Z.div_mod (Zpos M) (2 ^ n) ltac:(lia)) as Hdm.
      pose proof (Z.mod_pos_bound (Zpos M) (2 ^ n) Hp) as Hmod.
      rewrite <- Hs in Hdm.
      repeat split; try lia.
      apply Z.mul_lt_mono_pos_l with (p := 2 ^ n); [assumption |].
      destruct (shr_r mrs') eqn:Hrb.
      + specialize (Hr eq_refl).
        assert (Hhalf : 2 ^ n = 2 * 2 ^ (n - 1)).
        { rewrite <- Z.pow_succ_r by lia. f_equal. lia. }
        assert (Hn52 : 2 ^ (n - 1) <= 2 ^ 52)
          by (apply Z.pow_le_mono_r; lia).
        nia.
      + rewrite (Hnr eq_refl). nia. }
  pose proof (below_shr_fexp Hb1) as Hb2. cbv zeta in Hb2.
  destruct (shr_fexp 53 1024 _ e' loc_Exact) as [mrs'' e''].
  cbn [fst snd] in Hb2.
  exact (below_floor false Hb2).
Qed.

End RoundBelow.

Section Stimulus.
Local Open Scope Z_scope.

Lemma fexp_max (d : Z) : fexp 53 1024 d = Z.max (d - 53) (-1074).
Proof. reflexivity. Qed.

Lemma SFltb_finite_pos (m c : positive) (e ec : Z) :
  SFltb (S754_finite false m e) (S754_finite false c ec) = true ->
  e < ec \/ (e = ec /\ Zpos m < Zpos c).
Proof.
  unfold SFltb, SFcompare. intros Hlt.
  destruct (Z.compare_spec e ec) as [He | He | He]; try discriminate Hlt.
  - right. split; [assumption |].
    rewrite Pos.compare_cont_spec in Hlt. unfold Pos.switch_Eq in Hlt.
    destruct (m ?= c)%positive eqn:Hc; try discriminate Hlt.
    apply Pos.compare_lt_iff in Hc. apply Pos2Z.pos_lt_pos. exact Hc.
  - left. exact He.
Qed.

Lemma canonical_fexp (m : positive) (e : Z) :
  valid_binary 53 1024 (S754_finite false m e) = true ->
  Z.max (Zpos (digits2_pos m) + e - 53) (-1074) = e.
Proof.
  cbn [valid_binary]. unfold bounded, canonical_mantissa. intros Hv.
  apply andb_prop in Hv. destruct Hv as [Hc _].
  apply Z.eqb_eq in Hc. rewrite fexp_max in Hc. exact Hc.
Qed.

Lemma of_Z_1 : JS.of_Z 1 = S754_finite false 4503599627370496 (-52).
Proof. vm_compute. reflexivity. Qed.

Lemma random_value_finite (x : JS.number) :
  JS.random_value x = true ->
  (exists s, x = S754_zero s) \/
  (exists m e, x = S754_finite false m e /\
               -1074 <= e <= -53 /\ Zpos (digits2_pos m) <= 53).
Proof.
  unfold JS.random_value. rewrite of_Z_1. intros H.
  apply andb_prop in H. destruct H as [H Hlt].
  apply andb_prop in H. destruct H as [Hv Hle].
  destruct x as [s | s | | s m e].
  - left. exists s. reflexivity.
  - destruct s; [discriminate Hle | discriminate Hlt].
  - discriminate Hle.
  - right. destruct s; [discriminate Hle |]. exists m, e.
    split; [reflexivity |].
    apply canonical_fexp in Hv. apply SFltb_finite_pos in Hlt.
    pose proof (digits2_pos_bounds m) as Hd.
    destruct Hlt as [He | [He Hm]].
    + clear Hd. lia.
    + subst e.
      assert (Hd53 : Zpos (digits2_pos m) = 53) by (clear Hd Hm; lia).
      rewrite Hd53 in Hd.
      assert (Hp : 2 ^ (53 - 1) = 4503599627370496) by (vm_compute; reflexivity).
      rewrite Hp in Hd. clear Hv Hp. lia.
Qed.

Lemma random_mul_floor (x : JS.number) (my : positive) :
  2 ^ 52 < Zpos my -> Zpos my < 2 ^ 53 ->
  JS.random_value x = true ->
  exists z,
    JS.Math_floor (JS.mul x (S754_finite false my (-49))) = JS.Int z /\
    0 <= z /\ z * 2 ^ 49 < Zpos my.
Proof.
  intros Hlo Hhi Hx.
  destruct (random_value_finite x Hx) as [[s ->] | (m & e & -> & He & Hd)].
  - exists 0. split; [reflexivity | lia].
  - unfold JS.mul, SFmul. cbn [xorb].
    pose proof (digits2_pos_bounds m) as [_ Hm].
    assert (Hm53 : Zpos m < 2 ^ 53).
    { apply Z.lt_le_trans with (1 := Hm). apply Z.pow_le_mono_r; lia. }
    assert (Hpe : 2 ^ 53 <= 2 ^ (- e)) by (apply Z.pow_le_mono_r; lia).
    apply binary_round_aux_below; try assumption.
    + lia.
    + replace (-49 - (e + -49)) with (- e) by lia.
      rewrite Pos2Z.inj_mul. nia.
    + rewrite fexp_max.
      assert (Hdm : Zdigits2 (Zpos (m * my)) <= Zpos (digits2_pos m) + 53).
      { apply Zdigits2_upper; try lia.
        rewrite Z.pow_add_r by lia. rewrite Pos2Z.inj_mul.
        assert (0 < Zpos m) by lia. assert (0 < Zpos my) by lia. nia. }
      cbn [Zdigits2] in Hdm. clear Hm Hm53 Hpe Hlo Hhi. lia.
Qed.

Lemma of_Z_10 : JS.of_Z 10 = S754_finite false 5629499534213120 (-49).
Proof. vm_compute. reflexivity. Qed.

Lemma of_Z_9 : JS.of_Z 9 = S754_finite false 5066549580791808 (-49).
Proof. vm_compute. reflexivity. Qed.

Lemma toString_digit (d : Z) (lo : nat) :
  Z.of_nat lo <= d <= 9 ->
  exists c, JS.toString (JS.Int d) = String c EmptyString /\
            isDigitFrom lo c = true.
Proof.
  intros Hd.
  assert (Hc : d = 0 \/ d = 1 \/ d = 2 \/ d = 3 \/ d = 4 \/ d = 5 \/
               d = 6 \/ d = 7 \/ d = 8 \/ d = 9) by lia.
  unfold isDigitFrom.
  repeat (destruct Hc as [-> | Hc]); try subst d;
    (eexists; split; [reflexivity |]);
    apply andb_true_intro; split; apply Nat.leb_le; cbn; lia.
Qed.

(** One iteration of the loop appends one character of the range. *)
Lemma digit_in_range (x : JS.number) (minVal : Z) :
  minVal = 0 \/ minVal = 1 ->
  JS.random_value x = true ->
  exists c,
    JS.toString
      (JS.plus (JS.Math_floor (JS.mul x (JS.of_Z (9 - minVal + 1)))) minVal)
    = String c EmptyString /\
    isDigitFrom (Z.to_nat minVal) c = true.
Proof.
  intros [-> | ->] Hx.
  - change (9 - 0 + 1) with 10. rewrite of_Z_10.
    destruct (@random_mul_floor x 5629499534213120) as (z & -> & Hz0 & Hz);
      try assumption;
      try (apply Z.ltb_lt; vm_compute; reflexivity).
    cbn [JS.plus]. apply toString_digit.
    assert (Hk : 5629499534213120 = 10 * 2 ^ 49) by (vm_compute; reflexivity).
    rewrite Hk in Hz. assert (0 < 2 ^ 49) by (apply Z.pow_pos_nonneg; lia).
    change (Z.of_nat (Z.to_nat 0)) with 0. nia.
  - change (9 - 1 + 1) with 9. rewrite of_Z_9.
    destruct (@random_mul_floor x 5066549580791808) as (z & -> & Hz0 & Hz);
      try assumption;
      try (apply Z.ltb_lt; vm_compute; reflexivity).
    cbn [JS.plus]. apply toString_digit.
    assert (Hk : 5066549580791808 = 9 * 2 ^ 49) by (vm_compute; reflexivity).
    rewrite Hk in Hz. assert (0 < 2 ^ 49) by (apply Z.pow_pos_nonneg; lia).
    change (Z.of_nat (Z.to_nat 1)) with 1. nia.
Qed.

Lemma length_append (a b : string) :
  String.length (a ++ b)%string = (String.length a + String.length b)%nat.
Proof. induction a as [| c a IH]; simpl; [reflexivity | rewrite IH; reflexivity]. Qed.

Lemma allChars_append (p : ascii -> bool) (a b : string) :
  allChars p (a ++ b)%string = allChars p a && allChars p b.
Proof.
  induction a as [| c a IH]; simpl; [reflexivity |].
  rewrite IH, andb_assoc. reflexivity.
Qed.

Lemma generateStimulus_loop_spec (rand : Random) (minVal : Z) :
  minVal = 0 \/ minVal = 1 ->
  (forall n, JS.random_value (rand n) = true) ->
  forall count pos numStr,
    let out := generateStimulus_loop count minVal 9 rand pos numStr in
    String.length (fst out) = (String.length numStr + count)%nat /\
    allChars (isDigitFrom (Z.to_nat minVal)) (fst out)
    = allChars (isDigitFrom (Z.to_nat minVal)) numStr /\
    snd out = (pos + count)%nat.
Proof.
  intros Hmin Hrand count.
  induction count as [| count IH]; intros pos numStr; cbn [generateStimulus_loop].
  - cbn [fst snd]. repeat split; lia.
  - cbv zeta.
    destruct (digit_in_range (rand pos) Hmin (Hrand pos)) as (c & -> & Hc).
    specialize (IH (S pos) (numStr ++ String c EmptyString)%string).
    cbv zeta in IH. destruct IH as (Hl & Ha & Hp).
    rewrite Hl, Ha, Hp, length_append, allChars_append.
    cbn [String.length allChars]. rewrite Hc.
    repeat split; try lia.
    rewrite !andb_true_r. reflexivity.
Qed.

End Stimulus.

(** ** The stimulus generator *)

(** C4: for [digits] in 1..8 and a range of ["0-9"] or ["1-9"],
    [generateStimulus] returns a string of exactly [digits] characters,
    each of them one of '0'..'9' for the range ["0-9"] and one of '1'..'9'
    for the range ["1-9"], whatever [Math.random()] returns. *)
Theorem generateStimulus_length_and_range
        (digits : nat) (range : string) (rand : Random) (pos : nat) :
  1 <= digits <= 8 ->
  range = "0-9"%string \/ range = "1-9"%string ->
  (forall n, JS.random_value (rand n) = true) ->
  let numStr := fst (generateStimulus digits range rand pos) in
  String.length numStr = digits /\
  (range = "0-9"%string -> allChars (isDigitFrom 0) numStr = true) /\
  (range = "1-9"%string -> allChars (isDigitFrom 1) numStr = true).
Proof.
  intros _ Hrange Hrand. unfold generateStimulus.
  destruct Hrange as [-> | ->]; cbn [String.eqb Ascii.eqb Bool.eqb].
  - destruct (@generateStimulus_loop_spec rand 0%Z (or_introl eq_refl) Hrand
                digits pos EmptyString) as (Hl & Ha & _).
    cbv zeta. rewrite Hl. split; [reflexivity |].
    split; [intros _; exact Ha | discriminate].
  - destruct (@generateStimulus_loop_spec rand 1%Z (or_intror eq_refl) Hrand
                digits pos EmptyString) as (Hl & Ha & _).
    cbv zeta. rewrite Hl. split; [reflexivity |].
    split; [discriminate | intros _; exact Ha].
Qed.

Lemma generateStimulus_length_and_range_witness :
  let numStr := fst (generateStimulus 4 "0-9" (fun _ => oneHalf) 0) in
  String.length numStr = 4 /\
  ("0-9"%string = "0-9"%string -> allChars (isDigitFrom 0) numStr = true) /\
  ("0-9"%string = "1-9"%string -> allChars (isDigitFrom 1) numStr = true).
Proof.
  apply generateStimulus_length_and_range.
  - lia.
  - left. reflexivity.
  - intros n. vm_compute. reflexivity.
Defined.

(** ** The score *)

Lemma filter_isCorrect_length (results : list TrialResult) :
  List.length (filter isCorrect results) = countCorrect results.
Proof.
  induction results as [| r results IH]; [reflexivity |].
  cbn [filter countCorrect]. destruct (isCorrect r); cbn [List.length];
    rewrite IH; reflexivity.
Qed.

Lemma countCorrect_le (results : list TrialResult) :
  countCorrect results <= List.length results.
Proof.
  induction results as [| r results IH]; [apply Nat.le_refl |].
  cbn [countCorrect List.length]. destruct (isCorrect r); lia.
Qed.

Lemma ResultScreen_score_percent (results : list TrialResult) :
  ResultScreen_score results
  = percent (countCorrect results) (List.length results).
Proof.
  unfold ResultScreen_score, ResultScreen_correctCount, percent.
  rewrite filter_isCorrect_length. reflexivity.
Qed.

Lemma exportCSV_row_newRecord (settings : Settings)
      (results : list TrialResult) (now : Z) :
  exportCSV_row (newRecord settings results now)
  = (List.length results, countCorrect results, ResultScreen_score results).
Proof.
  unfold exportCSV_row, newRecord; cbn [h_total h_correct].
  rewrite ResultScreen_score_percent, filter_isCorrect_length. reflexivity.
Qed.

(** For sets of at most 20 trials the binary64 computation gives the
    integer nearest to the exact percentage. *)
Lemma percent_table :
  forallb
    (fun total =>
       forallb
         (fun correct =>
            integral_eqb (percent correct total)
                         (JS.Int (exactPercent correct total)))
         (seq 0 (S total)))
    (seq 1 20) = true.
Proof. vm_compute. reflexivity. Qed.

Lemma integral_eqb_eq (a b : JS.integral) : integral_eqb a b = true -> a = b.
Proof.
  destruct a, b; cbn; intros H; try discriminate H; try reflexivity.
  apply Z.eqb_eq in H. subst. reflexivity.
Qed.

Lemma percent_exact (correct total : nat) :
  1 <= total <= 20 -> correct <= total ->
  percent correct total = JS.Int (exactPercent correct total).
Proof.
  intros Ht Hc. pose proof percent_table as H.
  rewrite forallb_forall in H.
  assert (Hin : In total (seq 1 20)) by (apply in_seq; lia).
  specialize (H total Hin). rewrite forallb_forall in H.
  apply integral_eqb_eq, H, in_seq. lia.
Qed.

(** C6: for every non-empty results collection the score shown by the
    result screen and the score of the CSV row of the record made from it
    are the same number, [Math.round((correct / total) * 100)] with
    [correct] the number of results whose [isCorrect] is true and [total]
    the number of results; for sets of at most 20 trials this is the
    integer nearest to the exact percentage. *)
Theorem score_is_rounded_percentage
        (settings : Settings) (results : list TrialResult) (now : Z) :
  results <> [] ->
  let correct := countCorrect results in
  let total := List.length results in
  ResultScreen_score results = percent correct total /\
  exportCSV_row (newRecord settings results now)
  = (total, correct, percent correct total) /\
  (total <= 20 ->
   ResultScreen_score results = JS.Int (exactPercent correct total)).
Proof.
  intros Hne. cbv zeta.
  rewrite exportCSV_row_newRecord, ResultScreen_score_percent.
  repeat split. intros Hle. apply percent_exact.
  - destruct results; [contradiction | cbn [List.length]; cbn [List.length] in Hle; lia].
  - apply countCorrect_le.
Qed.

(** The scenario of the specification: three correct answers out of four
    give 75. *)
Lemma score_is_rounded_percentage_witness :
  let right := {| trial := 1; stimulus := "4821"; input := "4821";
                  isCorrect := true; isVerbal := false; timestamp := 0 |} in
  let wrong := {| trial := 3; stimulus := "4821"; input := "4820";
                  isCorrect := false; isVerbal := false; timestamp := 0 |} in
  let results := [right; right; wrong; right] in
  ResultScreen_score results = percent 3 4 /\
  exportCSV_row (newRecord DEFAULT_SETTINGS results 0)
  = (4, 3, percent 3 4) /\
  (4 <= 20 -> ResultScreen_score results = JS.Int 75).
Proof.
  intros right wrong results.
  exact (@score_is_rounded_percentage DEFAULT_SETTINGS results 0%Z
           ltac:(discriminate)).
Defined.

(** The score of an empty results collection is [NaN]; it is what the
    result screen shows and what the CSV row holds. *)
Lemma score_of_no_results_counterexample :
  ResultScreen_score [] = JS.NaN /\
  exportCSV [newRecord DEFAULT_SETTINGS [] 0]
  = Some [(0, 0, JS.NaN)] /\
  ResultScreen_score [] <> JS.Int 0.
Proof.
  split; [vm_compute; reflexivity |].
  split; [vm_compute; reflexivity |].
  intros H. vm_compute in H. discriminate H.
Qed.

(** C5 (as the code has it): computing the score over an empty results
    collection does not fail; the score is [NaN], the result screen shows
    it and a CSV row made from such a set holds it.  Only an empty history
    suppresses the export. *)
Theorem score_of_no_results (settings : Settings) (now : Z)
        (before after : list HistoryRecord) :
  ResultScreen_score [] = JS.NaN /\
  exportCSV_row (newRecord settings [] now) = (0, 0, JS.NaN) /\
  (exists rows,
      exportCSV (before ++ newRecord settings [] now :: after) = Some rows /\
      In (0, 0, JS.NaN) rows) /\
  exportCSV [] = None.
Proof.
  assert (Hs : ResultScreen_score [] = JS.NaN) by (vm_compute; reflexivity).
  assert (Hr : exportCSV_row (newRecord settings [] now) = (0, 0, JS.NaN)).
  { rewrite exportCSV_row_newRecord, Hs. reflexivity. }
  repeat split; try assumption.
  exists (map exportCSV_row (before ++ newRecord settings [] now :: after)).
  split.
  - destruct before; reflexivity.
  - rewrite <- Hr. apply in_map, in_elt.
Qed.

(** ** The effects *)

Lemma Phase_eqb_eq (a b : Phase) : Phase_eqb a b = true <-> a = b.
Proof. destruct a, b; cbn; split; intros H; try reflexivity; discriminate H. Qed.

Lemma Phase_eqb_refl (a : Phase) : Phase_eqb a a = true.
Proof. destruct a; reflexivity. Qed.

Lemma timerDeps_unchanged (old s : RunState) :
  timerDepsChanged old s = false <->
  phase old = phase s /\ isPaused old = isPaused s /\
  trialIndex old = trialIndex s /\
  List.length (results old) = List.length (results s) /\
  currentStimulus old = currentStimulus s.
Proof.
  unfold timerDepsChanged. rewrite negb_false_iff, !andb_true_iff.
  rewrite Phase_eqb_eq, Bool.eqb_true_iff, !Nat.eqb_eq, String.eqb_eq.
  tauto.
Qed.

Lemma timerDeps_refl (s : RunState) : timerDepsChanged s s = false.
Proof. apply timerDeps_unchanged. repeat split. Qed.

Lemma sameFields_refl (s : RunState) : sameFields s s.
Proof. constructor; reflexivity. Qed.

Lemma sameFields_trans (a b c : RunState) :
  sameFields a b -> sameFields b c -> sameFields a c.
Proof. intros [] []. constructor; congruence. Qed.

Lemma rerun_sameFields (settings : Settings) (s : RunState) :
  sameFields s (rerunPhaseTimerEffect settings s).
Proof.
  unfold rerunPhaseTimerEffect, phaseTimerEffect.
  destruct s as [ph ti cs ui rs pa fb tr cl rp vw sr ch oc]. cbn.
  destruct cl, pa, ph, (feedback settings); cbn; constructor; reflexivity.
Qed.

Lemma unmount_sameFields (s : RunState) : sameFields s (unmount s).
Proof.
  unfold unmount. destruct s as [ph ti cs ui rs pa fb tr cl rp vw sr ch oc].
  cbn. destruct cl; constructor; reflexivity.
Qed.

Lemma stateInv_sameFields (settings : Settings) (s s' : RunState) :
  sameFields s s' -> stateInv settings s -> stateInv settings s'.
Proof.
  intros [e1 e2 e3 e4 e5 e6 e7 e8 e9 e10 e11 e12] []. constructor.
  all: rewrite ?e1, ?e2, ?e3, ?e4, ?e5, ?e6, ?e7, ?e8, ?e9, ?e10, ?e11, ?e12.
  all: assumption.
Qed.

(** A run of the phase timer effect leaves the timer slot as the state
    demands. *)
Lemma rerun_timerInv (settings : Settings) (s : RunState) :
  view s = RUN ->
  cleanup s = true \/ timerRef s = None ->
  timerInv (rerunPhaseTimerEffect settings s).
Proof.
  unfold rerunPhaseTimerEffect, phaseTimerEffect.
  destruct s as [ph ti cs ui rs pa fb tr cl rp vw sr ch oc]. cbn.
  intros -> Hc.
  assert (Htr : (if cl then None else tr) = None)
    by (destruct Hc as [-> | ->]; [reflexivity | destruct cl; reflexivity]).
  destruct pa.
  - destruct cl; cbn in *; constructor; cbn; intros; subst;
      try reflexivity; try discriminate; try congruence.
  - destruct cl, ph, (feedback settings); cbn; constructor; cbn; intros;
      try reflexivity; try discriminate; try congruence;
      repeat match goal with
             | H : Some _ = Some _ |- _ => injection H as <-
             end; cbn; repeat split; reflexivity.
Qed.

(** When no dependency changed the effect does not run, and the slot is
    still as the state demands. *)
Lemma unchanged_timerInv (old s : RunState) :
  timerInv old ->
  timerDepsChanged old s = false ->
  view old = RUN -> view s = RUN ->
  timerRef s = timerRef old -> cleanup s = cleanup old ->
  results s = results old ->
  timerInv s.
Proof.
  intros [H1 H2 H3 H4 H5] Hd Hvo Hv Ht Hc Hr.
  apply timerDeps_unchanged in Hd.
  destruct Hd as (Hph & Hpa & Hti & _ & Hcs).
  constructor.
  - intros _. rewrite Hc, <- Hpa. auto.
  - rewrite Ht, <- Hpa. assumption.
  - intros t Hs. rewrite Ht in Hs. specialize (H3 t Hs).
    destruct (callback t); cbn in *; rewrite <- ?Hph, <- ?Hti, <- ?Hcs, ?Hr;
      assumption.
  - intros Hn. contradiction.
  - rewrite Ht, <- Hpa, <- Hph. auto.
Qed.

(** ** The handlers keep the invariants *)

Lemma dataSetup_fields (settings : Settings) (rand : Random) (s : RunState) :
  let s' := dataSetupEffect settings rand s in
  phase s' = PREP /\ userInput s' = EmptyString /\ feedbackState s' = None /\
  currentStimulus s'
  = fst (generateStimulus (digits settings) (numberRange settings) rand
                          (randPos s)) /\
  randPos s'
  = snd (generateStimulus (digits settings) (numberRange settings) rand
                          (randPos s)) /\
  trialIndex s' = trialIndex s /\ results s' = results s /\
  isPaused s' = isPaused s /\ timerRef s' = timerRef s /\
  cleanup s' = cleanup s /\ view s' = view s /\
  sessionResults s' = sessionResults s /\
  currentHistory s' = currentHistory s /\
  onFinishCalls s' = onFinishCalls s.
Proof.
  unfold dataSetupEffect.
  destruct (generateStimulus _ _ _ _) as [num pos']. cbn. repeat split.
Qed.

Lemma dataSetup_stateInv (settings : Settings) (rand : Random) (s : RunState) :
  stateInv settings s -> phase s = PREP ->
  stateInv settings (dataSetupEffect settings rand s).
Proof.
  intros [I1 I2 I3 I4 I5 I6 I7 I8 I9] Hph.
  destruct (dataSetup_fields settings rand s)
    as (e1 & e2 & e3 & _ & _ & e6 & e7 & e8 & _ & _ & e11 & e12 & _ & e14).
  constructor; rewrite ?e1, ?e2, ?e3, ?e6, ?e7, ?e8, ?e11, ?e12, ?e14;
    rewrite ?Hph in *; try assumption.
  cbn. lia.
Qed.

Lemma runEffects_inv (settings : Settings) (rand : Random)
      (dataDeps timerDeps : bool) (s : RunState) :
  stateInv settings s -> view s = RUN ->
  (if timerDeps then cleanup s = true \/ timerRef s = None else timerInv s) ->
  (dataDeps = true -> phase s = PREP) ->
  stateInv settings (runEffects settings rand dataDeps timerDeps s) /\
  timerInv (runEffects settings rand dataDeps timerDeps s).
Proof.
  intros Hs Hv Hslot Hdata. unfold runEffects.
  set (s1 := if timerDeps then rerunPhaseTimerEffect settings s else s).
  assert (H1 : sameFields s s1 /\ timerInv s1).
  { subst s1. destruct timerDeps.
    - split; [apply rerun_sameFields | apply rerun_timerInv; assumption].
    - split; [apply sameFields_refl | assumption]. }
  destruct H1 as [Hsf1 Hti1].
  assert (Hs1 : stateInv settings s1) by (eapply stateInv_sameFields; eauto).
  destruct dataDeps.
  - assert (Hp1 : phase s1 = PREP)
      by (rewrite (sf_phase Hsf1); apply Hdata; reflexivity).
    pose proof (@dataSetup_stateInv settings rand s1 Hs1 Hp1) as Hs2.
    destruct (dataSetup_fields settings rand s1)
      as (e1 & e2 & e3 & _ & _ & e6 & e7 & e8 & e9 & e10 & e11 & _).
    assert (Hv1 : view s1 = RUN) by (rewrite (sf_view Hsf1); assumption).
    destruct (timerDepsChanged s1 (dataSetupEffect settings rand s1)) eqn:Hd.
    + split.
      * eapply stateInv_sameFields; [apply rerun_sameFields | exact Hs2].
      * apply rerun_timerInv; [congruence |].
        rewrite e9, e10. destruct Hti1 as [T1 T2 _ _ _]. rewrite (T1 Hv1).
        destruct (isPaused s1); [right; auto | left; reflexivity].
    + split; [exact Hs2 |].
      apply unchanged_timerInv with (old := s1); auto; congruence.
  - split; assumption.
Qed.

Lemma commit_inv (settings : Settings) (rand : Random) (old s : RunState) :
  timerInv old -> view old = RUN -> handled old s -> stateInv settings s ->
  stateInv settings (commit settings rand old s) /\
  timerInv (commit settings rand old s).
Proof.
  intros Hto Hvo [Hc Ht Hr Htr] Hs. unfold commit.
  assert (Hslot : cleanup s = true \/ timerRef s = None).
  { destruct Hto as [T1 T2 _ _ _]. rewrite Hc, (T1 Hvo).
    destruct (isPaused old); [right | left; reflexivity].
    specialize (T2 eq_refl). destruct Ht as [-> | [-> _]]; auto. }
  destruct (view s) eqn:Hv.
  3: {
    apply runEffects_inv; try assumption.
    - destruct (timerDepsChanged old s) eqn:Hd; [assumption |].
      apply unchanged_timerInv with (old := old); auto.
      destruct Ht as [-> | [_ Hx]]; [reflexivity |].
      specialize (Hx eq_refl). discriminate Hx.
    - intros Hidx. apply negb_true_iff, Nat.eqb_neq in Hidx.
      apply Htr. congruence. }
  all: split; [ eapply stateInv_sameFields; [apply unmount_sameFields | assumption] |].
  all: assert (Hn : timerRef (unmount s) = None)
      by (unfold unmount; destruct Hslot as [-> | Hn]; cbn;
          [reflexivity | destruct (cleanup s); cbn; [reflexivity | exact Hn]]).
  all: pose proof (sf_view (unmount_sameFields s)) as Hvu; rewrite Hv in Hvu.
  all: constructor; intros; try assumption; try congruence.
Qed.

Lemma nth_error_snoc (A : Type) (l : list A) (x r : A) (k : nat) :
  nth_error (l ++ [x]) k = Some r ->
  nth_error l k = Some r \/ (k = List.length l /\ r = x).
Proof.
  intros H. destruct (Nat.lt_ge_cases k (List.length l)) as [Hk | Hk].
  - left. rewrite nth_error_app1 in H by assumption. exact H.
  - right. rewrite nth_error_app2 in H by assumption.
    destruct (k - List.length l) as [| d] eqn:Hd; cbn in H.
    + injection H as <-. split; [lia | reflexivity].
    + destruct d; discriminate H.
Qed.

Lemma length_substring_0 (n : nat) (s : string) :
  String.length (String.substring 0 n s) = Nat.min n (String.length s).
Proof.
  revert n. induction s as [| c s IH]; intros [| n]; cbn; try reflexivity.
  rewrite IH. reflexivity.
Qed.

Lemma keyOf_Num (num : nat) :
  num <= 9 ->
  String.length (keyOf (Num num)) = 1 /\
  String.eqb (keyOf (Num num)) "DELETE" = false /\
  String.eqb (keyOf (Num num)) "CLEAR" = false /\
  allChars (isDigitFrom 0) (keyOf (Num num)) = true.
Proof.
  intros H.
  do 10 (destruct num as [| num]; [repeat split |]).
  lia.
Qed.

Lemma handleKeypad_inv (settings : Settings) (b : KeyButton) (s : RunState) :
  stateInv settings s ->
  match b with Num num => num <= 9 | _ => True end ->
  handled s (handleKeypad settings (keyOf b) s) /\
  stateInv settings (handleKeypad settings (keyOf b) s).
Proof.
  intros Hs Hb. unfold handleKeypad.
  destruct (phase s) eqn:Hph;
    try (split; [constructor; auto using timerDeps_refl; contradiction | exact Hs]).
  assert (Hgen : forall v,
             String.length v <= digits settings ->
             handled s (setUserInput v s) /\ stateInv settings (setUserInput v s)).
  { intros v Hv. split.
    - constructor; cbn; auto. contradiction.
    - destruct Hs. constructor; cbn; assumption. }
  destruct b as [num | |].
  - destruct (keyOf_Num Hb) as (Hl & -> & -> & _).
    destruct (Nat.ltb_spec (String.length (userInput s)) (digits settings)).
    + apply Hgen. rewrite length_append, Hl. lia.
    + split; [constructor; auto using timerDeps_refl; contradiction | exact Hs].
  - cbn. apply Hgen. unfold slice_0_minus1. rewrite length_substring_0.
    pose proof (inv_input Hs). lia.
  - cbn. apply Hgen. cbn. lia.
Qed.

Lemma nextTrial_fields (settings : Settings) (ti : nat)
      (rs : list TrialResult) (now : Z) (s : RunState) :
  let s' := nextTrial settings ti rs now s in
  cleanup s' = cleanup s /\ timerRef s' = timerRef s /\
  results s' = results s /\ isPaused s' = isPaused s /\
  currentStimulus s' = currentStimulus s /\
  userInput s' = userInput s /\
  (trialsPerSet settings <= ti + 1 ->
   view s' = RESULT /\ trialIndex s' = trialIndex s /\ phase s' = phase s /\
   sessionResults s' = rs /\ onFinishCalls s' = onFinishCalls s ++ [rs]) /\
  (ti + 1 < trialsPerSet settings ->
   view s' = view s /\ trialIndex s' = trialIndex s + 1 /\ phase s' = PREP /\
   sessionResults s' = sessionResults s /\
   onFinishCalls s' = onFinishCalls s /\
   currentHistory s' = currentHistory s).
Proof.
  unfold nextTrial.
  destruct (Nat.leb_spec (trialsPerSet settings) (ti + 1)); cbn;
    repeat split; intros; try reflexivity; lia.
Qed.

Lemma nextTrial_stateInv (settings : Settings) (rs : list TrialResult)
      (now : Z) (s : RunState) :
  trialIndex s < trialsPerSet settings ->
  (forall k r, nth_error (results s) k = Some r -> trial r = S k) ->
  List.length (results s) = S (trialIndex s) ->
  isPaused s = false ->
  (answerMode settings = "none"%string ->
   phase s <> ANSWER /\ phase s <> FEEDBACK /\
   forall r, In r (results s) -> isCorrect r = true /\ isVerbal r = true) ->
  (phase s = FEEDBACK -> feedback settings = true) ->
  String.length (userInput s) <= digits settings ->
  view s = RUN -> onFinishCalls s = [] ->
  (trialsPerSet settings <= trialIndex s + 1 ->
   List.length rs = deliveredCount settings /\
   rs = firstn (deliveredCount settings) (results s)) ->
  stateInv settings (nextTrial settings (trialIndex s) rs now s).
Proof.
  intros H1 H2 H3 H4 H5 H6 H7 H8 H9 H10.
  destruct (nextTrial_fields settings (trialIndex s) rs now s)
    as (_ & _ & er & ep & _ & eu & Hfin & Hnext).
  destruct (Nat.le_gt_cases (trialsPerSet settings) (trialIndex s + 1))
    as [Hle | Hgt].
  - destruct (Hfin Hle) as (ev & et & eph & es & ec).
    destruct (H10 Hle) as [Hlen Hfirst].
    constructor; rewrite ?er, ?ep, ?eu, ?ev, ?et, ?eph, ?es, ?ec, ?H9;
      try assumption; try lia; try discriminate.
    + intros Hp. rewrite H4 in Hp. discriminate Hp.
    + split; [reflexivity | split; [exact Hlen | exact Hfirst]].
  - destruct (Hnext ltac:(lia)) as (ev & et & eph & es & ec & _).
    constructor; rewrite ?er, ?ep, ?eu, ?ev, ?et, ?eph, ?es, ?ec, ?H8, ?H9;
      try assumption; try lia; try discriminate; try reflexivity.
    + intros _. cbn. lia.
    + intros Hp. rewrite H4 in Hp. discriminate Hp.
    + intros Hn. destruct (H5 Hn) as (_ & _ & Hr).
      split; [discriminate | split; [discriminate | exact Hr]].
Qed.

Lemma firstn_length_app (A : Type) (l l' : list A) :
  firstn (List.length l) (l ++ l') = l.
Proof.
  rewrite firstn_app, Nat.sub_diag, firstn_all. cbn. apply app_nil_r.
Qed.

Lemma trial_snoc (rs : list TrialResult) (x : TrialResult) :
  (forall k r, nth_error rs k = Some r -> trial r = S k) ->
  trial x = S (List.length rs) ->
  forall k r, nth_error (rs ++ [x]) k = Some r -> trial r = S k.
Proof.
  intros H Hx k r Hn.
  destruct (nth_error_snoc _ _ _ Hn) as [Hk | [-> ->]]; auto.
Qed.

Lemma deliveredCount_cases (settings : Settings) :
  (feedback settings = true /\ answerMode settings <> "none"%string /\
   deliveredCount settings = trialsPerSet settings) \/
  ((feedback settings = false \/ answerMode settings = "none"%string) /\
   deliveredCount settings = trialsPerSet settings - 1).
Proof.
  unfold deliveredCount.
  destruct (feedback settings); cbn [andb].
  - destruct (String.eqb_spec (answerMode settings) "none"); cbn [negb].
    + right. auto.
    + left. auto.
  - right. auto.
Qed.

Lemma submitAnswer_inv (settings : Settings) (verbal : bool) (now : Z)
      (s : RunState) :
  stateInv settings s -> phase s = ANSWER -> view s = RUN ->
  handled s (submitAnswer settings verbal now s) /\
  stateInv settings (submitAnswer settings verbal now s).
Proof.
  intros Hs Hph Hv. pose proof Hs as [I1 I2 I3 I4 I5 I6 I7 I8 I9].
  rewrite Hv in I9. specialize (I3 Hv). rewrite Hph in I3. cbn in I3.
  assert (Hmode : answerMode settings <> "none"%string).
  { intros Hn. destruct (I6 Hn) as [Hx _]. contradiction. }
  assert (Hnp : isPaused s = false).
  { destruct (isPaused s); [| reflexivity].
    destruct (I5 eq_refl); congruence. }
  unfold submitAnswer. rewrite Hph.
  set (rec := {| trial := trialIndex s + 1; stimulus := currentStimulus s;
                 input := if verbal then "(Verbal)"%string else userInput s;
                 isCorrect := if verbal then true
                              else String.eqb (userInput s) (currentStimulus s);
                 isVerbal := verbal; timestamp := now |}).
  assert (Htrial : forall k r, nth_error (results s ++ [rec]) k = Some r ->
                               trial r = S k).
  { apply trial_snoc; [assumption |]. cbn. lia. }
  assert (Hlen : List.length (results s ++ [rec]) = S (trialIndex s))
    by (rewrite length_app; cbn; lia).
  destruct (feedback settings) eqn:Hfb.
  - split.
    + constructor; cbn; auto.
      * intros Hd. apply timerDeps_unchanged in Hd. cbn in Hd.
        destruct Hd as (Hd & _). congruence.
      * intros Hx. contradiction.
    + constructor; cbn; try assumption; try lia; try discriminate.
      * rewrite Hnp. discriminate.
      * intros Hn. contradiction.
      * intros _. exact Hfb.
      * rewrite Hv. assumption.
  - set (s1 := setResults (results s ++ [rec]) s).
    destruct (nextTrial_fields settings (trialIndex s) (results s) now s1)
      as (ec & et & er & _ & _ & _ & Hfin & Hnext).
    split.
    + constructor.
      * rewrite ec. reflexivity.
      * left. rewrite et. reflexivity.
      * intros Hd. apply timerDeps_unchanged in Hd.
        destruct Hd as (_ & _ & _ & Hd & _). rewrite er in Hd. cbn in Hd.
        rewrite Hlen in Hd. lia.
      * intros Hne.
        destruct (Nat.le_gt_cases (trialsPerSet settings) (trialIndex s + 1))
          as [Hle | Hgt].
        -- destruct (Hfin Hle) as (_ & Hx & _). cbn in Hx. contradiction.
        -- destruct (Hnext Hgt) as (_ & _ & Hx & _). exact Hx.
    + apply (@nextTrial_stateInv settings (results s) now s1); cbn;
        try assumption; try (rewrite Hph; discriminate).
      * intros Hn. contradiction.
      * intros Hle.
        destruct (deliveredCount_cases settings) as [(Hx & _) | (_ & ->)];
          [congruence |].
        assert (Hd : trialsPerSet settings - 1 = List.length (results s))
          by lia.
        rewrite Hd. split; [reflexivity |].
        symmetry. apply firstn_length_app.
Qed.

Lemma timerDeps_changed_phase (old s : RunState) :
  phase old <> phase s -> timerDepsChanged old s = true.
Proof.
  intros H. destruct (timerDepsChanged old s) eqn:Hd; [reflexivity |].
  apply timerDeps_unchanged in Hd. destruct Hd as (Hd & _). contradiction.
Qed.

Lemma timerDeps_changed_trialIndex (old s : RunState) :
  trialIndex old <> trialIndex s -> timerDepsChanged old s = true.
Proof.
  intros H. destruct (timerDepsChanged old s) eqn:Hd; [reflexivity |].
  apply timerDeps_unchanged in Hd. destruct Hd as (_ & _ & Hd & _).
  contradiction.
Qed.

Lemma timerDeps_changed_results (old s : RunState) :
  List.length (results old) <> List.length (results s) ->
  timerDepsChanged old s = true.
Proof.
  intros H. destruct (timerDepsChanged old s) eqn:Hd; [reflexivity |].
  apply timerDeps_unchanged in Hd. destruct Hd as (_ & _ & _ & Hd & _).
  contradiction.
Qed.

Lemma setPhase_inv (settings : Settings) (p : Phase) (s : RunState) :
  stateInv settings s -> view s = RUN -> isPaused s = false ->
  timerRef s <> None ->
  phase s <> p -> phase s <> FEEDBACK -> p <> FEEDBACK ->
  (answerMode settings = "none"%string -> p <> ANSWER) ->
  let h := setPhase p (setTimerRef None s) in
  handled s h /\ stateInv settings h.
Proof.
  intros [I1 I2 I3 I4 I5 I6 I7 I8 I9] Hv Hnp Ht Hne Hnf Hpf Hnone h. split.
  - constructor.
    + reflexivity.
    + right. split; [reflexivity |]. intros _.
      apply timerDeps_changed_phase. exact Hne.
    + intros Hd. rewrite timerDeps_changed_phase in Hd by exact Hne.
      discriminate Hd.
    + intros Hx. cbn in Hx. contradiction.
  - specialize (I3 Hv).
    assert (Hp1 : Phase_eqb (phase s) FEEDBACK = false)
      by (destruct (phase s); try reflexivity; contradiction).
    assert (Hp2 : Phase_eqb p FEEDBACK = false)
      by (destruct p; try reflexivity; contradiction).
    rewrite Hp1 in I3.
    constructor; cbn; try assumption.
    + intros _. rewrite Hp2. exact I3.
    + rewrite Hnp. discriminate.
    + intros Hn. destruct (I6 Hn) as (_ & _ & Hr). auto.
    + intros Hx. contradiction.
Qed.

Lemma runCallback_inv (settings : Settings) (now : Z) (t : Timer)
      (s : RunState) :
  stateInv settings s -> timerInv s -> view s = RUN ->
  timerRef s = Some t ->
  let h := runCallback settings (callback t) now (setTimerRef None s) in
  handled s h /\ stateInv settings h.
Proof.
  intros Hs [T1 T2 T3 T4 T5] Hv Ht.
  assert (Hnp : isPaused s = false).
  { destruct (isPaused s); [| reflexivity].
    rewrite (T2 eq_refl) in Ht. discriminate Ht. }
  assert (Htn : timerRef s <> None) by congruence.
  specialize (T3 t Ht). pose proof Hs as [I1 I2 I3 I4 I5 I6 I7 I8 I9].
  rewrite Hv in I9. specialize (I3 Hv).
  destruct (callback t) as [| | ti cs rs | ti rs]; cbn [callbackMatches] in T3;
    cbn [runCallback].
  - apply setPhase_inv; try assumption; rewrite ?T3; try discriminate.
  - apply setPhase_inv; try assumption; rewrite ?T3; try discriminate.
  - destruct T3 as (Hph & -> & -> & ->). rewrite Hph in I3. cbn in I3.
    destruct (String.eqb_spec (answerMode settings) "none") as [Hn | Hn].
    + set (rec := {| trial := trialIndex s + 1; stimulus := currentStimulus s;
                     input := "(None)"%string; isCorrect := true;
                     isVerbal := true; timestamp := now |}).
      set (s1 := setResults (results s ++ [rec]) (setTimerRef None s)).
      assert (Hlen : List.length (results s ++ [rec]) = S (trialIndex s))
        by (rewrite length_app; cbn; lia).
      destruct (nextTrial_fields settings (trialIndex s) (results s) now s1)
        as (ec & et & er & _ & _ & _ & Hfin & Hnext).
      change (handled s (nextTrial settings (trialIndex s) (results s) now s1)
              /\ stateInv settings
                   (nextTrial settings (trialIndex s) (results s) now s1)).
      split.
      * constructor.
        -- rewrite ec. reflexivity.
        -- right. split; [rewrite et; reflexivity |]. intros _.
           apply timerDeps_changed_results. rewrite er. cbn.
           rewrite Hlen. lia.
        -- intros Hd. rewrite timerDeps_changed_results in Hd;
             [discriminate Hd |]. rewrite er. cbn. rewrite Hlen. lia.
        -- intros Hne.
           destruct (Nat.le_gt_cases (trialsPerSet settings) (trialIndex s + 1))
             as [Hle | Hgt].
           ++ destruct (Hfin Hle) as (_ & Hx & _). cbn in Hx. contradiction.
           ++ destruct (Hnext Hgt) as (_ & _ & Hx & _). exact Hx.
      * apply (@nextTrial_stateInv settings (results s) now s1); cbn;
          try assumption; try (rewrite Hph; discriminate).
        -- apply trial_snoc; [assumption |]. cbn. lia.
        -- intros _. rewrite Hph. destruct (I6 Hn) as (_ & _ & Hr).
           split; [discriminate |]. split; [discriminate |].
           intros r Hin. apply in_app_or in Hin.
           destruct Hin as [Hin | [<- | []]]; [auto | split; reflexivity].
        -- intros Hle.
           destruct (deliveredCount_cases settings)
             as [(_ & Hx & _) | (_ & ->)]; [contradiction |].
           assert (Hd : trialsPerSet settings - 1 = List.length (results s))
             by lia.
           rewrite Hd. split; [reflexivity |].
           symmetry. apply firstn_length_app.
    + apply setPhase_inv; try assumption; rewrite ?Hph; try discriminate.
      intros Hx. contradiction.
  - destruct T3 as (Hph & -> & ->). rewrite Hph in I3. cbn in I3.
    set (s1 := setTimerRef None s).
    destruct (nextTrial_fields settings (trialIndex s) (results s) now s1)
      as (ec & et & er & _ & _ & _ & Hfin & Hnext).
    assert (Hmode : answerMode settings <> "none"%string).
    { intros Hn. destruct (I6 Hn) as (_ & Hx & _). contradiction. }
    split.
    + constructor.
      * rewrite ec. reflexivity.
      * right. split; [rewrite et; reflexivity |]. intros Hvh.
        destruct (Nat.le_gt_cases (trialsPerSet settings) (trialIndex s + 1))
          as [Hle | Hgt].
        -- destruct (Hfin Hle) as (Hx & _). congruence.
        -- destruct (Hnext Hgt) as (_ & Hx & _).
           apply timerDeps_changed_trialIndex. rewrite Hx. cbn. lia.
      * intros _. rewrite er. reflexivity.
      * intros Hne.
        destruct (Nat.le_gt_cases (trialsPerSet settings) (trialIndex s + 1))
          as [Hle | Hgt].
        -- destruct (Hfin Hle) as (_ & Hx & _). cbn in Hx. contradiction.
        -- destruct (Hnext Hgt) as (_ & _ & Hx & _). exact Hx.
    + apply (@nextTrial_stateInv settings (results s) now s1); cbn;
        try assumption.
      * intros Hle.
        destruct (deliveredCount_cases settings)
          as [(_ & _ & ->) | ([Hx | Hx] & _)].
        -- assert (Hd : trialsPerSet settings = List.length (results s))
             by lia.
           rewrite Hd. split; [reflexivity |].
           symmetry. apply firstn_all.
        -- rewrite (I7 Hph) in Hx. discriminate Hx.
        -- contradiction.
Qed.

Lemma handle_inv (settings : Settings) (ev : Event) (s : RunState) :
  stateInv settings s -> timerInv s -> enabled settings ev s = true ->
  handled s (handle settings ev s) /\ stateInv settings (handle settings ev s).
Proof.
  intros Hs Ht He. unfold enabled in He.
  destruct (view s) eqn:Hv; try discriminate He.
  destruct ev as [now | b | vb now | | |]; cbn [handle].
  - destruct (timerRef s) as [t |] eqn:Htr; [| discriminate He].
    apply runCallback_inv; assumption.
  - apply andb_prop in He. destruct He as [_ He].
    apply handleKeypad_inv; [assumption |].
    destruct b; [apply Nat.leb_le; exact He | exact I | exact I].
  - apply andb_prop in He. destruct He as [He _].
    apply Phase_eqb_eq in He. apply submitAnswer_inv; assumption.
  - assert (Hph : phase s = SHOW \/ phase s = HIDE).
    { apply orb_prop in He. destruct He as [He | He];
        apply Phase_eqb_eq in He; auto. }
    destruct Hs as [I1 I2 I3 I4 I5 I6 I7 I8 I9]. split.
    + constructor; cbn; auto; intros Hx; contradiction.
    + constructor; cbn; auto.
  - destruct Hs as [I1 I2 I3 I4 I5 I6 I7 I8 I9]. split.
    + constructor; cbn; auto; intros Hx; contradiction.
    + constructor; cbn; auto; discriminate.
  - destruct Hs as [I1 I2 I3 I4 I5 I6 I7 I8 I9]. rewrite Hv in I9. split.
    + constructor; cbn; auto; intros Hx; contradiction.
    + constructor; cbn; auto; discriminate.
Qed.

Lemma enabled_view (settings : Settings) (ev : Event) (s : RunState) :
  enabled settings ev s = true -> view s = RUN.
Proof. unfold enabled. destruct (view s); try discriminate. reflexivity. Qed.

Lemma step_inv (settings : Settings) (rand : Random) (ev : Event)
      (s : RunState) :
  stateInv settings s -> timerInv s ->
  stateInv settings (step settings rand ev s) /\
  timerInv (step settings rand ev s).
Proof.
  intros Hs Ht. unfold step.
  destruct (enabled settings ev s) eqn:He; [| split; assumption].
  destruct (handle_inv ev Hs Ht He) as [Hh Hs'].
  apply commit_inv; try assumption. eapply enabled_view; eassumption.
Qed.

Lemma mount_inv (settings : Settings) (rand : Random) (pos : nat)
      (history : list HistoryRecord) :
  1 <= trialsPerSet settings ->
  stateInv settings (mount settings rand pos history) /\
  timerInv (mount settings rand pos history).
Proof.
  intros Hn. unfold mount. apply runEffects_inv.
  - constructor; cbn; try lia; try discriminate; try reflexivity.
    + intros [| k] r0 H; discriminate H.
    + intros _. split; [discriminate |]. split; [discriminate |].
      intros r0 [].
  - reflexivity.
  - right. reflexivity.
  - reflexivity.
Qed.

(** Every state a session can be in satisfies both invariants. *)
Lemma reachable_inv (settings : Settings) (rand : Random) (pos : nat)
        (history : list HistoryRecord) (s : RunState) :
  1 <= trialsPerSet settings ->
  reachable settings rand pos history s ->
  stateInv settings s /\ timerInv s.
Proof.
  intros Hn Hr. induction Hr as [| s ev Hr [IHs IHt]].
  - apply mount_inv. exact Hn.
  - apply step_inv; assumption.
Qed.

Lemma reachable_run (settings : Settings) (rand : Random) (pos : nat)
      (history : list HistoryRecord) (evs : list Event) (s : RunState) :
  reachable settings rand pos history s ->
  reachable settings rand pos history (run settings rand evs s).
Proof.
  revert s. induction evs as [| ev evs IH]; intros s Hs; cbn [run].
  - exact Hs.
  - apply IH. apply reachable_step. exact Hs.
Qed.

(** ** What a commit leaves alone *)

Lemma runEffects_fields (settings : Settings) (rand : Random)
      (dataDeps timerDeps : bool) (s : RunState) :
  let s' := runEffects settings rand dataDeps timerDeps s in
  view s' = view s /\ results s' = results s /\
  trialIndex s' = trialIndex s /\ isPaused s' = isPaused s /\
  sessionResults s' = sessionResults s /\
  currentHistory s' = currentHistory s /\
  onFinishCalls s' = onFinishCalls s /\
  phase s' = (if dataDeps then PREP else phase s) /\
  userInput s' = (if dataDeps then EmptyString else userInput s).
Proof.
  unfold runEffects.
  set (s1 := if timerDeps then rerunPhaseTimerEffect settings s else s).
  assert (H1 : sameFields s s1)
    by (subst s1; destruct timerDeps;
        [apply rerun_sameFields | apply sameFields_refl]).
  destruct H1 as [e1 e2 e3 e4 e5 e6 e7 e8 e9 e10 e11 e12].
  destruct dataDeps.
  - destruct (dataSetup_fields settings rand s1)
      as (d1 & d2 & d3 & _ & _ & d6 & d7 & d8 & _ & _ & d11 & d12 & d13 & d14).
    set (s2 := dataSetupEffect settings rand s1) in *.
    assert (H2 : sameFields s2 (if timerDepsChanged s1 s2
                                then rerunPhaseTimerEffect settings s2 else s2))
      by (destruct (timerDepsChanged s1 s2);
          [apply rerun_sameFields | apply sameFields_refl]).
    destruct H2 as [f1 f2 f3 f4 f5 f6 f7 f8 f9 f10 f11 f12].
    cbv zeta. repeat split; congruence.
  - cbv zeta. repeat split; assumption.
Qed.

Lemma commit_fields (settings : Settings) (rand : Random) (old s : RunState) :
  let s' := commit settings rand old s in
  view s' = view s /\ results s' = results s /\
  trialIndex s' = trialIndex s /\ isPaused s' = isPaused s /\
  sessionResults s' = sessionResults s /\
  currentHistory s' = currentHistory s /\
  onFinishCalls s' = onFinishCalls s /\
  (view s = RUN ->
   phase s' = (if trialIndex old =? trialIndex s then phase s else PREP) /\
   userInput s'
   = (if trialIndex old =? trialIndex s then userInput s else EmptyString)) /\
  (view s <> RUN -> phase s' = phase s /\ userInput s' = userInput s).
Proof.
  unfold commit. destruct (view s) eqn:Hv.
  3: {
    destruct (runEffects_fields settings rand
                (negb (trialIndex old =? trialIndex s))
                (timerDepsChanged old s) s)
      as (r1 & r2 & r3 & r4 & r5 & r6 & r7 & r8 & r9).
    cbv zeta. rewrite r1, r2, r3, r4, r5, r6, r7, r8, r9, Hv.
    do 7 (split; [reflexivity |]).
    split; [| intros Hx; contradiction].
    intros _. destruct (trialIndex old =? trialIndex s); cbn [negb];
      split; reflexivity. }
  all: destruct (unmount_sameFields s) as [e1 e2 e3 e4 e5 e6 e7 e8 e9 e10 e11 e12].
  all: cbv zeta; rewrite e1, e4, e5, e2, e6, e9, e10, e11, e12, Hv.
  all: do 7 (split; [reflexivity |]).
  all: split; [intros Hx; discriminate Hx | intros _; split; reflexivity].
Qed.

(** ** Submissions *)

Lemma submitAnswer_record (settings : Settings) (verbal : bool) (now : Z)
      (s : RunState) :
  phase s = ANSWER ->
  results (submitAnswer settings verbal now s)
  = results s ++
    [{| trial := trialIndex s + 1;
        stimulus := currentStimulus s;
        input := if verbal then "(Verbal)"%string else userInput s;
        isCorrect := if verbal then true
                     else String.eqb (userInput s) (currentStimulus s);
        isVerbal := verbal;
        timestamp := now |}].
Proof.
  intros Hph. unfold submitAnswer. rewrite Hph.
  destruct (feedback settings); [reflexivity |].
  match goal with
  | |- results (nextTrial ?a ?b ?c ?d ?e) = _ =>
      destruct (nextTrial_fields a b c d e) as (_ & _ & -> & _)
  end.
  reflexivity.
Qed.

(** C2: a keypad submission during ANSWER records a result whose [input]
    is the user's input, whose [stimulus] is the current stimulus and
    whose [isCorrect] is their exact string equality. *)
Theorem keypad_submission_isCorrect
        (settings : Settings) (rand : Random) (now : Z) (s : RunState) :
  phase s = ANSWER ->
  exists r,
    results (submitAnswer settings false now s) = results s ++ [r] /\
    (enabled settings (SubmitPressed false now) s = true ->
     results (step settings rand (SubmitPressed false now) s)
     = results s ++ [r]) /\
    input r = userInput s /\ stimulus r = currentStimulus s /\
    isVerbal r = false /\
    isCorrect r = String.eqb (input r) (stimulus r) /\
    (isCorrect r = true <-> input r = stimulus r).
Proof.
  intros Hph. eexists. split; [apply submitAnswer_record; exact Hph |].
  split.
  - intros He. unfold step. rewrite He. cbn [handle].
    destruct (commit_fields settings rand s
                (submitAnswer settings false now s)) as (_ & -> & _).
    apply submitAnswer_record. exact Hph.
  - cbn. repeat split; try apply String.eqb_eq.
Qed.

(** The scenario of the specification: the stimulus is 4821 and the user
    enters 4821. *)
Lemma keypad_submission_isCorrect_witness :
  let s := run scenarioSettings scenarioRandom (typed 4 8 2 1)
               (mount scenarioSettings scenarioRandom 0 []) in
  exists r,
    results (submitAnswer scenarioSettings false 9 s) = results s ++ [r] /\
    (enabled scenarioSettings (SubmitPressed false 9) s = true ->
     results (step scenarioSettings scenarioRandom (SubmitPressed false 9) s)
     = results s ++ [r]) /\
    input r = userInput s /\ stimulus r = currentStimulus s /\
    isVerbal r = false /\
    isCorrect r = String.eqb (input r) (stimulus r) /\
    (isCorrect r = true <-> input r = stimulus r).
Proof.
  intros s.
  apply (@keypad_submission_isCorrect scenarioSettings scenarioRandom 9%Z s).
  vm_compute. reflexivity.
Defined.

(** The two scenarios of the specification: entering 4821 is correct,
    entering 4820 is not. *)
Example scenario_4821_4820 :
  let start := mount scenarioSettings scenarioRandom 0 [] in
  let good := run scenarioSettings scenarioRandom
                  (typed 4 8 2 1 ++ [SubmitPressed false 9]) start in
  let bad := run scenarioSettings scenarioRandom
                 (typed 4 8 2 0 ++ [SubmitPressed false 9]) start in
  map stimulus (results good) = ["4821"%string] /\
  map isCorrect (results good) = [true] /\
  map input (results bad) = ["4820"%string] /\
  map isCorrect (results bad) = [false].
Proof. vm_compute. repeat split. Qed.

(** ** The keypad *)

Lemma substring_0_length_app (u v : string) :
  String.substring 0 (String.length u) (u ++ v)%string = u.
Proof.
  induction u as [| c u IH]; cbn.
  - destruct v; reflexivity.
  - rewrite IH. reflexivity.
Qed.

Lemma slice_0_minus1_snoc (u : string) (c : ascii) :
  slice_0_minus1 (u ++ String c EmptyString)%string = u.
Proof.
  unfold slice_0_minus1. rewrite length_append. cbn [String.length].
  replace (String.length u + 1 - 1) with (String.length u) by lia.
  apply substring_0_length_app.
Qed.

(** C8: in the ANSWER phase a digit key appends its digit exactly when
    fewer than [digits] characters have been entered, DELETE removes the
    last character, CLEAR empties the input; and in every state of a run
    the input has at most [digits] characters. *)
Theorem keypad_edits_userInput
        (settings : Settings) (rand : Random) (pos : nat)
        (history : list HistoryRecord) (s : RunState) :
  validSettings settings ->
  reachable settings rand pos history s ->
  String.length (userInput s) <= digits settings /\
  (phase s = ANSWER ->
   (forall num, num <= 9 ->
      String.length (keyOf (Num num)) = 1 /\
      userInput (handleKeypad settings (keyOf (Num num)) s)
      = if String.length (userInput s) <? digits settings
        then (userInput s ++ keyOf (Num num))%string
        else userInput s) /\
   (forall u c, userInput s = (u ++ String c EmptyString)%string ->
      userInput (handleKeypad settings (keyOf Delete) s) = u) /\
   (userInput s = EmptyString ->
      userInput (handleKeypad settings (keyOf Delete) s) = EmptyString) /\
   userInput (handleKeypad settings (keyOf Clear) s) = EmptyString).
Proof.
  intros (_ & Htps & _) Hr.
  destruct (reachable_inv (proj1 Htps) Hr) as [Hs _].
  split; [exact (inv_input Hs) |].
  intros Hph. unfold handleKeypad. rewrite Hph. repeat split.
  - apply keyOf_Num. assumption.
  - destruct (keyOf_Num H) as (_ & -> & -> & _).
    destruct (String.length (userInput s) <? digits settings); reflexivity.
  - intros u c Hu. cbn. rewrite Hu. apply slice_0_minus1_snoc.
  - intros Hu. cbn. rewrite Hu. reflexivity.
Qed.

Lemma keypad_edits_userInput_witness :
  let s := run scenarioSettings scenarioRandom
               [TimerFired 1; TimerFired 2; TimerFired 3;
                KeypadPressed (Num 4); KeypadPressed (Num 8)]
               (mount scenarioSettings scenarioRandom 0 []) in
  String.length (userInput s) <= digits scenarioSettings /\
  (phase s = ANSWER ->
   (forall num, num <= 9 ->
      String.length (keyOf (Num num)) = 1 /\
      userInput (handleKeypad scenarioSettings (keyOf (Num num)) s)
      = if String.length (userInput s) <? digits scenarioSettings
        then (userInput s ++ keyOf (Num num))%string
        else userInput s) /\
   (forall u c, userInput s = (u ++ String c EmptyString)%string ->
      userInput (handleKeypad scenarioSettings (keyOf Delete) s) = u) /\
   (userInput s = EmptyString ->
      userInput (handleKeypad scenarioSettings (keyOf Delete) s)
      = EmptyString) /\
   userInput (handleKeypad scenarioSettings (keyOf Clear) s) = EmptyString).
Proof.
  intros s.
  apply (@keypad_edits_userInput scenarioSettings scenarioRandom 0 [] s).
  - unfold validSettings. cbn. repeat split; try lia; left; reflexivity.
  - apply reachable_run, reachable_mount.
Defined.

(** C10: outside the ANSWER phase a key press and a submission change
    nothing at all; and once a submission has been taken, a second one
    changes nothing, so that a trial gets at most one record from
    submissions. *)
Theorem handlers_idle_outside_ANSWER
        (settings : Settings) (rand : Random) (s : RunState) :
  (phase s <> ANSWER ->
   forall key b verbal now,
     handleKeypad settings key s = s /\
     submitAnswer settings verbal now s = s /\
     step settings rand (KeypadPressed b) s = s /\
     step settings rand (SubmitPressed verbal now) s = s) /\
  (forall verbal now verbal' now',
     enabled settings (SubmitPressed verbal now) s = true ->
     let s' := step settings rand (SubmitPressed verbal now) s in
     (view s' <> RUN \/ phase s' <> ANSWER) /\
     step settings rand (SubmitPressed verbal' now') s' = s').
Proof.
  split.
  - intros Hph key b verbal now.
    assert (Hb : Phase_eqb (phase s) ANSWER = false)
      by (destruct (phase s); try reflexivity; contradiction).
    unfold handleKeypad, submitAnswer, step, enabled. rewrite Hb.
    destruct (phase s); try contradiction;
      destruct (view s); repeat split; reflexivity.
  - intros verbal now verbal' now' He. cbv zeta.
    assert (Hgoal : let s' := step settings rand (SubmitPressed verbal now) s in
                    view s' <> RUN \/ phase s' <> ANSWER).
    { cbv zeta. unfold step. rewrite He. cbn [handle].
      pose proof (enabled_view _ _ _ He) as Hv.
      unfold enabled in He. rewrite Hv in He.
      apply andb_prop in He. destruct He as [He _].
      apply Phase_eqb_eq in He.
      set (h := submitAnswer settings verbal now s).
      destruct (commit_fields settings rand s h)
        as (cv & _ & _ & _ & _ & _ & _ & Hrun & _).
      destruct (view h) eqn:Hvh; try (left; rewrite cv; discriminate).
      right. destruct (Hrun eq_refl) as [-> _].
      subst h. unfold submitAnswer in *. rewrite He in *.
      destruct (feedback settings).
      - cbn. rewrite Nat.eqb_refl. cbn. discriminate.
      - match goal with
        | |- context [nextTrial ?a ?b ?c ?d ?e] =>
            destruct (nextTrial_fields a b c d e)
              as (_ & _ & _ & _ & _ & _ & Hfin & Hnext)
        end.
        destruct (Nat.le_gt_cases (trialsPerSet settings) (trialIndex s + 1))
          as [Hle | Hgt].
        + destruct (Hfin Hle) as (Hx & _). rewrite Hx in Hvh.
          discriminate Hvh.
        + destruct (Hnext Hgt) as (_ & -> & -> & _). cbn [trialIndex setResults].
          destruct (Nat.eqb_spec (trialIndex s) (trialIndex s + 1));
            [lia | discriminate]. }
    cbv zeta in Hgoal. split; [exact Hgoal |].
    set (s' := step settings rand (SubmitPressed verbal now) s) in *.
    unfold step, enabled.
    destruct Hgoal as [Hv | Hp].
    + destruct (view s'); try reflexivity. contradiction.
    + assert (Hb : Phase_eqb (phase s') ANSWER = false)
        by (destruct (phase s'); try reflexivity; contradiction).
      rewrite Hb. destruct (view s'); reflexivity.
Qed.

Lemma handlers_idle_outside_ANSWER_witness :
  let shown := run scenarioSettings scenarioRandom [TimerFired 1]
                   (mount scenarioSettings scenarioRandom 0 []) in
  let answering := run scenarioSettings scenarioRandom (typed 4 8 2 1)
                       (mount scenarioSettings scenarioRandom 0 []) in
  (forall key b verbal now,
     handleKeypad scenarioSettings key shown = shown /\
     submitAnswer scenarioSettings verbal now shown = shown /\
     step scenarioSettings scenarioRandom (KeypadPressed b) shown = shown /\
     step scenarioSettings scenarioRandom (SubmitPressed verbal now) shown
     = shown) /\
  (forall verbal' now',
     let s' := step scenarioSettings scenarioRandom (SubmitPressed false 9)
                    answering in
     (view s' <> RUN \/ phase s' <> ANSWER) /\
     step scenarioSettings scenarioRandom (SubmitPressed verbal' now') s'
     = s').
Proof.
  intros shown answering. split.
  - apply (proj1 (@handlers_idle_outside_ANSWER
                    scenarioSettings scenarioRandom shown)).
    vm_compute. discriminate.
  - intros verbal' now'.
    apply (proj2 (@handlers_idle_outside_ANSWER
                    scenarioSettings scenarioRandom answering)).
    vm_compute. reflexivity.
Defined.

(** ** Runs *)

Lemma In_firstn (A : Type) (n : nat) (l : list A) (x : A) :
  In x (firstn n l) -> In x l.
Proof.
  intros H. rewrite <- (firstn_skipn n l). apply in_or_app. left. exact H.
Qed.

(** C9 (as the claim has it): the only result of a set of one trial has
    the number 1, which is not below [trialsPerSet]. *)
Lemma trial_number_counterexample :
  let s := run scenarioSettings scenarioRandom
               (typed 4 8 2 1 ++ [SubmitPressed false 9])
               (mount scenarioSettings scenarioRandom 0 []) in
  exists r, In r (results s) /\ ~ (trial r < trialsPerSet scenarioSettings).
Proof.
  cbv zeta. eexists. split.
  - vm_compute. left. reflexivity.
  - vm_compute. lia.
Qed.

(** C9 (as the code has it): every recorded result carries the number of
    its trial counted from 1, that is its position in [results] plus one,
    and that number lies between 1 and [trialsPerSet]. *)
Theorem trial_number_is_position_plus_one
        (settings : Settings) (rand : Random) (pos : nat)
        (history : list HistoryRecord) (s : RunState) :
  validSettings settings ->
  reachable settings rand pos history s ->
  forall k r,
    nth_error (results s) k = Some r ->
    trial r = k + 1 /\ 1 <= trial r <= trialsPerSet settings.
Proof.
  intros (_ & Htps & _) Hr k r Hk.
  destruct (reachable_inv (proj1 Htps) Hr) as [Hs _].
  pose proof (inv_trial Hs _ Hk) as Ht.
  assert (Hlt : k < List.length (results s))
    by (apply nth_error_Some; congruence).
  pose proof (inv_count_le Hs). pose proof (inv_index Hs). lia.
Qed.

Lemma trial_number_is_position_plus_one_witness :
  let s := run scenarioNone scenarioRandom noneRun
               (mount scenarioNone scenarioRandom 0 []) in
  exists r,
    nth_error (results s) 2 = Some r /\
    trial r = 2 + 1 /\ 1 <= trial r <= trialsPerSet scenarioNone.
Proof.
  intros s. eexists. split.
  - vm_compute. reflexivity.
  - apply (@trial_number_is_position_plus_one
             scenarioNone scenarioRandom 0 [] s).
    + unfold validSettings. cbn.
      repeat split; try lia; [left | right]; reflexivity.
    + apply reachable_run, reachable_mount.
    + vm_compute. reflexivity.
Defined.

(** C1 (what the code does): with [answerMode] none and three trials,
    [onFinish] is called once, when the third trial ends, and the session
    is left; but the array it receives holds two results, the third one
    having been appended after [nextTrial] was created. *)
Theorem onFinish_none_mode_misses_last_result :
  let s := run scenarioNone scenarioRandom noneRun
               (mount scenarioNone scenarioRandom 0 []) in
  view s = RESULT /\
  trialsPerSet scenarioNone = 3 /\
  map trial (results s) = [1; 2; 3] /\
  map (map trial) (onFinishCalls s) = [[1; 2]] /\
  map trial (sessionResults s) = [1; 2].
Proof. vm_compute. repeat split. Qed.

(** Without the feedback phase the same happens on a submission: in a set
    of one trial [onFinish] receives no result at all, and the score of
    the result screen and of the history record is [NaN]. *)
Example onFinish_without_feedback_misses_last_result :
  let s := run scenarioNoFeedback scenarioRandom
               (typed 4 8 2 1 ++ [SubmitPressed false 9])
               (mount scenarioNoFeedback scenarioRandom 0 []) in
  view s = RESULT /\
  map trial (results s) = [1] /\
  onFinishCalls s = [[]] /\
  ResultScreen_score (sessionResults s) = JS.NaN /\
  exportCSV (currentHistory s) = Some [(0, 0, JS.NaN)].
Proof. vm_compute. repeat split. Qed.

(** With the keypad and the feedback phase [onFinish] receives all of
    them. *)
Example onFinish_with_feedback_receives_all :
  let s := run scenarioSettings scenarioRandom
               (typed 4 8 2 1 ++ [SubmitPressed false 9; TimerFired 10])
               (mount scenarioSettings scenarioRandom 0 []) in
  view s = RESULT /\
  map trial (results s) = [1] /\
  map (map trial) (onFinishCalls s) = [[1]] /\
  ResultScreen_score (sessionResults s) = JS.Int 100.
Proof. vm_compute. repeat split. Qed.

(** ** Pausing *)

Lemma step_pause_toggle (settings : Settings) (rand : Random) (s : RunState)
      (ph : Phase) :
  view s = RUN -> phase s = ph -> ph = SHOW \/ ph = HIDE ->
  timerInv s ->
  (isPaused s = false ->
   let p := step settings rand PausePressed s in
   isPaused p = true /\ phase p = ph /\ timerRef p = None) /\
  (isPaused s = true ->
   let r := step settings rand ResumePressed s in
   isPaused r = false /\ phase r = ph /\
   timerRef r = timerRef (phaseTimerEffect settings (setIsPaused false s))).
Proof.
  intros Hv Hph Hsh [T1 T2 _ _ _]. specialize (T1 Hv).
  destruct s as [ph' ti cs ui rs pa fb tr cl rp vw sr ch oc]. cbn in *.
  subst vw ph'. split; intros Hp; subst pa; cbn in T1; subst cl.
  - unfold step, enabled, commit, runEffects, timerDepsChanged. cbn.
    rewrite Nat.eqb_refl.
    destruct Hsh as [-> | ->]; cbn; repeat split.
  - specialize (T2 eq_refl). subst tr.
    unfold step, enabled, commit, runEffects, timerDepsChanged. cbn.
    rewrite Nat.eqb_refl.
    destruct Hsh as [-> | ->]; cbn; repeat split.
Qed.

(** C7: while a session is paused in SHOW no timeout is pending, and no
    event takes it out of SHOW; pausing during SHOW cancels the pending
    timeout, and resuming arms the timeout of SHOW afresh, so that HIDE is
    only reached after the resume. *)
Theorem paused_SHOW_does_not_advance
        (settings : Settings) (rand : Random) (pos : nat)
        (history : list HistoryRecord) (s : RunState) :
  validSettings settings ->
  reachable settings rand pos history s ->
  phase s = SHOW ->
  (isPaused s = false -> view s = RUN ->
   let p := step settings rand PausePressed s in
   isPaused p = true /\ phase p = SHOW /\ timerRef p = None) /\
  (isPaused s = true ->
   timerRef s = None /\
   (forall now, step settings rand (TimerFired now) s = s) /\
   (forall ev, phase (step settings rand ev s) = SHOW) /\
   (view s = RUN ->
    let r := step settings rand ResumePressed s in
    isPaused r = false /\ phase r = SHOW /\
    timerRef r
    = Some {| callback := ToHide;
              delay_ms := JS.mul (displaySec settings) (JS.of_Z 1000) |})).
Proof.
  intros (_ & Htps & _) Hr Hph.
  destruct (reachable_inv (proj1 Htps) Hr) as [Hs Ht]. split.
  - intros Hp Hv.
    destruct (@step_pause_toggle settings rand s SHOW
                Hv Hph (or_introl eq_refl) Ht) as [H _].
    exact (H Hp).
  - intros Hp. pose proof (tinv_paused Ht Hp) as Hn.
    split; [exact Hn |]. split; [| split].
    + intros now. unfold step, enabled. rewrite Hn.
      destruct (view s); reflexivity.
    + intros ev. unfold step.
      destruct (enabled settings ev s) eqn:He; [| exact Hph].
      pose proof (enabled_view _ _ _ He) as Hv.
      unfold enabled in He. rewrite Hv, Hph, Hn in He.
      destruct (commit_fields settings rand s (handle settings ev s))
        as (_ & _ & _ & _ & _ & _ & _ & Hrun & Hnot).
      destruct ev as [now | b | vb now | | |]; cbn in He;
        try discriminate He; cbn [handle] in *.
      * destruct (Hrun Hv) as [-> _]. cbn. rewrite Nat.eqb_refl. exact Hph.
      * destruct (Hrun Hv) as [-> _]. cbn. rewrite Nat.eqb_refl. exact Hph.
      * destruct Hnot as [-> _]; [cbn; discriminate | exact Hph].
    + intros Hv.
      destruct (@step_pause_toggle settings rand s SHOW
                  Hv Hph (or_introl eq_refl) Ht) as [_ H].
      destruct (H Hp) as (H1 & H2 & H3). cbv zeta. rewrite H1, H2, H3.
      repeat split. unfold phaseTimerEffect. cbn. rewrite Hph. reflexivity.
Qed.

Lemma paused_SHOW_does_not_advance_witness :
  let s := run DEFAULT_SETTINGS scenarioRandom [TimerFired 1; PausePressed]
               (mount DEFAULT_SETTINGS scenarioRandom 0 []) in
  (isPaused s = false -> view s = RUN ->
   let p := step DEFAULT_SETTINGS scenarioRandom PausePressed s in
   isPaused p = true /\ phase p = SHOW /\ timerRef p = None) /\
  (isPaused s = true ->
   timerRef s = None /\
   (forall now, step DEFAULT_SETTINGS scenarioRandom (TimerFired now) s = s) /\
   (forall ev, phase (step DEFAULT_SETTINGS scenarioRandom ev s) = SHOW) /\
   (view s = RUN ->
    let r := step DEFAULT_SETTINGS scenarioRandom ResumePressed s in
    isPaused r = false /\ phase r = SHOW /\
    timerRef r
    = Some {| callback := ToHide;
              delay_ms := JS.mul (displaySec DEFAULT_SETTINGS)
                                 (JS.of_Z 1000) |})).
Proof.
  intros s.
  apply (@paused_SHOW_does_not_advance DEFAULT_SETTINGS scenarioRandom 0 [] s).
  - unfold validSettings. cbn. repeat split; try lia; left; reflexivity.
  - apply reachable_run, reachable_mount.
  - vm_compute. reflexivity.
Defined.

(** ** The steps of a session *)

Lemma sameFields_sym (a b : RunState) : sameFields a b -> sameFields b a.
Proof. intros []. constructor; congruence. Qed.

Lemma dataSetup_sameFields (settings : Settings) (rand : Random)
      (a b : RunState) :
  sameFields a b ->
  sameFields (dataSetupEffect settings rand a)
             (dataSetupEffect settings rand b).
Proof.
  intros [e1 e2 e3 e4 e5 e6 e7 e8 e9 e10 e11 e12].
  destruct (dataSetup_fields settings rand a)
    as (a1 & a2 & a3 & a4 & a5 & a6 & a7 & a8 & _ & _ & a11 & a12 & a13 & a14).
  destruct (dataSetup_fields settings rand b)
    as (b1 & b2 & b3 & b4 & b5 & b6 & b7 & b8 & _ & _ & b11 & b12 & b13 & b14).
  constructor; congruence.
Qed.

Lemma commit_settle (settings : Settings) (rand : Random) (old s : RunState) :
  sameFields (settle settings rand old s) (commit settings rand old s).
Proof.
  unfold settle, commit. destruct (view s);
    try apply unmount_sameFields.
  unfold runEffects.
  set (s1 := if timerDepsChanged old s
             then rerunPhaseTimerEffect settings s else s).
  assert (H1 : sameFields s s1)
    by (subst s1; destruct (timerDepsChanged old s);
        [apply rerun_sameFields | apply sameFields_refl]).
  destruct (trialIndex old =? trialIndex s); cbn [negb]; [exact H1 |].
  apply sameFields_trans with (b := dataSetupEffect settings rand s1).
  - apply dataSetup_sameFields. exact H1.
  - destruct (timerDepsChanged s1 (dataSetupEffect settings rand s1));
      [apply rerun_sameFields | apply sameFields_refl].
Qed.

Lemma eqb_succ_false (n : nat) : (n =? n + 1) = false.
Proof. apply Nat.eqb_neq. lia. Qed.

Ltac same_by_computation :=
  unfold settle, nextTrial, startTrial, appendResult, dataSetupEffect,
    noneRecord, keypadRecord;
  cbn;
  repeat match goal with
         | |- context [?a <=? ?b] => destruct (Nat.leb_spec a b); try lia
         end;
  cbn; rewrite ?Nat.eqb_refl, ?eqb_succ_false; cbn;
  repeat match goal with
         | |- context [generateStimulus ?a ?b ?c ?d] =>
             destruct (generateStimulus a b c d)
         end;
  cbn; constructor; reflexivity.

Lemma step_transition
        (settings : Settings) (rand : Random) (pos : nat)
        (history : list HistoryRecord) (s : RunState) (ev : Event) :
  validSettings settings ->
  reachable settings rand pos history s ->
  step settings rand ev s = s \/
  (view s = RUN /\
   exists s', transition settings rand s s' /\
              sameFields s' (step settings rand ev s)).
Proof.
  intros (_ & Htps & _) Hr.
  destruct (reachable_inv (proj1 Htps) Hr) as [Hs Ht].
  unfold step. destruct (enabled settings ev s) eqn:He; [| left; reflexivity].
  pose proof (enabled_view _ _ _ He) as Hv.
  assert (Hgoal :
            handle settings ev s = s \/
            exists s', transition settings rand s s' /\
                       sameFields s' (settle settings rand s
                                             (handle settings ev s))).
  { unfold enabled in He. rewrite Hv in He.
    pose proof Hs as [I1 I2 I3 I4 I5 I6 I7 I8 I9].
    destruct ev as [now | b | vb now | | |]; cbn [handle].
    - destruct (timerRef s) as [t |] eqn:Htr; [| discriminate He].
      pose proof (tinv_matches Ht Htr) as Hm.
      assert (Hnp : isPaused s = false).
      { destruct (isPaused s) eqn:Hp; [| reflexivity].
        rewrite (tinv_paused Ht Hp) in Htr. discriminate Htr. }
      right.
      destruct (callback t) as [| | ti cs rs | ti rs];
        cbn [callbackMatches] in Hm; cbn [runCallback].
      + exists (setPhase SHOW s). split; [apply T_show; assumption |].
        clear - Hv. destruct s; cbn in *; subst. same_by_computation.
      + exists (setPhase HIDE s). split; [apply T_hide; assumption |].
        clear - Hv. destruct s; cbn in *; subst. same_by_computation.
      + destruct Hm as (Hph & -> & -> & ->).
        destruct (String.eqb_spec (answerMode settings) "none") as [Hn | Hn].
        * destruct (Nat.le_gt_cases (trialsPerSet settings) (trialIndex s + 1))
            as [Hle | Hgt].
          -- eexists. split; [apply (@T_none_finish settings rand s now); assumption |].
             clear - Hv Hle. destruct s; cbn in *; subst. same_by_computation.
          -- eexists. split; [apply (@T_none_next settings rand s now); assumption |].
             clear - Hv Hgt. destruct s; cbn in *; subst. same_by_computation.
        * exists (setPhase ANSWER s). split; [apply T_answer; assumption |].
          clear - Hv. destruct s; cbn in *; subst. same_by_computation.
      + destruct Hm as (Hph & -> & ->).
        destruct (Nat.le_gt_cases (trialsPerSet settings) (trialIndex s + 1))
          as [Hle | Hgt].
        * eexists. split; [apply (@T_feedback_finish settings rand s now); assumption |].
          clear - Hv Hle. destruct s; cbn in *; subst. same_by_computation.
        * eexists. split; [apply T_feedback_next; assumption |].
          clear - Hv Hgt. destruct s; cbn in *; subst. same_by_computation.
    - apply andb_prop in He. destruct He as [He Hb].
      apply andb_prop in He. destruct He as [Hph _].
      apply Phase_eqb_eq in Hph. unfold handleKeypad. rewrite Hph.
      destruct b as [num | |].
      + apply Nat.leb_le in Hb.
        destruct (keyOf_Num Hb) as (_ & -> & -> & _).
        destruct (Nat.ltb_spec (String.length (userInput s)) (digits settings));
          [right | left; reflexivity].
        eexists. split; [apply T_key; eassumption |].
        clear - Hv. destruct s; cbn in *; subst. same_by_computation.
      + right. eexists. split; [apply T_delete; assumption |].
        clear - Hv. destruct s; cbn in *; subst. same_by_computation.
      + right. eexists. split; [apply T_clear; assumption |].
        clear - Hv. destruct s; cbn in *; subst. same_by_computation.
    - apply andb_prop in He. destruct He as [Hph Hmode].
      apply Phase_eqb_eq in Hph. apply String.eqb_eq in Hmode.
      destruct vb.
      { destruct (I6 Hmode) as [Hx _]. contradiction. }
      right. unfold submitAnswer. rewrite Hph.
      destruct (feedback settings) eqn:Hfb.
      + eexists. split; [apply (@T_submit_feedback settings rand s now); assumption |].
        clear - Hv. destruct s; cbn in *; subst.
        unfold settle, appendResult, keypadRecord. cbn.
        rewrite Nat.eqb_refl. constructor; reflexivity.
      + destruct (Nat.le_gt_cases (trialsPerSet settings) (trialIndex s + 1))
          as [Hle | Hgt].
        * eexists. split; [apply (@T_submit_finish settings rand s now); assumption |].
          clear - Hv Hle. destruct s; cbn in *; subst. same_by_computation.
        * eexists. split; [apply (@T_submit_next settings rand s now); assumption |].
          clear - Hv Hgt. destruct s; cbn in *; subst. same_by_computation.
    - assert (Hph : phase s = SHOW \/ phase s = HIDE).
      { apply orb_prop in He. destruct He as [He | He];
          apply Phase_eqb_eq in He; auto. }
      right. destruct (isPaused s) eqn:Hp; cbn [negb].
      + eexists. split; [apply T_resume; assumption |].
        clear - Hv. destruct s; cbn in *; subst. same_by_computation.
      + eexists. split; [apply T_pause; assumption |].
        clear - Hv. destruct s; cbn in *; subst. same_by_computation.
    - right. eexists. split; [apply T_resume; [apply I5 |]; assumption |].
      clear - Hv. destruct s; cbn in *; subst. same_by_computation.
    - right. eexists. split; [apply T_abort |].
      clear. destruct s; cbn in *. same_by_computation. }
  destruct Hgoal as [Hid | (s' & Htr & Hsf)].
  - left. rewrite Hid. unfold commit. rewrite Hv. unfold runEffects.
    rewrite timerDeps_refl, Nat.eqb_refl. reflexivity.
  - right. split; [exact Hv |]. exists s'. split; [exact Htr |].
    eapply sameFields_trans; [exact Hsf | apply commit_settle].
Qed.

Lemma mount_sameFields (settings : Settings) (rand : Random) (pos : nat)
      (history : list HistoryRecord) :
  sameFields (dataSetupEffect settings rand (initialState pos history))
             (mount settings rand pos history).
Proof.
  unfold mount, runEffects.
  set (s1 := rerunPhaseTimerEffect settings (initialState pos history)).
  apply sameFields_trans with (b := dataSetupEffect settings rand s1).
  - apply dataSetup_sameFields. apply rerun_sameFields.
  - destruct (timerDepsChanged s1 (dataSetupEffect settings rand s1));
      [apply rerun_sameFields | apply sameFields_refl].
Qed.

(** Induction over the states of a session, along the transitions. *)
Lemma reachable_transition_ind
      (settings : Settings) (rand : Random) (pos : nat)
      (history : list HistoryRecord) (P : RunState -> Prop) :
  validSettings settings ->
  (forall a b, sameFields a b -> P a -> P b) ->
  P (dataSetupEffect settings rand (initialState pos history)) ->
  (forall s s',
      reachable settings rand pos history s -> view s = RUN ->
      stateInv settings s -> P s ->
      transition settings rand s s' -> P s') ->
  forall s, reachable settings rand pos history s -> P s.
Proof.
  intros Hvalid Hsame Hinit Hstep s Hr.
  induction Hr as [| s ev Hr IH].
  - eapply Hsame; [apply mount_sameFields | exact Hinit].
  - destruct (@step_transition settings rand pos history s ev Hvalid Hr)
      as [-> | (Hv & s' & Htr & Hsf)]; [exact IH |].
    eapply Hsame; [exact Hsf |].
    destruct Hvalid as (_ & Htps & _).
    destruct (reachable_inv (proj1 Htps) Hr) as [Hs _].
    eapply Hstep; eassumption.
Qed.

(** ** The main component during a session *)

Lemma appInv_sameFields (settings : Settings) (history : list HistoryRecord)
      (a b : RunState) :
  sameFields a b -> appInv settings history a -> appInv settings history b.
Proof.
  intros [e1 e2 e3 e4 e5 e6 e7 e8 e9 e10 e11 e12]. unfold appInv.
  rewrite e9, e10, e11. auto.
Qed.

Lemma startTrial_fields (settings : Settings) (rand : Random) (s : RunState) :
  let s' := startTrial settings rand s in
  phase s' = PREP /\ userInput s' = EmptyString /\ feedbackState s' = None /\
  currentStimulus s'
  = fst (generateStimulus (digits settings) (numberRange settings) rand
                          (randPos s)) /\
  randPos s'
  = snd (generateStimulus (digits settings) (numberRange settings) rand
                          (randPos s)) /\
  trialIndex s' = trialIndex s + 1 /\ results s' = results s /\
  isPaused s' = isPaused s /\ view s' = view s /\
  sessionResults s' = sessionResults s /\
  currentHistory s' = currentHistory s /\
  onFinishCalls s' = onFinishCalls s.
Proof.
  unfold startTrial.
  destruct (dataSetup_fields settings rand
              (setPhase PREP (setTrialIndex (trialIndex s + 1) s)))
    as (a1 & a2 & a3 & a4 & a5 & a6 & a7 & a8 & _ & _ & a11 & a12 & a13 & a14).
  cbv zeta. repeat split; assumption.
Qed.

Lemma reachable_appInv (settings : Settings) (rand : Random) (pos : nat)
      (history : list HistoryRecord) (s : RunState) :
  validSettings settings ->
  reachable settings rand pos history s ->
  appInv settings history s.
Proof.
  intros Hvalid. apply reachable_transition_ind; try assumption.
  - apply appInv_sameFields.
  - unfold appInv.
    destruct (dataSetup_fields settings rand (initialState pos history))
      as (_ & _ & _ & _ & _ & _ & _ & _ & _ & _ & -> & -> & -> & _).
    cbn. split; reflexivity.
  - intros a b _ Hv _ Ha Htr. unfold appInv in *. rewrite Hv in Ha.
    destruct Ha as [Hh Hsr].
    destruct Htr;
      try (cbn; rewrite Hv; split; assumption);
      try (match goal with
           | |- context [startTrial ?x ?y ?z] =>
               destruct (startTrial_fields x y z)
                 as (_ & _ & _ & _ & _ & _ & _ & _ & -> & -> & -> & _)
           end; cbn; rewrite Hv; split; assumption);
      try (cbn; rewrite Hh; destruct (recording settings);
           [eexists; reflexivity | reflexivity]).
    cbn. split; assumption.
Qed.

(** ** The input and the results *)

Lemma allChars_substring_0 (p : ascii -> bool) (n : nat) (s : string) :
  allChars p s = true -> allChars p (String.substring 0 n s) = true.
Proof.
  revert n. induction s as [| c s IH]; intros [| n] H; cbn in *;
    try reflexivity.
  apply andb_prop in H. destruct H as [Hc Hs].
  rewrite Hc, (IH n Hs). reflexivity.
Qed.

Lemma dataInv_sameFields (settings : Settings) (a b : RunState) :
  sameFields a b -> dataInv settings a -> dataInv settings b.
Proof.
  intros [e1 e2 e3 e4 e5 e6 e7 e8 e9 e10 e11 e12] [D1 D2 D3].
  constructor; rewrite ?e4, ?e5; assumption.
Qed.

Lemma dataInv_append (settings : Settings) (s : RunState) (r : TrialResult) :
  dataInv settings s ->
  (if isVerbal r
   then isCorrect r = true /\ input r = "(None)"%string
   else isCorrect r = String.eqb (input r) (stimulus r) /\
        String.length (input r) <= digits settings /\
        allChars (isDigitFrom 0) (input r) = true) ->
  isVerbal r = String.eqb (answerMode settings) "none" ->
  forall s',
    userInput s' = userInput s \/ userInput s' = EmptyString ->
    results s' = results s ++ [r] ->
    dataInv settings s'.
Proof.
  intros [D1 D2 D3] Hr Hm s' Hu Hres. constructor.
  - destruct Hu as [-> | ->]; [assumption | reflexivity].
  - intros x Hin. rewrite Hres in Hin. apply in_app_or in Hin.
    destruct Hin as [Hin | [<- | []]]; [exact (D2 _ Hin) | exact Hr].
  - intros x Hin. rewrite Hres in Hin. apply in_app_or in Hin.
    destruct Hin as [Hin | [<- | []]]; [exact (D3 _ Hin) | exact Hm].
Qed.

Lemma reachable_dataInv (settings : Settings) (rand : Random) (pos : nat)
      (history : list HistoryRecord) (s : RunState) :
  validSettings settings ->
  reachable settings rand pos history s ->
  dataInv settings s.
Proof.
  intros Hvalid. apply reachable_transition_ind; try assumption.
  - apply dataInv_sameFields.
  - destruct (dataSetup_fields settings rand (initialState pos history))
      as (_ & e2 & _ & _ & _ & _ & e7 & _).
    constructor; rewrite ?e2, ?e7; cbn; try reflexivity; intros r [].
  - intros a b _ Hv Hs Hd Htr. pose proof Hd as [D1 D2 D3].
    assert (Hnone : forall now,
               answerMode settings = "none"%string ->
               forall s', userInput s' = userInput a \/
                          userInput s' = EmptyString ->
                          results s' = results a ++ [noneRecord a now] ->
                          dataInv settings s').
    { intros now Hm. apply dataInv_append; cbn; try assumption.
      - split; reflexivity.
      - rewrite Hm. reflexivity. }
    assert (Hkey : forall now,
               answerMode settings = "keypad"%string ->
               forall s', userInput s' = userInput a \/
                          userInput s' = EmptyString ->
                          results s' = results a ++ [keypadRecord a now] ->
                          dataInv settings s').
    { intros now Hm. apply dataInv_append; cbn; try assumption.
      - repeat split; [exact (inv_input Hs) | exact D1].
      - rewrite Hm. reflexivity. }
    destruct Htr as [? ? | ? ? | ? ? ? | now ? ? Hm ? | now ? ? Hm ?
                     | now ? Hm ? | now ? Hm ? ? | now ? Hm ? ?
                     | ? ? ? | now ? ? ? | num ? Hnum ? | ? | ? | ? ? | ? ?
                     | ].
    + constructor; cbn; assumption.
    + constructor; cbn; assumption.
    + constructor; cbn; assumption.
    + destruct (startTrial_fields settings rand
                  (appendResult (noneRecord a now) a))
        as (_ & e2 & _ & _ & _ & _ & e7 & _).
      apply (Hnone now Hm); [right; exact e2 | exact e7].
    + apply (Hnone now Hm); [left |]; reflexivity.
    + apply (Hkey now Hm); [left |]; reflexivity.
    + destruct (startTrial_fields settings rand
                  (appendResult (keypadRecord a now) a))
        as (_ & e2 & _ & _ & _ & _ & e7 & _).
      apply (Hkey now Hm); [right; exact e2 | exact e7].
    + apply (Hkey now Hm); [left |]; reflexivity.
    + destruct (startTrial_fields settings rand a)
        as (_ & e2 & _ & _ & _ & _ & e7 & _).
      constructor; rewrite ?e2, ?e7; try assumption. reflexivity.
    + constructor; cbn; assumption.
    + constructor; cbn [userInput results setUserInput]; try assumption.
      rewrite allChars_append, D1.
      destruct (keyOf_Num Hnum) as (_ & _ & _ & ->). reflexivity.
    + constructor; cbn [userInput results setUserInput]; try assumption.
      apply allChars_substring_0. exact D1.
    + constructor; cbn; try assumption. reflexivity.
    + constructor; cbn; assumption.
    + constructor; cbn; assumption.
    + constructor; cbn; assumption.
Qed.

(** ** One stimulus for each trial *)

Lemma generateStimulus_loop_snd (count : nat) (minVal maxVal : Z)
      (rand : Random) (pos : nat) (numStr : string) :
  snd (generateStimulus_loop count minVal maxVal rand pos numStr)
  = pos + count.
Proof.
  revert pos numStr. induction count as [| count IH]; intros pos numStr;
    cbn [generateStimulus_loop snd].
  - lia.
  - cbv zeta. rewrite IH. lia.
Qed.

Lemma generateStimulus_snd (digits : nat) (range : string) (rand : Random)
      (pos : nat) :
  snd (generateStimulus digits range rand pos) = pos + digits.
Proof. unfold generateStimulus. apply generateStimulus_loop_snd. Qed.

Lemma settledInv_sameFields (settings : Settings) (rand : Random) (pos : nat)
      (a b : RunState) :
  sameFields a b -> settledInv settings rand pos a ->
  settledInv settings rand pos b.
Proof.
  intros [e1 e2 e3 e4 e5 e6 e7 e8 e9 e10 e11 e12] [S1 S2 S3 S4].
  constructor; rewrite ?e1, ?e2, ?e3, ?e5, ?e7, ?e8, ?e9; assumption.
Qed.

Lemma settledInv_startTrial (settings : Settings) (rand : Random) (pos : nat)
      (a s : RunState) (extra : list TrialResult) :
  settledInv settings rand pos a ->
  trialIndex s = trialIndex a -> randPos s = randPos a ->
  results s = results a ++ extra ->
  (forall k r, nth_error (results a ++ extra) k = Some r ->
               stimulus r
               = fst (generateStimulus (digits settings)
                                       (numberRange settings) rand
                                       (pos + digits settings * k))) ->
  settledInv settings rand pos (startTrial settings rand s).
Proof.
  intros [S1 S2 S3 S4] Hti Hrp Hres Hst.
  destruct (startTrial_fields settings rand s)
    as (e1 & e2 & e3 & e4 & e5 & e6 & e7 & _).
  constructor; rewrite ?e1, ?e3, ?e4, ?e5, ?e6, ?e7, ?Hres, ?Hrp, ?Hti, ?S2.
  - f_equal. f_equal. lia.
  - rewrite generateStimulus_snd. lia.
  - exact Hst.
  - reflexivity.
Qed.

Lemma stimulus_snoc (settings : Settings) (rand : Random) (pos : nat)
      (a : RunState) (r : TrialResult) :
  settledInv settings rand pos a ->
  List.length (results a) = trialIndex a ->
  stimulus r = currentStimulus a ->
  forall k x, nth_error (results a ++ [r]) k = Some x ->
              stimulus x
              = fst (generateStimulus (digits settings)
                                      (numberRange settings) rand
                                      (pos + digits settings * k)).
Proof.
  intros [S1 S2 S3 S4] Hlen Hst k x Hk.
  destruct (nth_error_snoc _ _ _ Hk) as [Hin | [-> ->]].
  - exact (S3 _ _ Hin).
  - rewrite Hst, Hlen. exact S1.
Qed.

Lemma nth_error_last (A : Type) (l : list A) (x : A) (n : nat) :
  List.length l = n -> nth_error (l ++ [x]) n = Some x.
Proof.
  intros <-. rewrite nth_error_app2 by lia. rewrite Nat.sub_diag. reflexivity.
Qed.

Lemma reachable_settledInv (settings : Settings) (rand : Random) (pos : nat)
      (history : list HistoryRecord) (s : RunState) :
  validSettings settings ->
  reachable settings rand pos history s ->
  settledInv settings rand pos s.
Proof.
  intros Hvalid. apply reachable_transition_ind; try assumption.
  - apply settledInv_sameFields.
  - destruct (dataSetup_fields settings rand (initialState pos history))
      as (e1 & _ & e3 & e4 & e5 & e6 & e7 & _).
    constructor; rewrite ?e1, ?e3, ?e4, ?e5, ?e6, ?e7; cbn.
    + f_equal. f_equal. lia.
    + rewrite generateStimulus_snd. lia.
    + intros [| k] r H; discriminate H.
    + reflexivity.
  - intros a b _ Hv Hs Hd Htr. pose proof Hd as [S1 S2 S3 S4].
    specialize (S4 Hv). pose proof (inv_count Hs Hv) as Hc.
    destruct Htr as [Hp ? | Hp ? | Hp ? ? | now Hp ? Hm ? | now Hp ? Hm ?
                     | now Hp Hm ? | now Hp Hm ? ? | now Hp Hm ? ?
                     | Hp ? ? | now Hp ? ? | num Hp Hnum ? | Hp | Hp
                     | Hp ? | Hp ? | ];
      try rewrite Hp in S4; try rewrite Hp in Hc; cbn in Hc.
    + constructor; cbn; auto.
    + constructor; cbn; auto.
    + constructor; cbn; auto.
    + apply settledInv_startTrial with (a := a) (extra := [noneRecord a now]);
        try reflexivity; try assumption.
      apply stimulus_snoc; [assumption | assumption | reflexivity].
    + constructor; cbn; try assumption; try discriminate.
      apply stimulus_snoc; [assumption | assumption | reflexivity].
    + constructor; cbn; try assumption.
      * apply stimulus_snoc; [assumption | assumption | reflexivity].
      * intros _. eexists.
        split; [apply nth_error_last; exact Hc |]. reflexivity.
    + apply settledInv_startTrial with (a := a) (extra := [keypadRecord a now]);
        try reflexivity; try assumption.
      apply stimulus_snoc; [assumption | assumption | reflexivity].
    + constructor; cbn; try assumption; try discriminate.
      apply stimulus_snoc; [assumption | assumption | reflexivity].
    + apply settledInv_startTrial with (a := a) (extra := []);
        try reflexivity; try assumption.
      * symmetry. apply app_nil_r.
      * rewrite app_nil_r. exact S3.
    + constructor; cbn; try assumption; try discriminate.
    + constructor; cbn; try assumption. intros _. rewrite Hp. exact S4.
    + constructor; cbn; try assumption. intros _. rewrite Hp. exact S4.
    + constructor; cbn; try assumption. intros _. rewrite Hp. exact S4.
    + constructor; cbn; try assumption. intros _.
      destruct Hp as [Hp | Hp]; rewrite Hp in *; exact S4.
    + constructor; cbn; try assumption. intros _.
      destruct Hp as [Hp | Hp]; rewrite Hp in *; exact S4.
    + constructor; cbn; try assumption; try discriminate.
Qed.

(** ** The pending timeout *)

Lemma rerun_armed (settings : Settings) (s : RunState) :
  armedInv settings (rerunPhaseTimerEffect settings s).
Proof.
  unfold armedInv, rerunPhaseTimerEffect, phaseTimerEffect, expectedTimer.
  destruct s as [ph ti cs ui rs pa fb tr cl rp vw sr ch oc]. cbn.
  destruct cl, pa; cbn; intros _ Hp; try discriminate Hp;
    destruct ph; cbn; try reflexivity;
      destruct (feedback settings); reflexivity.
Qed.

Lemma unchanged_armed (settings : Settings) (old s : RunState) :
  armedInv settings old ->
  timerDepsChanged old s = false ->
  view old = RUN ->
  timerRef s = timerRef old -> results s = results old ->
  armedInv settings s.
Proof.
  unfold armedInv, expectedTimer. intros Ha Hd Hvo Ht Hr Hv Hp.
  apply timerDeps_unchanged in Hd.
  destruct Hd as (Hph & Hpa & Hti & _ & Hcs).
  rewrite Ht, <- Hph, <- Hti, <- Hcs, Hr. apply Ha; congruence.
Qed.

Lemma runEffects_armed (settings : Settings) (rand : Random)
      (dataDeps timerDeps : bool) (s : RunState) :
  view s = RUN ->
  (if timerDeps then True else armedInv settings s) ->
  armedInv settings (runEffects settings rand dataDeps timerDeps s).
Proof.
  intros Hv Ha. unfold runEffects.
  set (s1 := if timerDeps then rerunPhaseTimerEffect settings s else s).
  assert (H1 : armedInv settings s1 /\ view s1 = RUN).
  { subst s1. destruct timerDeps.
    - split; [apply rerun_armed |].
      rewrite (sf_view (rerun_sameFields settings s)). exact Hv.
    - split; assumption. }
  destruct H1 as [Ha1 Hv1]. destruct dataDeps; [| exact Ha1].
  destruct (dataSetup_fields settings rand s1)
    as (_ & _ & _ & _ & _ & _ & e7 & _ & e9 & _).
  destruct (timerDepsChanged s1 (dataSetupEffect settings rand s1)) eqn:Hd.
  - apply rerun_armed.
  - apply unchanged_armed with (old := s1); assumption.
Qed.

Lemma commit_armed (settings : Settings) (rand : Random) (old s : RunState) :
  armedInv settings old -> view old = RUN -> handled old s ->
  armedInv settings (commit settings rand old s).
Proof.
  intros Ha Hvo [Hc Ht Hr Htr]. unfold commit.
  destruct (view s) eqn:Hv.
  3: {
    apply runEffects_armed; [exact Hv |].
    destruct (timerDepsChanged old s) eqn:Hd; [exact I |].
    apply unchanged_armed with (old := old); auto.
    destruct Ht as [-> | [_ Hx]]; [reflexivity |].
    specialize (Hx eq_refl). discriminate Hx. }
  all: intros Hx; rewrite (sf_view (unmount_sameFields s)) in Hx; congruence.
Qed.

Lemma reachable_armed (settings : Settings) (rand : Random) (pos : nat)
      (history : list HistoryRecord) (s : RunState) :
  validSettings settings ->
  reachable settings rand pos history s ->
  armedInv settings s.
Proof.
  intros Hvalid Hr. induction Hr as [| s ev Hr IH].
  - unfold mount. apply runEffects_armed; [reflexivity | exact I].
  - destruct Hvalid as (_ & Htps & _).
    destruct (reachable_inv (proj1 Htps) Hr) as [Hs Ht].
    unfold step. destruct (enabled settings ev s) eqn:He; [| exact IH].
    destruct (handle_inv ev Hs Ht He) as [Hh _].
    apply commit_armed; try assumption. eapply enabled_view; eassumption.
Qed.

(** X7: Between two events a session that is mounted and not paused has
    exactly the timeout of its phase pending (none in ANSWER, where it
    waits for the user), with the values of the current render; a paused
    session and a session that was left have none. *)
Theorem pending_timeout_is_that_of_the_phase
        (settings : Settings) (rand : Random) (pos : nat)
        (history : list HistoryRecord) (s : RunState) :
  validSettings settings ->
  reachable settings rand pos history s ->
  match view s with
  | RUN => timerRef s = if isPaused s then None else expectedTimer settings s
  | _ => timerRef s = None
  end.
Proof.
  intros Hvalid Hr. pose proof (reachable_armed Hvalid Hr) as Ha.
  destruct Hvalid as (_ & Htps & _).
  destruct (reachable_inv (proj1 Htps) Hr) as [_ Ht].
  destruct (view s) eqn:Hv;
    try (apply (tinv_unmounted Ht); rewrite Hv; discriminate).
  destruct (isPaused s) eqn:Hp.
  - apply (tinv_paused Ht). exact Hp.
  - apply Ha; assumption.
Qed.

Lemma pending_timeout_is_that_of_the_phase_witness :
  let s := run DEFAULT_SETTINGS scenarioRandom [TimerFired 1; TimerFired 2]
               (mount DEFAULT_SETTINGS scenarioRandom 0 []) in
  match view s with
  | RUN => timerRef s
           = if isPaused s then None else expectedTimer DEFAULT_SETTINGS s
  | _ => timerRef s = None
  end.
Proof.
  intros s.
  apply (@pending_timeout_is_that_of_the_phase
           DEFAULT_SETTINGS scenarioRandom 0 [] s).
  - unfold validSettings. cbn. repeat split; try lia; left; reflexivity.
  - apply reachable_run, reachable_mount.
Defined.

Lemma step_toggle_pause (settings : Settings) (rand : Random) (s : RunState) :
  view s = RUN -> phase s = SHOW \/ phase s = HIDE ->
  step settings rand PausePressed s
  = rerunPhaseTimerEffect settings (setIsPaused (negb (isPaused s)) s).
Proof.
  intros Hv Hph. unfold step, enabled. rewrite Hv.
  assert (He : Phase_eqb (phase s) SHOW || Phase_eqb (phase s) HIDE = true)
    by (destruct Hph as [-> | ->]; reflexivity).
  rewrite He. cbn [handle]. unfold commit. cbn [view setIsPaused].
  rewrite Hv. unfold runEffects. cbn [trialIndex setIsPaused].
  rewrite Nat.eqb_refl. cbn [negb].
  assert (Hd : timerDepsChanged s (setIsPaused (negb (isPaused s)) s) = true).
  { unfold timerDepsChanged. cbn [phase isPaused setIsPaused].
    rewrite Phase_eqb_refl. destruct (isPaused s); reflexivity. }
  rewrite Hd. reflexivity.
Qed.

Lemma step_resume (settings : Settings) (rand : Random) (s : RunState) :
  view s = RUN -> isPaused s = true ->
  step settings rand ResumePressed s
  = rerunPhaseTimerEffect settings (setIsPaused false s).
Proof.
  intros Hv Hp. unfold step, enabled. rewrite Hv, Hp.
  cbn [handle]. unfold commit. cbn [view setIsPaused].
  rewrite Hv. unfold runEffects. cbn [trialIndex setIsPaused].
  rewrite Nat.eqb_refl. cbn [negb].
  assert (Hd : timerDepsChanged s (setIsPaused false s) = true).
  { unfold timerDepsChanged. cbn [phase isPaused setIsPaused].
    rewrite Phase_eqb_refl, Hp. reflexivity. }
  rewrite Hd. reflexivity.
Qed.

(** X8: Pausing and then resuming in SHOW or HIDE brings the session back
    to the state it was paused in, with the timeout of the phase armed
    afresh for its full duration. *)
Theorem pause_then_resume_restores_the_state
        (settings : Settings) (rand : Random) (pos : nat)
        (history : list HistoryRecord) (s : RunState) :
  validSettings settings ->
  reachable settings rand pos history s ->
  view s = RUN -> isPaused s = false ->
  phase s = SHOW \/ phase s = HIDE ->
  let paused := step settings rand PausePressed s in
  isPaused paused = true /\ timerRef paused = None /\
  step settings rand ResumePressed paused = s /\
  step settings rand PausePressed paused = s.
Proof.
  intros Hvalid Hr Hv Hp Hph.
  pose proof (reachable_armed Hvalid Hr Hv Hp) as Ha.
  destruct Hvalid as (_ & Htps & _).
  destruct (reachable_inv (proj1 Htps) Hr) as [_ Ht].
  pose proof (tinv_cleanup Ht Hv) as Hc. rewrite Hp in Hc. cbn in Hc.
  cbv zeta. rewrite (step_toggle_pause settings rand s Hv Hph).
  rewrite Hp. cbn [negb].
  set (paused := rerunPhaseTimerEffect settings (setIsPaused true s)).
  assert (Hpaused : paused = setCleanup false (clearTimer (setIsPaused true s))).
  { subst paused. unfold rerunPhaseTimerEffect, phaseTimerEffect.
    cbn [cleanup setIsPaused isPaused clearTimer setTimerRef]. rewrite Hc.
    reflexivity. }
  rewrite Hpaused. split; [reflexivity |]. split; [reflexivity |].
  rewrite step_toggle_pause; [| exact Hv | exact Hph].
  rewrite step_resume; [| exact Hv | reflexivity].
  cbn [isPaused setCleanup clearTimer setTimerRef setIsPaused negb].
  assert (Hback :
            rerunPhaseTimerEffect settings
              (setIsPaused false
                 (setCleanup false (clearTimer (setIsPaused true s)))) = s);
    [| split; exact Hback].
  unfold rerunPhaseTimerEffect, phaseTimerEffect, expectedTimer in *.
  destruct s as [ph ti cs ui rs pa fb tr cl rp vw sr ch oc].
  cbn [phase trialIndex currentStimulus userInput results isPaused
       feedbackState timerRef cleanup randPos view sessionResults
       currentHistory onFinishCalls setIsPaused setCleanup clearTimer
       setTimerRef setTimeout negb] in *.
  subst vw pa cl tr.
  destruct Hph as [-> | ->]; reflexivity.
Qed.

Lemma pause_then_resume_restores_the_state_witness :
  let s := run DEFAULT_SETTINGS scenarioRandom [TimerFired 1]
               (mount DEFAULT_SETTINGS scenarioRandom 0 []) in
  let paused := step DEFAULT_SETTINGS scenarioRandom PausePressed s in
  isPaused paused = true /\ timerRef paused = None /\
  step DEFAULT_SETTINGS scenarioRandom ResumePressed paused = s /\
  step DEFAULT_SETTINGS scenarioRandom PausePressed paused = s.
Proof.
  intros s.
  apply (@pause_then_resume_restores_the_state
           DEFAULT_SETTINGS scenarioRandom 0 [] s).
  - unfold validSettings. cbn. repeat split; try lia; left; reflexivity.
  - apply reachable_run, reachable_mount.
  - vm_compute. reflexivity.
  - vm_compute. reflexivity.
  - left. vm_compute. reflexivity.
Defined.

(** ** What a session does *)

(** X4: Every event either leaves the session as it is, or makes one of the
    transitions of the run loop and changes nothing else but the timer
    slot. *)
Theorem step_is_a_transition
        (settings : Settings) (rand : Random) (pos : nat)
        (history : list HistoryRecord) (s : RunState) (ev : Event) :
  validSettings settings ->
  reachable settings rand pos history s ->
  step settings rand ev s = s \/
  (view s = RUN /\
   exists s', transition settings rand s s' /\
              sameFields s' (step settings rand ev s)).
Proof. apply step_transition. Qed.

Lemma step_is_a_transition_witness :
  let s := mount scenarioSettings scenarioRandom 0 [] in
  step scenarioSettings scenarioRandom (TimerFired 1) s = s \/
  (view s = RUN /\
   exists s', transition scenarioSettings scenarioRandom s s' /\
              sameFields s' (step scenarioSettings scenarioRandom
                                  (TimerFired 1) s)).
Proof.
  intros s.
  apply (@step_is_a_transition scenarioSettings scenarioRandom 0 [] s).
  - unfold validSettings. cbn. repeat split; try lia; left; reflexivity.
  - apply reachable_mount.
Defined.

(** X5: The phases follow one another as PREP, SHOW, HIDE, ANSWER, FEEDBACK:
    a step of a session that is still mounted afterwards either keeps
    phase and trial, or moves to a next phase of the current phase; and
    the trial index goes up, by one, exactly on the moves into PREP. *)
Theorem phases_follow_the_run_loop
        (settings : Settings) (rand : Random) (pos : nat)
        (history : list HistoryRecord) (s : RunState) (ev : Event) :
  validSettings settings ->
  reachable settings rand pos history s ->
  let s' := step settings rand ev s in
  view s' = RUN ->
  (phase s' = phase s /\ trialIndex s' = trialIndex s) \/
  (phaseNext settings (phase s) (phase s') = true /\
   trialIndex s'
   = if Phase_eqb (phase s') PREP then trialIndex s + 1 else trialIndex s).
Proof.
  intros Hvalid Hr. cbv zeta.
  destruct (@step_transition settings rand pos history s ev Hvalid Hr)
    as [-> | (Hv & s' & Htr & Hsf)]; [left; split; reflexivity |].
  rewrite (sf_view Hsf), (sf_phase Hsf), (sf_trialIndex Hsf).
  destruct Htr as [Hp ? | Hp ? | Hp ? Hm | now Hp ? Hm ? | now Hp ? Hm ?
                   | now Hp Hm Hf | now Hp Hm Hf ? | now Hp Hm Hf ?
                   | Hp ? ? | now Hp ? ? | num Hp Hnum ? | Hp | Hp
                   | Hp ? | Hp ? | ];
    try (match goal with
         | |- context [startTrial ?x ?y ?z] =>
             destruct (startTrial_fields x y z)
               as (-> & _ & _ & _ & _ & -> & _)
         end);
    cbn; intros Hview; try discriminate Hview;
      try (left; split; reflexivity);
      right; rewrite Hp; cbn; try (split; reflexivity).
  - split; [| reflexivity].
    destruct (String.eqb_spec (answerMode settings) "none");
      [contradiction | reflexivity].
  - rewrite Hm. split; reflexivity.
  - rewrite Hf. split; reflexivity.
  - rewrite Hf. split; reflexivity.
Qed.

Lemma phases_follow_the_run_loop_witness :
  let s := run scenarioSettings scenarioRandom (typed 4 8 2 1)
               (mount scenarioSettings scenarioRandom 0 []) in
  let s' := step scenarioSettings scenarioRandom (SubmitPressed false 9) s in
  (phase s' = phase s /\ trialIndex s' = trialIndex s) \/
  (phaseNext scenarioSettings (phase s) (phase s') = true /\
   trialIndex s'
   = if Phase_eqb (phase s') PREP then trialIndex s + 1 else trialIndex s).
Proof.
  intros s.
  apply (@phases_follow_the_run_loop scenarioSettings scenarioRandom 0 [] s).
  - unfold validSettings. cbn. repeat split; try lia; left; reflexivity.
  - apply reachable_run, reachable_mount.
  - vm_compute. reflexivity.
Defined.

(** X6: A step never removes or alters a recorded result: it leaves
    [results] as it is or appends one record, that of the current trial,
    with the stimulus that was shown. *)
Theorem results_grow_by_one_record
        (settings : Settings) (rand : Random) (pos : nat)
        (history : list HistoryRecord) (s : RunState) (ev : Event) :
  validSettings settings ->
  reachable settings rand pos history s ->
  results (step settings rand ev s) = results s \/
  exists r,
    results (step settings rand ev s) = results s ++ [r] /\
    trial r = trialIndex s + 1 /\ stimulus r = currentStimulus s /\
    List.length (results s) = trialIndex s.
Proof.
  intros Hvalid Hr.
  destruct (@step_transition settings rand pos history s ev Hvalid Hr)
    as [-> | (Hv & s' & Htr & Hsf)]; [left; reflexivity |].
  destruct Hvalid as (_ & Htps & _).
  destruct (reachable_inv (proj1 Htps) Hr) as [Hs _].
  pose proof (inv_count Hs Hv) as Hc.
  rewrite (sf_results Hsf).
  destruct Htr as [Hp ? | Hp ? | Hp ? Hm | now Hp ? Hm ? | now Hp ? Hm ?
                   | now Hp Hm Hf | now Hp Hm Hf ? | now Hp Hm Hf ?
                   | Hp ? ? | now Hp ? ? | num Hp Hnum ? | Hp | Hp
                   | Hp ? | Hp ? | ];
    try (match goal with
         | |- context [startTrial ?x ?y ?z] =>
             destruct (startTrial_fields x y z)
               as (_ & _ & _ & _ & _ & _ & -> & _)
         end);
    cbn; try (left; reflexivity);
      right; eexists; (split; [reflexivity |]); rewrite Hp in Hc;
        cbn; repeat split; exact Hc.
Qed.

Lemma results_grow_by_one_record_witness :
  let s := run scenarioSettings scenarioRandom (typed 4 8 2 1)
               (mount scenarioSettings scenarioRandom 0 []) in
  results (step scenarioSettings scenarioRandom (SubmitPressed false 9) s)
  = results s \/
  exists r,
    results (step scenarioSettings scenarioRandom (SubmitPressed false 9) s)
    = results s ++ [r] /\
    trial r = trialIndex s + 1 /\ stimulus r = currentStimulus s /\
    List.length (results s) = trialIndex s.
Proof.
  intros s.
  apply (@results_grow_by_one_record scenarioSettings scenarioRandom 0 [] s).
  - unfold validSettings. cbn. repeat split; try lia; left; reflexivity.
  - apply reachable_run, reachable_mount.
Defined.

(** ** The end of a set *)

(** X1: When a set has ended, [onFinish] has been called exactly once, with
    the array shown by the result screen.  That array is a prefix of the
    recorded results and holds [trialsPerSet] of them when the set ran
    with the keypad and the feedback phase, and [trialsPerSet - 1] when it
    ran in mode none or without the feedback phase. *)
Theorem finished_set_delivers
        (settings : Settings) (rand : Random) (pos : nat)
        (history : list HistoryRecord) (s : RunState) :
  validSettings settings ->
  reachable settings rand pos history s ->
  view s = RESULT ->
  onFinishCalls s = [sessionResults s] /\
  List.length (sessionResults s)
  = (if feedback settings && negb (String.eqb (answerMode settings) "none")
     then trialsPerSet settings else trialsPerSet settings - 1) /\
  sessionResults s = firstn (List.length (sessionResults s)) (results s).
Proof.
  intros (_ & Htps & _) Hr Hv.
  destruct (reachable_inv (proj1 Htps) Hr) as [Hs _].
  pose proof (inv_calls Hs) as Hc. rewrite Hv in Hc.
  destruct Hc as (H1 & H2 & H3). split; [exact H1 |].
  split; [exact H2 |]. rewrite H2. exact H3.
Qed.

Lemma finished_set_delivers_witness :
  let s := run scenarioNone scenarioRandom noneRun
               (mount scenarioNone scenarioRandom 0 []) in
  onFinishCalls s = [sessionResults s] /\
  List.length (sessionResults s)
  = (if feedback scenarioNone
        && negb (String.eqb (answerMode scenarioNone) "none")
     then trialsPerSet scenarioNone else trialsPerSet scenarioNone - 1) /\
  sessionResults s = firstn (List.length (sessionResults s)) (results s).
Proof.
  intros s.
  apply (@finished_set_delivers scenarioNone scenarioRandom 0 [] s).
  - unfold validSettings. cbn.
    repeat split; try lia; [left | right]; reflexivity.
  - apply reachable_run, reachable_mount.
  - vm_compute. reflexivity.
Defined.

(** X3: While a set is running, and after it was aborted, [onFinish] has not
    been called, the session results are empty and the history is the one
    the session started with: an aborted set leaves no trace. *)
Theorem unfinished_set_leaves_no_trace
        (settings : Settings) (rand : Random) (pos : nat)
        (history : list HistoryRecord) (s : RunState) :
  validSettings settings ->
  reachable settings rand pos history s ->
  (view s = RUN \/ view s = HOME \/ view s = RESULT) /\
  (view s <> RESULT ->
   onFinishCalls s = [] /\ sessionResults s = [] /\
   currentHistory s = history).
Proof.
  intros Hvalid Hr. pose proof (reachable_appInv Hvalid Hr) as Ha.
  destruct Hvalid as (_ & Htps & _).
  destruct (reachable_inv (proj1 Htps) Hr) as [Hs _].
  pose proof (inv_calls Hs) as Hc. unfold appInv in Ha.
  destruct (view s); try contradiction.
  - split; [auto |]. intros _. destruct Ha. auto.
  - split; [auto |]. intros _. destruct Ha. auto.
  - split; [auto |]. intros Hx. contradiction.
Qed.

Lemma unfinished_set_leaves_no_trace_witness :
  let s := run scenarioSettings scenarioRandom
               (typed 4 8 2 1 ++ [AbortPressed])
               (mount scenarioSettings scenarioRandom 0 []) in
  (view s = RUN \/ view s = HOME \/ view s = RESULT) /\
  (view s <> RESULT ->
   onFinishCalls s = [] /\ sessionResults s = [] /\ currentHistory s = []).
Proof.
  intros s.
  apply (@unfinished_set_leaves_no_trace scenarioSettings scenarioRandom 0 [] s).
  - unfold validSettings. cbn. repeat split; try lia; left; reflexivity.
  - apply reachable_run, reachable_mount.
Defined.

Lemma exportCSV_app (before : list HistoryRecord) (h : HistoryRecord) :
  exportCSV (before ++ [h])
  = Some (map exportCSV_row before ++ [exportCSV_row h]).
Proof.
  unfold exportCSV. rewrite map_app. destruct before; reflexivity.
Qed.

(** X2: When a set has ended and recording is on, the history has grown by
    one record, made from the array [onFinish] received, and the CSV
    export ends with the row of that record: its number of results, the
    number of correct ones and the score of the result screen.  With
    recording off the history is the one the session started with. *)
Theorem finished_set_is_recorded
        (settings : Settings) (rand : Random) (pos : nat)
        (history : list HistoryRecord) (s : RunState) :
  validSettings settings ->
  reachable settings rand pos history s ->
  view s = RESULT ->
  (recording settings = true ->
   (exists now,
       currentHistory s
       = history ++ [newRecord settings (sessionResults s) now]) /\
   exportCSV (currentHistory s)
   = Some (map exportCSV_row history ++
           [(List.length (sessionResults s),
             countCorrect (sessionResults s),
             ResultScreen_score (sessionResults s))])) /\
  (recording settings = false -> currentHistory s = history).
Proof.
  intros Hvalid Hr Hv. pose proof (reachable_appInv Hvalid Hr) as Ha.
  unfold appInv in Ha. rewrite Hv in Ha. split; intros Hrec;
    rewrite Hrec in Ha; [| exact Ha].
  destruct Ha as [now Ha]. split; [exists now; exact Ha |].
  rewrite Ha, exportCSV_app, exportCSV_row_newRecord. reflexivity.
Qed.

Lemma finished_set_is_recorded_witness :
  let s := run scenarioSettings scenarioRandom
               (typed 4 8 2 1 ++ [SubmitPressed false 9; TimerFired 10])
               (mount scenarioSettings scenarioRandom 0 []) in
  (recording scenarioSettings = true ->
   (exists now,
       currentHistory s
       = [] ++ [newRecord scenarioSettings (sessionResults s) now]) /\
   exportCSV (currentHistory s)
   = Some (map exportCSV_row [] ++
           [(List.length (sessionResults s),
             countCorrect (sessionResults s),
             ResultScreen_score (sessionResults s))])) /\
  (recording scenarioSettings = false -> currentHistory s = []).
Proof.
  intros s.
  apply (@finished_set_is_recorded scenarioSettings scenarioRandom 0 [] s).
  - unfold validSettings. cbn. repeat split; try lia; left; reflexivity.
  - apply reachable_run, reachable_mount.
  - vm_compute. reflexivity.
Defined.

(** ** Stimuli, feedback and results of a session *)

Lemma generateStimulus_shape (digits : nat) (range : string) (rand : Random)
      (pos : nat) :
  range = "0-9"%string \/ range = "1-9"%string ->
  (forall n, JS.random_value (rand n) = true) ->
  let numStr := fst (generateStimulus digits range rand pos) in
  String.length numStr = digits /\
  allChars (isDigitFrom (if String.eqb range "1-9" then 1 else 0)) numStr
  = true.
Proof.
  intros Hrange Hrand. unfold generateStimulus.
  destruct Hrange as [-> | ->]; cbn [String.eqb Ascii.eqb Bool.eqb].
  - destruct (@generateStimulus_loop_spec rand 0%Z (or_introl eq_refl) Hrand
                digits pos EmptyString) as (Hl & Ha & _).
    cbv zeta. rewrite Hl. split; [reflexivity | exact Ha].
  - destruct (@generateStimulus_loop_spec rand 1%Z (or_intror eq_refl) Hrand
                digits pos EmptyString) as (Hl & Ha & _).
    cbv zeta. rewrite Hl. split; [reflexivity | exact Ha].
Qed.

(** X9: Each trial has one stimulus, drawn when the trial begins from the
    next [digits] random numbers and kept through pauses and key presses:
    the stimulus of trial [i] comes from the random numbers
    [pos + digits * i ..], every result records the stimulus of its own
    trial, and all of them have [digits] characters of the configured
    range. *)
Theorem one_stimulus_per_trial
        (settings : Settings) (rand : Random) (pos : nat)
        (history : list HistoryRecord) (s : RunState) :
  validSettings settings ->
  (forall n, JS.random_value (rand n) = true) ->
  reachable settings rand pos history s ->
  let stimulusOf i :=
    fst (generateStimulus (digits settings) (numberRange settings) rand
                          (pos + digits settings * i)) in
  let lo := if String.eqb (numberRange settings) "1-9" then 1 else 0 in
  currentStimulus s = stimulusOf (trialIndex s) /\
  randPos s = pos + digits settings * (trialIndex s + 1) /\
  String.length (currentStimulus s) = digits settings /\
  allChars (isDigitFrom lo) (currentStimulus s) = true /\
  (forall k r,
      nth_error (results s) k = Some r ->
      stimulus r = stimulusOf k /\
      String.length (stimulus r) = digits settings /\
      allChars (isDigitFrom lo) (stimulus r) = true).
Proof.
  intros Hvalid Hrand Hr. cbv zeta.
  destruct (reachable_settledInv Hvalid Hr) as [S1 S2 S3 _].
  destruct Hvalid as (_ & _ & Hrange & _).
  split; [exact S1 |]. split; [rewrite S2; f_equal; f_equal; lia |].
  rewrite S1.
  destruct (@generateStimulus_shape (digits settings) (numberRange settings)
              rand (pos + digits settings * trialIndex s) Hrange Hrand)
    as [Hl Ha].
  split; [exact Hl |]. split; [exact Ha |].
  intros k r Hk. rewrite (S3 _ _ Hk).
  destruct (@generateStimulus_shape (digits settings) (numberRange settings)
              rand (pos + digits settings * k) Hrange Hrand) as [Hl' Ha'].
  repeat split; assumption.
Qed.

Lemma one_stimulus_per_trial_witness :
  let s := run scenarioSettings (fun _ => oneHalf)
               [TimerFired 1; TimerFired 2; PausePressed; ResumePressed]
               (mount scenarioSettings (fun _ => oneHalf) 7 []) in
  let stimulusOf i :=
    fst (generateStimulus (digits scenarioSettings)
                          (numberRange scenarioSettings) (fun _ => oneHalf)
                          (7 + digits scenarioSettings * i)) in
  let lo := if String.eqb (numberRange scenarioSettings) "1-9"
            then 1 else 0 in
  currentStimulus s = stimulusOf (trialIndex s) /\
  randPos s = 7 + digits scenarioSettings * (trialIndex s + 1) /\
  String.length (currentStimulus s) = digits scenarioSettings /\
  allChars (isDigitFrom lo) (currentStimulus s) = true /\
  (forall k r,
      nth_error (results s) k = Some r ->
      stimulus r = stimulusOf k /\
      String.length (stimulus r) = digits scenarioSettings /\
      allChars (isDigitFrom lo) (stimulus r) = true).
Proof.
  intros s.
  apply (@one_stimulus_per_trial scenarioSettings (fun _ => oneHalf) 7 [] s).
  - unfold validSettings. cbn. repeat split; try lia; left; reflexivity.
  - intros n. vm_compute. reflexivity.
  - apply reachable_run, reachable_mount.
Defined.

(** X10: The feedback shown is that of the answer just given: in the FEEDBACK
    phase [feedbackState] is correct or incorrect according to
    [isCorrect] of the last result, which is the result of the current
    trial; in every other phase it is [null]. *)
Theorem feedback_is_that_of_the_last_result
        (settings : Settings) (rand : Random) (pos : nat)
        (history : list HistoryRecord) (s : RunState) :
  validSettings settings ->
  reachable settings rand pos history s ->
  view s = RUN ->
  match phase s with
  | FEEDBACK =>
      feedback settings = true /\
      exists r,
        nth_error (results s) (trialIndex s) = Some r /\
        List.length (results s) = trialIndex s + 1 /\
        isVerbal r = false /\
        feedbackState s = Some (if isCorrect r then Correct else Incorrect)
  | _ => feedbackState s = None
  end.
Proof.
  intros Hvalid Hr Hv.
  pose proof (sinv_feedbackState (reachable_settledInv Hvalid Hr) Hv) as Hf.
  pose proof (reachable_dataInv Hvalid Hr) as [_ _ D3].
  destruct Hvalid as (_ & Htps & _).
  destruct (reachable_inv (proj1 Htps) Hr) as [Hs _].
  pose proof (inv_count Hs Hv) as Hc.
  destruct (phase s) eqn:Hp; try exact Hf.
  split; [apply (inv_feedback Hs); exact Hp |].
  destruct Hf as (r & Hn & Hfs). exists r. split; [exact Hn |].
  cbn in Hc. split; [lia |].
  assert (Hver : isVerbal r = false).
  { rewrite (D3 r (nth_error_In _ _ Hn)).
    destruct (String.eqb_spec (answerMode settings) "none") as [Hm | Hm];
      [| reflexivity].
    destruct (inv_none Hs Hm) as (_ & Hx & _). congruence. }
  split; [exact Hver |]. rewrite Hfs, Hver. reflexivity.
Qed.

Lemma feedback_is_that_of_the_last_result_witness :
  let s := run scenarioSettings scenarioRandom
               (typed 4 8 2 0 ++ [SubmitPressed false 9])
               (mount scenarioSettings scenarioRandom 0 []) in
  match phase s with
  | FEEDBACK =>
      feedback scenarioSettings = true /\
      exists r,
        nth_error (results s) (trialIndex s) = Some r /\
        List.length (results s) = trialIndex s + 1 /\
        isVerbal r = false /\
        feedbackState s = Some (if isCorrect r then Correct else Incorrect)
  | _ => feedbackState s = None
  end.
Proof.
  intros s.
  apply (@feedback_is_that_of_the_last_result
           scenarioSettings scenarioRandom 0 [] s).
  - unfold validSettings. cbn. repeat split; try lia; left; reflexivity.
  - apply reachable_run, reachable_mount.
  - vm_compute. reflexivity.
Defined.

(** X11: Every result of a session is of the kind of its answer mode.  In
    mode none it is verbal, correct, with the input "(None)".  With the
    keypad it is not verbal, its input consists of at most [digits]
    digits, and it is correct exactly when the input is the stimulus.
    And what the user has typed so far consists of digits only. *)
Theorem results_are_of_the_answer_mode
        (settings : Settings) (rand : Random) (pos : nat)
        (history : list HistoryRecord) (s : RunState) :
  validSettings settings ->
  reachable settings rand pos history s ->
  allChars (isDigitFrom 0) (userInput s) = true /\
  (forall r,
      In r (results s) ->
      (answerMode settings = "none"%string ->
       isVerbal r = true /\ isCorrect r = true /\
       input r = "(None)"%string) /\
      (answerMode settings = "keypad"%string ->
       isVerbal r = false /\
       String.length (input r) <= digits settings /\
       allChars (isDigitFrom 0) (input r) = true /\
       (isCorrect r = true <-> input r = stimulus r))).
Proof.
  intros Hvalid Hr.
  pose proof (reachable_dataInv Hvalid Hr) as [D1 D2 D3].
  split; [exact D1 |]. intros r Hin.
  specialize (D2 r Hin). specialize (D3 r Hin). split; intros Hm;
    rewrite Hm in D3; cbn in D3; rewrite D3 in D2.
  - destruct D2. auto.
  - destruct D2 as (Hc & Hl & Ha). repeat split; try assumption.
    + intros H. rewrite Hc in H. apply String.eqb_eq. exact H.
    + intros H. rewrite Hc. apply String.eqb_eq. exact H.
Qed.

Lemma results_are_of_the_answer_mode_witness :
  let s := run scenarioSettings scenarioRandom
               (typed 4 8 2 0 ++ [SubmitPressed false 9])
               (mount scenarioSettings scenarioRandom 0 []) in
  allChars (isDigitFrom 0) (userInput s) = true /\
  (forall r,
      In r (results s) ->
      (answerMode scenarioSettings = "none"%string ->
       isVerbal r = true /\ isCorrect r = true /\
       input r = "(None)"%string) /\
      (answerMode scenarioSettings = "keypad"%string ->
       isVerbal r = false /\
       String.length (input r) <= digits scenarioSettings /\
       allChars (isDigitFrom 0) (input r) = true /\
       (isCorrect r = true <-> input r = stimulus r))).
Proof.
  intros s.
  apply (@results_are_of_the_answer_mode scenarioSettings scenarioRandom 0 [] s).
  - unfold validSettings. cbn. repeat split; try lia; left; reflexivity.
  - apply reachable_run, reachable_mount.
Defined.

(** ** More on the score, the generator and the keypad *)

Lemma percent_range_table :
  forallb
    (fun total =>
       forallb
         (fun correct =>
            match percent correct total with
            | JS.Int z =>
                (0 <=? z)%Z && (z <=? 100)%Z
                && Bool.eqb (z =? 100)%Z (correct =? total)
                && Bool.eqb (z =? 0)%Z (correct =? 0)
                && match correct with
                   | O => true
                   | S c' =>
                       match percent c' total with
                       | JS.Int z' => (z' <? z)%Z
                       | _ => false
                       end
                   end
            | _ => false
            end)
         (seq 0 (S total)))
    (seq 1 20) = true.
Proof. vm_compute. reflexivity. Qed.

Lemma percent_range (correct total : nat) :
  1 <= total <= 20 -> correct <= total ->
  exists z,
    percent correct total = JS.Int z /\ (0 <= z <= 100)%Z /\
    (z = 100%Z <-> correct = total) /\ (z = 0%Z <-> correct = 0) /\
    (forall c', correct = S c' ->
                exists z', percent c' total = JS.Int z' /\ (z' < z)%Z).
Proof.
  intros Ht Hc. pose proof percent_range_table as H.
  rewrite forallb_forall in H.
  assert (Hin : In total (seq 1 20)) by (apply in_seq; lia).
  specialize (H total Hin). rewrite forallb_forall in H.
  assert (Hin' : In correct (seq 0 (S total))) by (apply in_seq; lia).
  specialize (H correct Hin').
  destruct (percent correct total) as [z | | |]; try discriminate H.
  exists z. split; [reflexivity |].
  repeat (apply andb_prop in H; destruct H as [H ?]).
  repeat match goal with
         | Hx : (_ <=? _)%Z = true |- _ => apply Z.leb_le in Hx
         | Hx : Bool.eqb _ _ = true |- _ => apply Bool.eqb_prop in Hx
         end.
  split; [lia |]. split; [| split].
  - rewrite <- Z.eqb_eq, <- Nat.eqb_eq.
    match goal with Hx : (z =? 100)%Z = _ |- _ => rewrite Hx end. tauto.
  - rewrite <- Z.eqb_eq, <- Nat.eqb_eq.
    match goal with Hx : (z =? 0)%Z = _ |- _ => rewrite Hx end. tauto.
  - intros c' ->.
    match goal with
    | Hx : match percent c' total with _ => _ end = true |- _ =>
        destruct (percent c' total) as [z' | | |]; try discriminate Hx;
          apply Z.ltb_lt in Hx; exists z'; split; [reflexivity | exact Hx]
    end.
Qed.

Lemma countCorrect_app (before after : list TrialResult) :
  countCorrect (before ++ after) = countCorrect before + countCorrect after.
Proof.
  induction before as [| r before IH]; [reflexivity |].
  cbn [app countCorrect]. rewrite IH. lia.
Qed.

(** X12: For a set of 1 to 20 results the score of the result screen is an
    integer from 0 to 100; it is 100 exactly when every result is
    correct, 0 exactly when none is, and turning any one incorrect
    result, at whatever position, into a correct one always gives a
    higher score. *)
Theorem score_of_a_set
        (results : list TrialResult) :
  1 <= List.length results <= 20 ->
  exists z,
    ResultScreen_score results = JS.Int z /\ (0 <= z <= 100)%Z /\
    (z = 100%Z <-> countCorrect results = List.length results) /\
    (z = 0%Z <-> countCorrect results = 0) /\
    (forall before wrong after,
        results = before ++ wrong :: after -> isCorrect wrong = false ->
        forall right,
          isCorrect right = true ->
          exists z',
            ResultScreen_score (before ++ right :: after) = JS.Int z' /\
            (z < z')%Z).
Proof.
  intros Hlen. rewrite ResultScreen_score_percent.
  destruct (@percent_range (countCorrect results) (List.length results) Hlen
              (countCorrect_le results)) as (z & Hz & Hr & H100 & H0 & _).
  exists z. repeat split; try tauto; try lia.
  intros before wrong after -> Hw right Hri.
  rewrite ResultScreen_score_percent.
  rewrite countCorrect_app, length_app in *.
  cbn [countCorrect List.length] in *. rewrite Hw in Hz. rewrite Hri.
  pose proof (countCorrect_le before) as Hb.
  pose proof (countCorrect_le after) as Ha.
  replace (countCorrect before + (1 + countCorrect after))
    with (S (countCorrect before + (0 + countCorrect after))) by lia.
  destruct (@percent_range
              (S (countCorrect before + (0 + countCorrect after)))
              (List.length before + S (List.length after))
              Hlen ltac:(lia)) as (z' & Hz' & _ & _ & _ & Hup).
  exists z'. split; [exact Hz' |].
  destruct (Hup _ eq_refl) as (z0 & Hz0 & Hlt).
  rewrite Hz in Hz0. injection Hz0 as <-. exact Hlt.
Qed.

Lemma score_of_a_set_witness :
  let right := {| trial := 1; stimulus := "4821"; input := "4821";
                  isCorrect := true; isVerbal := false; timestamp := 0 |} in
  let wrong := {| trial := 3; stimulus := "4821"; input := "4820";
                  isCorrect := false; isVerbal := false; timestamp := 0 |} in
  let results := [right; right; wrong; right] in
  exists z,
    ResultScreen_score results = JS.Int z /\ (0 <= z <= 100)%Z /\
    (z = 100%Z <-> countCorrect results = List.length results) /\
    (z = 0%Z <-> countCorrect results = 0) /\
    (forall before wrong after,
        results = before ++ wrong :: after -> isCorrect wrong = false ->
        forall right,
          isCorrect right = true ->
          exists z',
            ResultScreen_score (before ++ right :: after) = JS.Int z' /\
            (z < z')%Z).
Proof.
  intros right wrong results.
  apply (@score_of_a_set results). cbn. lia.
Defined.

Lemma generateStimulus_loop_acc (count : nat) (minVal maxVal : Z)
      (rand : Random) (pos : nat) (numStr : string) :
  fst (generateStimulus_loop count minVal maxVal rand pos numStr)
  = (numStr ++
     fst (generateStimulus_loop count minVal maxVal rand pos EmptyString))%string.
Proof.
  revert pos numStr. induction count as [| count IH]; intros pos numStr;
    cbn [generateStimulus_loop fst].
  - induction numStr as [| c s IHs]; cbn; [reflexivity | f_equal; exact IHs].
  - cbv zeta. rewrite IH. rewrite (IH _ (EmptyString ++ _)%string).
    cbn [String.append].
    induction numStr as [| c s IHs]; cbn; [reflexivity | f_equal; exact IHs].
Qed.

Lemma generateStimulus_loop_add (a b : nat) (minVal maxVal : Z)
      (rand : Random) (pos : nat) (numStr : string) :
  generateStimulus_loop (a + b) minVal maxVal rand pos numStr
  = generateStimulus_loop b minVal maxVal rand (pos + a)
      (fst (generateStimulus_loop a minVal maxVal rand pos numStr)).
Proof.
  revert pos numStr. induction a as [| a IH]; intros pos numStr.
  - cbn. rewrite Nat.add_0_r. reflexivity.
  - cbn [Nat.add generateStimulus_loop]. cbv zeta. rewrite IH.
    replace (S pos + a) with (pos + S a) by lia. reflexivity.
Qed.

(** X13: The stimulus is made digit by digit, each digit from its own random
    number: generating [a + b] digits gives the [a] digits generated
    from the first [a] random numbers followed by the [b] digits
    generated from the next [b], and uses up [a + b] random numbers. *)
Theorem generateStimulus_add
        (a b : nat) (range : string) (rand : Random) (pos : nat) :
  generateStimulus (a + b) range rand pos
  = ((fst (generateStimulus a range rand pos) ++
      fst (generateStimulus b range rand (pos + a)))%string,
     pos + (a + b)).
Proof.
  rewrite (surjective_pairing (generateStimulus (a + b) range rand pos)).
  rewrite generateStimulus_snd. f_equal.
  unfold generateStimulus. rewrite generateStimulus_loop_add.
  apply generateStimulus_loop_acc.
Qed.

Lemma setUserInput_own (s : RunState) : setUserInput (userInput s) s = s.
Proof. destruct s; reflexivity. Qed.

(** X14: DELETE undoes a digit key: in the ANSWER phase, after a digit key that
    was accepted, DELETE gives back the state before the key; and a digit
    key pressed when [digits] characters are entered changes nothing. *)
Theorem delete_undoes_a_digit_key
        (settings : Settings) (s : RunState) (num : nat) :
  phase s = ANSWER -> num <= 9 ->
  (String.length (userInput s) < digits settings ->
   handleKeypad settings (keyOf Delete)
                (handleKeypad settings (keyOf (Num num)) s) = s) /\
  (digits settings <= String.length (userInput s) ->
   handleKeypad settings (keyOf (Num num)) s = s).
Proof.
  intros Hph Hnum.
  destruct (keyOf_Num Hnum) as (Hl & Hd & Hc & _).
  assert (Hk : exists c, keyOf (Num num) = String c EmptyString).
  { destruct (keyOf (Num num)) as [| c [| c' k]]; try discriminate Hl.
    exists c. reflexivity. }
  destruct Hk as [c Hk]. unfold handleKeypad at 2 3. rewrite Hph, Hd, Hc.
  split; intros Hlen.
  - destruct (Nat.ltb_spec (String.length (userInput s)) (digits settings));
      [| lia].
    change (keyOf Delete) with "DELETE"%string.
    unfold handleKeypad. cbn [phase setUserInput userInput].
    rewrite Hph. cbn [String.eqb Ascii.eqb Bool.eqb].
    rewrite Hk, slice_0_minus1_snoc. destruct s; reflexivity.
  - destruct (Nat.ltb_spec (String.length (userInput s)) (digits settings));
      [lia | reflexivity].
Qed.

Lemma delete_undoes_a_digit_key_witness :
  let s := run scenarioSettings scenarioRandom
               [TimerFired 1; TimerFired 2; TimerFired 3;
                KeypadPressed (Num 4); KeypadPressed (Num 8)]
               (mount scenarioSettings scenarioRandom 0 []) in
  (String.length (userInput s) < digits scenarioSettings ->
   handleKeypad scenarioSettings (keyOf Delete)
                (handleKeypad scenarioSettings (keyOf (Num 7)) s) = s) /\
  (digits scenarioSettings <= String.length (userInput s) ->
   handleKeypad scenarioSettings (keyOf (Num 7)) s = s).
Proof.
  intros s. apply (@delete_undoes_a_digit_key scenarioSettings s 7).
  - vm_compute. reflexivity.
  - lia.
Defined.

(** ** A set in mode none runs by itself *)

Lemma step_fire (settings : Settings) (rand : Random) (pos : nat)
      (history : list HistoryRecord) (s : RunState) (now : Z) (t : Timer) :
  validSettings settings ->
  reachable settings rand pos history s ->
  view s = RUN -> isPaused s = false ->
  expectedTimer settings s = Some t ->
  step settings rand (TimerFired now) s
  = commit settings rand s
           (runCallback settings (callback t) now (setTimerRef None s)).
Proof.
  intros Hvalid Hr Hv Hp He.
  pose proof (reachable_armed Hvalid Hr Hv Hp) as Ha. rewrite He in Ha.
  unfold step, enabled. rewrite Hv, Ha. cbn [handle]. rewrite Ha.
  reflexivity.
Qed.

Lemma fire_to_next_phase (settings : Settings) (rand : Random) (pos : nat)
      (history : list HistoryRecord) (s : RunState) (now : Z) :
  validSettings settings ->
  reachable settings rand pos history s ->
  view s = RUN -> isPaused s = false ->
  phase s = PREP \/ phase s = SHOW ->
  let s' := step settings rand (TimerFired now) s in
  view s' = RUN /\ isPaused s' = false /\ trialIndex s' = trialIndex s /\
  phase s' = match phase s with PREP => SHOW | _ => HIDE end.
Proof.
  intros Hvalid Hr Hv Hp Hph. cbv zeta.
  destruct Hph as [Hph | Hph].
  - rewrite (@step_fire settings rand pos history s now
               {| callback := ToShow; delay_ms := JS.of_Z 500 |}); auto;
      [| unfold expectedTimer; rewrite Hph; reflexivity].
    cbn [callback runCallback].
    destruct (commit_fields settings rand s
                (setPhase SHOW (setTimerRef None s)))
      as (-> & _ & -> & -> & _ & _ & _ & Hrun & _).
    destruct (Hrun Hv) as [-> _]. cbn. rewrite Nat.eqb_refl, Hph.
    repeat split; assumption.
  - rewrite (@step_fire settings rand pos history s now
               {| callback := ToHide;
                  delay_ms := JS.mul (displaySec settings) (JS.of_Z 1000) |});
      auto; [| unfold expectedTimer; rewrite Hph; reflexivity].
    cbn [callback runCallback].
    destruct (commit_fields settings rand s
                (setPhase HIDE (setTimerRef None s)))
      as (-> & _ & -> & -> & _ & _ & _ & Hrun & _).
    destruct (Hrun Hv) as [-> _]. cbn. rewrite Nat.eqb_refl, Hph.
    repeat split; assumption.
Qed.

Lemma fire_HIDE_none (settings : Settings) (rand : Random) (pos : nat)
      (history : list HistoryRecord) (s : RunState) (now : Z) :
  validSettings settings ->
  answerMode settings = "none"%string ->
  reachable settings rand pos history s ->
  view s = RUN -> isPaused s = false -> phase s = HIDE ->
  let s' := step settings rand (TimerFired now) s in
  if trialsPerSet settings <=? trialIndex s + 1
  then view s' = RESULT
  else view s' = RUN /\ isPaused s' = false /\
       trialIndex s' = trialIndex s + 1 /\ phase s' = PREP.
Proof.
  intros Hvalid Hm Hr Hv Hp Hph. cbv zeta.
  rewrite (@step_fire settings rand pos history s now
             {| callback :=
                  AfterHide (trialIndex s) (currentStimulus s) (results s);
                delay_ms := JS.mul (itiSec settings) (JS.of_Z 1000) |}); auto;
    [| unfold expectedTimer; rewrite Hph; reflexivity].
  cbn [callback runCallback]. rewrite Hm. cbn [String.eqb Ascii.eqb Bool.eqb].
  match goal with
  | |- context [commit _ _ _ (nextTrial ?a ?b ?c ?d ?e)] =>
      set (h := nextTrial a b c d e);
      destruct (nextTrial_fields a b c d e)
        as (_ & _ & _ & Hpa & _ & _ & Hfin & Hnext)
  end.
  fold h in Hpa, Hfin, Hnext.
  destruct (commit_fields settings rand s h)
    as (cv & _ & ct & cp & _ & _ & _ & Hrun & _).
  destruct (Nat.leb_spec (trialsPerSet settings) (trialIndex s + 1))
    as [Hle | Hgt].
  - destruct (Hfin Hle) as (Hx & _). rewrite cv. exact Hx.
  - destruct (Hnext Hgt) as (Hx & Hy & Hz & _). cbn in Hx, Hy, Hpa.
    assert (Hvh : view h = RUN) by congruence.
    destruct (Hrun Hvh) as [Hph' _].
    rewrite cv, ct, cp, Hph', Hpa, Hy, Hz, Hvh.
    repeat split; try assumption.
    destruct (trialIndex s =? trialIndex s + 1); reflexivity.
Qed.

Lemma none_trial (settings : Settings) (rand : Random) (pos : nat)
      (history : list HistoryRecord) (s : RunState) (n1 n2 n3 : Z) :
  validSettings settings ->
  answerMode settings = "none"%string ->
  reachable settings rand pos history s ->
  view s = RUN -> isPaused s = false -> phase s = PREP ->
  let s1 := step settings rand (TimerFired n1) s in
  let s2 := step settings rand (TimerFired n2) s1 in
  let s3 := step settings rand (TimerFired n3) s2 in
  view s1 = RUN /\ view s2 = RUN /\
  if trialsPerSet settings <=? trialIndex s + 1
  then view s3 = RESULT
  else view s3 = RUN /\ isPaused s3 = false /\
       trialIndex s3 = trialIndex s + 1 /\ phase s3 = PREP.
Proof.
  intros Hvalid Hm Hr Hv Hp Hph. cbv zeta.
  destruct (@fire_to_next_phase settings rand pos history s n1 Hvalid Hr Hv Hp
              (or_introl Hph)) as (Hv1 & Hp1 & Ht1 & Hph1).
  rewrite Hph in Hph1.
  set (s1 := step settings rand (TimerFired n1) s) in *.
  assert (Hr1 : reachable settings rand pos history s1)
    by (apply reachable_step; exact Hr).
  destruct (@fire_to_next_phase settings rand pos history s1 n2 Hvalid Hr1
              Hv1 Hp1 (or_intror Hph1)) as (Hv2 & Hp2 & Ht2 & Hph2).
  rewrite Hph1 in Hph2.
  set (s2 := step settings rand (TimerFired n2) s1) in *.
  assert (Hr2 : reachable settings rand pos history s2)
    by (apply reachable_step; exact Hr1).
  pose proof (@fire_HIDE_none settings rand pos history s2 n3 Hvalid Hm Hr2
                Hv2 Hp2 Hph2) as H3.
  cbv zeta in H3. rewrite Ht2, Ht1 in H3.
  split; [exact Hv1 |]. split; [exact Hv2 |]. exact H3.
Qed.

Lemma none_set_from (settings : Settings) (rand : Random) (pos : nat)
      (history : list HistoryRecord) (left : nat) :
  validSettings settings ->
  answerMode settings = "none"%string ->
  forall (s : RunState) (nows : list Z),
    reachable settings rand pos history s ->
    view s = RUN -> isPaused s = false -> phase s = PREP ->
    trialIndex s + left = trialsPerSet settings ->
    List.length nows = 3 * left ->
    view (run settings rand (map TimerFired nows) s)
    = match left with O => RUN | _ => RESULT end /\
    forall k, k < 3 * left ->
              view (run settings rand (map TimerFired (firstn k nows)) s)
              = RUN.
Proof.
  intros Hvalid Hm. induction left as [| left IH];
    intros s nows Hr Hv Hp Hph Hti Hlen.
  - destruct nows; [| discriminate Hlen]. cbn. split; [exact Hv |].
    intros k Hk. lia.
  - destruct nows as [| n1 [| n2 [| n3 nows]]]; try (cbn in Hlen; lia).
    destruct (@none_trial settings rand pos history s n1 n2 n3 Hvalid Hm Hr
                Hv Hp Hph) as (Hv1 & Hv2 & H3).
    set (s1 := step settings rand (TimerFired n1) s) in *.
    set (s2 := step settings rand (TimerFired n2) s1) in *.
    set (s3 := step settings rand (TimerFired n3) s2) in *.
    assert (Hr3 : reachable settings rand pos history s3)
      by (repeat apply reachable_step; exact Hr).
    change (run settings rand (map TimerFired (n1 :: n2 :: n3 :: nows)) s)
      with (run settings rand (map TimerFired nows) s3).
    assert (Hprefix :
              forall k, k < 3 ->
                        view (run settings rand
                                  (map TimerFired
                                       (firstn k (n1 :: n2 :: n3 :: nows))) s)
                        = RUN).
    { intros [| [| [| k]]] Hk; try lia; cbn; assumption. }
    destruct (Nat.leb_spec (trialsPerSet settings) (trialIndex s + 1))
      as [Hle | Hgt].
    + assert (left = 0) by lia. subst left.
      destruct nows; [| cbn in Hlen; lia]. cbn [map run].
      split; [exact H3 |]. intros k Hk. apply Hprefix. lia.
    + destruct H3 as (Hv3 & Hp3 & Ht3 & Hph3).
      assert (Hlen' : List.length nows = 3 * left) by (cbn in Hlen; lia).
      destruct (IH s3 nows Hr3 Hv3 Hp3 Hph3 ltac:(lia) Hlen') as [Hend Hmid].
      split.
      * rewrite Hend. destruct left; [lia | reflexivity].
      * intros k Hk.
        destruct (Nat.lt_ge_cases k 3) as [Hk3 | Hk3];
          [apply Hprefix; exact Hk3 |].
        destruct k as [| [| [| k]]]; try lia.
        change (run settings rand
                    (map TimerFired (firstn (S (S (S k)))
                                            (n1 :: n2 :: n3 :: nows))) s)
          with (run settings rand (map TimerFired (firstn k nows)) s3).
        apply Hmid. lia.
Qed.

Lemma mount_fields (settings : Settings) (rand : Random) (pos : nat)
      (history : list HistoryRecord) :
  let s := mount settings rand pos history in
  view s = RUN /\ isPaused s = false /\ phase s = PREP /\ trialIndex s = 0.
Proof.
  cbv zeta. pose proof (mount_sameFields settings rand pos history) as Hs.
  rewrite (sf_view Hs), (sf_isPaused Hs), (sf_phase Hs), (sf_trialIndex Hs).
  unfold dataSetupEffect.
  destruct (generateStimulus (digits settings) (numberRange settings) rand
                             (randPos (initialState pos history))).
  repeat split.
Qed.

(** X15: in answer mode none a set needs no input: started and left alone,
    it is over (the result screen is shown) exactly when the phase timeout
    has fired three times for each of its [trialsPerSet] trials, not
    earlier. *)
Theorem none_set_ends_after_three_timeouts_per_trial
        (settings : Settings) (rand : Random) (pos : nat)
        (history : list HistoryRecord) (nows : list Z) :
  validSettings settings ->
  answerMode settings = "none"%string ->
  List.length nows = 3 * trialsPerSet settings ->
  view (run settings rand (map TimerFired nows)
            (mount settings rand pos history)) = RESULT /\
  forall k, k < 3 * trialsPerSet settings ->
            view (run settings rand (map TimerFired (firstn k nows))
                      (mount settings rand pos history)) = RUN.
Proof.
  intros Hvalid Hm Hlen.
  destruct (mount_fields settings rand pos history) as (Hv & Hp & Hph & Hti).
  destruct (@none_set_from settings rand pos history (trialsPerSet settings)
              Hvalid Hm (mount settings rand pos history) nows
              (reachable_mount settings rand pos history) Hv Hp Hph
              ltac:(lia) Hlen) as [Hend Hmid].
  split; [| exact Hmid].
  rewrite Hend. destruct Hvalid as (_ & Hn & _).
  destruct (trialsPerSet settings); [lia | reflexivity].
Qed.

Lemma none_set_ends_after_three_timeouts_per_trial_witness :
  view (run scenarioNone scenarioRandom
            (map TimerFired [1; 2; 3; 4; 5; 6; 7; 8; 9]%Z)
            (mount scenarioNone scenarioRandom 0 [])) = RESULT.
Proof.
  refine (proj1 (@none_set_ends_after_three_timeouts_per_trial
                   scenarioNone scenarioRandom 0 []
                   [1; 2; 3; 4; 5; 6; 7; 8; 9]%Z _ eq_refl eq_refl)).
  unfold validSettings. cbn. repeat split; try lia. left; reflexivity.
  right; reflexivity.
Defined.

(** ** The results of a set in mode none *)

(** What the HIDE timeout does in mode none: it builds the record of the
    current trial and either goes on to the next trial, where the record
    is the last of the rendered results, or ends the set with the results
    of the render it was created in, which the record is not part of. *)
Lemma fire_HIDE_none_record (settings : Settings) (rand : Random) (pos : nat)
      (history : list HistoryRecord) (s : RunState) (now : Z) :
  validSettings settings ->
  answerMode settings = "none"%string ->
  reachable settings rand pos history s ->
  view s = RUN -> isPaused s = false -> phase s = HIDE ->
  let s' := step settings rand (TimerFired now) s in
  if trialsPerSet settings <=? trialIndex s + 1
  then view s' = RESULT /\ onFinishCalls s' = [results s] /\
       sessionResults s' = results s
  else view s' = RUN /\ phase s' = PREP /\
       trialIndex s' = trialIndex s + 1 /\
       results s' = results s ++ [noneRecord s now].
Proof.
  intros Hvalid Hm Hr Hv Hp Hph. cbv zeta.
  assert (Hn : 1 <= trialsPerSet settings)
    by (destruct Hvalid as (_ & [Hn _] & _); exact Hn).
  destruct (reachable_inv Hn Hr) as [Hs _].
  pose proof (inv_calls Hs) as Hc. rewrite Hv in Hc.
  rewrite (@step_fire settings rand pos history s now
             {| callback :=
                  AfterHide (trialIndex s) (currentStimulus s) (results s);
                delay_ms := JS.mul (itiSec settings) (JS.of_Z 1000) |}); auto;
    [| unfold expectedTimer; rewrite Hph; reflexivity].
  cbn [callback runCallback]. rewrite Hm. cbn [String.eqb Ascii.eqb Bool.eqb].
  match goal with
  | |- context [commit _ _ _ (nextTrial ?a ?b ?c ?d ?e)] =>
      set (h := nextTrial a b c d e);
      destruct (nextTrial_fields a b c d e)
        as (_ & _ & Hres & _ & _ & _ & Hfin & Hnext)
  end.
  fold h in Hres, Hfin, Hnext.
  destruct (commit_fields settings rand s h)
    as (cv & cr & ct & _ & cs & _ & cc & Hrun & _).
  destruct (Nat.leb_spec (trialsPerSet settings) (trialIndex s + 1))
    as [Hle | Hgt].
  - destruct (Hfin Hle) as (Hx & _ & _ & Hy & Hz).
    cbn [onFinishCalls setResults setTimerRef] in Hz. rewrite Hc in Hz.
    rewrite cv, cc, cs. repeat split; assumption.
  - destruct (Hnext Hgt) as (Hx & Hy & Hz & _).
    cbn [view trialIndex setResults setTimerRef] in Hx, Hy.
    assert (Hvh : view h = RUN) by congruence.
    destruct (Hrun Hvh) as [Hph' _].
    rewrite cv, cr, ct, Hph', Hy, Hz, Hvh, Hres.
    repeat split.
    destruct (trialIndex s =? trialIndex s + 1); reflexivity.
Qed.

(** C3: with [answerMode] none the ANSWER phase is never entered, every
    recorded result and every result handed to [onFinish] has [isCorrect]
    and [isVerbal] true, and a verbal submission records such a result as
    well.  The HIDE timeout of a trial builds the record of that trial,
    with [isCorrect] and [isVerbal] true.  When another trial follows, the
    record is appended to the results.  When it was the last trial, the
    set ends with the results of the earlier trials only: [onFinish]
    receives [trialsPerSet - 1] results, and the record of the last trial
    is not among them. *)
Theorem none_mode_records_verbal_results_and_loses_the_last
        (settings : Settings) (rand : Random) (pos : nat)
        (history : list HistoryRecord) (s : RunState) :
  validSettings settings ->
  answerMode settings = "none"%string ->
  reachable settings rand pos history s ->
  phase s <> ANSWER /\
  (forall r, In r (results s) -> isCorrect r = true /\ isVerbal r = true) /\
  (forall payload r,
      In payload (onFinishCalls s) -> In r payload ->
      isCorrect r = true /\ isVerbal r = true) /\
  (view s = RUN -> isPaused s = false -> phase s = HIDE ->
   forall now,
     let s' := step settings rand (TimerFired now) s in
     let r := {| trial := trialIndex s + 1; stimulus := currentStimulus s;
                 input := "(None)"; isCorrect := true; isVerbal := true;
                 timestamp := now |} in
     if trialsPerSet settings <=? trialIndex s + 1
     then view s' = RESULT /\ onFinishCalls s' = [sessionResults s'] /\
          sessionResults s' = results s /\
          List.length (sessionResults s') = trialsPerSet settings - 1 /\
          ~ In r (sessionResults s')
     else view s' = RUN /\ phase s' = PREP /\
          trialIndex s' = trialIndex s + 1 /\
          results s' = results s ++ [r]) /\
  (forall s' now,
      phase s' = ANSWER ->
      exists r,
        results (submitAnswer settings true now s') = results s' ++ [r] /\
        isCorrect r = true /\ isVerbal r = true).
Proof.
  intros Hvalid Hmode Hr.
  assert (Hn : 1 <= trialsPerSet settings)
    by (destruct Hvalid as (_ & [Hn _] & _); exact Hn).
  destruct (reachable_inv Hn Hr) as [Hs _].
  destruct (inv_none Hs Hmode) as (Hph & _ & Hres).
  split; [exact Hph |]. split; [exact Hres |]. split; [| split].
  - intros payload r Hp Hin. pose proof (inv_calls Hs) as Hc.
    destruct (view s); try contradiction.
    + rewrite Hc in Hp. destruct Hp.
    + rewrite Hc in Hp. destruct Hp.
    + destruct Hc as (Hc & _ & Hf). rewrite Hc in Hp.
      destruct Hp as [<- | []]. rewrite Hf in Hin.
      apply Hres. eapply In_firstn. exact Hin.
  - intros Hv Hp Hhide now. cbv zeta.
    pose proof (@fire_HIDE_none_record settings rand pos history s now
                  Hvalid Hmode Hr Hv Hp Hhide) as Hfire.
    cbv zeta in Hfire.
    pose proof (inv_count Hs Hv) as Hcount. rewrite Hhide in Hcount.
    cbn [Phase_eqb] in Hcount.
    destruct (trialsPerSet settings <=? trialIndex s + 1) eqn:Hlast.
    + destruct Hfire as (Hview & Hcalls & Hsess).
      apply Nat.leb_le in Hlast. pose proof (inv_index Hs) as Hidx.
      rewrite Hsess. repeat split; try assumption; try lia.
      intros Hin. apply In_nth_error in Hin. destruct Hin as [k Hk].
      pose proof (inv_trial Hs _ Hk) as Ht. cbn [trial] in Ht.
      assert (k < List.length (results s))
        by (apply nth_error_Some; congruence).
      lia.
    + exact Hfire.
  - intros s' now Hph'. eexists.
    split; [apply submitAnswer_record; exact Hph' |].
    split; reflexivity.
Qed.

(** The scenario of the specification, [answerMode] none and three
    trials, at the HIDE timeout of the third trial: [onFinish] receives
    the two results of the first two trials. *)
Lemma none_mode_records_verbal_results_and_loses_the_last_witness :
  let s := run scenarioNone scenarioRandom
               (map TimerFired [1; 2; 3; 4; 5; 6; 7; 8]%Z)
               (mount scenarioNone scenarioRandom 0 []) in
  let s' := step scenarioNone scenarioRandom (TimerFired 9) s in
  phase s = HIDE /\ trialIndex s + 1 = trialsPerSet scenarioNone /\
  view s' = RESULT /\ onFinishCalls s' = [sessionResults s'] /\
  sessionResults s' = results s /\
  List.length (sessionResults s') = 2 /\
  (forall r,
      In r (sessionResults s') -> isCorrect r = true /\ isVerbal r = true).
Proof.
  intros s s'.
  assert (Hvalid : validSettings scenarioNone).
  { unfold validSettings. cbn.
    repeat split; try lia; [left | right]; reflexivity. }
  assert (Hr : reachable scenarioNone scenarioRandom 0 [] s)
    by apply reachable_run, reachable_mount.
  assert (Hv : view s = RUN) by (vm_compute; reflexivity).
  assert (Hp : isPaused s = false) by (vm_compute; reflexivity).
  assert (Hph : phase s = HIDE) by (vm_compute; reflexivity).
  assert (Hlast : (trialsPerSet scenarioNone <=? trialIndex s + 1) = true)
    by (vm_compute; reflexivity).
  destruct (@none_mode_records_verbal_results_and_loses_the_last
              scenarioNone scenarioRandom 0 [] s Hvalid eq_refl Hr)
    as (_ & Hres & _ & Hfire & _).
  specialize (Hfire Hv Hp Hph 9%Z). cbv zeta in Hfire.
  rewrite Hlast in Hfire. fold s' in Hfire.
  destruct Hfire as (Hview & Hcalls & Hsess & Hlen & _).
  split; [exact Hph |].
  split; [vm_compute; reflexivity |].
  split; [exact Hview |]. split; [exact Hcalls |]. split; [exact Hsess |].
  split; [exact Hlen |].
  intros r Hin. apply Hres. rewrite <- Hsess. exact Hin.
Defined.

(** That scenario from the start: the phases go PREP, SHOW, HIDE three
    times and never to ANSWER; the first trial is recorded when the
    second begins and the second when the third begins; the set ends at
    the ninth timeout with the results of two trials, both verbal and
    correct. *)
Example scenario_none_three_trials :
  let after k :=
    run scenarioNone scenarioRandom
        (map TimerFired (firstn k [1; 2; 3; 4; 5; 6; 7; 8; 9]%Z))
        (mount scenarioNone scenarioRandom 0 []) in
  map (fun k => phase (after k)) [0; 1; 2; 3; 4; 5; 6; 7; 8]
  = [PREP; SHOW; HIDE; PREP; SHOW; HIDE; PREP; SHOW; HIDE] /\
  map (fun k => view (after k)) [0; 1; 2; 3; 4; 5; 6; 7; 8; 9]
  = [RUN; RUN; RUN; RUN; RUN; RUN; RUN; RUN; RUN; RESULT] /\
  map (fun k => map trial (results (after k))) [0; 3; 6]
  = [[]; [1]; [1; 2]] /\
  map trial (sessionResults (after 9)) = [1; 2] /\
  map isVerbal (sessionResults (after 9)) = [true; true] /\
  map isCorrect (sessionResults (after 9)) = [true; true] /\
  map input (sessionResults (after 9)) = ["(None)"; "(None)"]%string.
Proof. vm_compute. repeat split. Qed.
